(** * figma-bridge-mcp: the SSE transport client, its result cache, the
    progress tracker and the progressive-fallback extractor.

    Shallow embedding of
      - clients/figma-client.ts   (class FigmaClient),
      - services/progress-tracker.ts (class ProgressTracker),
      - services/streaming-extractor.ts (class StreamingExtractor),
      - types/figma.ts, types/performance.ts (constants and error classes).

    Conventions.
      - A JS [number] holding milliseconds or a counter is a [Z]; a number
        obtained by multiplying with a decimal fraction (stage timeouts,
        the efficiency score) is a [Q], i.e. IEEE rounding is idealised
        to exact rational arithmetic.
      - JS strings are [string]; values of type [any] are [JsVal].
      - An async method is a function of an explicit world state that
        either resolves, rejects or never settles ([Outcome]).
      - The remote side (fetch, the SSE byte stream, the clock) is data
        supplied to the functions, never computed by them. *)

From Stdlib Require Import ZArith QArith Qround Qminmax String Ascii List Lia Lqa Bool.
From Stdlib Require Import DecimalString.
From stdpp Require Import gmap strings.

Import ListNotations.
Open Scope string_scope.
Open Scope Z_scope.

(* ===================================================================== *)
(** * JavaScript strings *)
(* ===================================================================== *)

Module JsString.

(** [s.startsWith(p)] *)
Definition startsWith (s p : string) : bool := String.prefix p s.

(** the rest of [s] after the literal [p], when [s] starts with [p] *)
Fixpoint strip_prefix (p s : string) : option string :=
  match p, s with
  | EmptyString, _ => Some s
  | String a p', String b s' =>
      if Ascii.eqb a b then strip_prefix p' s' else None
  | String _ _, EmptyString => None
  end.

(** [s.includes(needle)] *)
Fixpoint includes (s needle : string) : bool :=
  String.prefix needle s ||
  match s with
  | EmptyString => false
  | String _ s' => includes s' needle
  end.

(** [s.substring(n)] *)
Fixpoint substring_from (n : nat) (s : string) : string :=
  match n, s with
  | O, _ => s
  | S n', String _ s' => substring_from n' s'
  | S _, EmptyString => EmptyString
  end.

(** [s.split('\n')]: never empty, [''.split('\n')] is [['']] *)
Fixpoint split_lines (s : string) : list string :=
  match s with
  | EmptyString => [EmptyString]
  | String c s' =>
      if Ascii.eqb c "010"%char then EmptyString :: split_lines s'
      else match split_lines s' with
           | l :: ls => String c l :: ls
           | [] => [String c EmptyString]
           end
  end.

(** white space and line terminators removed by [trim] (ASCII part) *)
Definition is_space (c : ascii) : bool :=
  let n := nat_of_ascii c in
  (Nat.eqb n 32 || Nat.eqb n 9 || Nat.eqb n 10 || Nat.eqb n 11
   || Nat.eqb n 12 || Nat.eqb n 13)%bool.

Fixpoint trimStart (s : string) : string :=
  match s with
  | String c s' => if is_space c then trimStart s' else s
  | EmptyString => EmptyString
  end.

Fixpoint trimEnd (s : string) : string :=
  match s with
  | EmptyString => EmptyString
  | String c s' =>
      match trimEnd s' with
      | EmptyString => if is_space c then EmptyString else String c EmptyString
      | t => String c t
      end
  end.

(** [s.trim()] *)
Definition trim (s : string) : string := trimEnd (trimStart s).

Definition is_empty (s : string) : bool :=
  match s with EmptyString => true | _ => false end.

Definition is_digit (c : ascii) : bool :=
  let n := nat_of_ascii c in (Nat.leb 48 n && Nat.leb n 57)%bool.

Definition is_alnum (c : ascii) : bool :=
  let n := nat_of_ascii c in
  (is_digit c || (Nat.leb 65 n && Nat.leb n 90)
   || (Nat.leb 97 n && Nat.leb n 122))%bool.

Definition in_range (lo hi : nat) (c : ascii) : bool :=
  let n := nat_of_ascii c in (Nat.leb lo n && Nat.leb n hi)%bool.

(** the longest prefix of [s] whose characters satisfy [p] (a greedy
    character class under [+] or [*]) *)
Fixpoint take_while (p : ascii -> bool) (s : string) : string :=
  match s with
  | String c s' => if p c then String c (take_while p s') else EmptyString
  | EmptyString => EmptyString
  end.

(** [s.match(re)] for an unanchored regular expression: the matcher
    [at_head] is tried at every position from the left, first hit wins *)
Fixpoint search {A : Type} (at_head : string -> option A) (s : string)
  : option A :=
  match at_head s with
  | Some x => Some x
  | None =>
      match s with
      | EmptyString => None
      | String _ s' => search at_head s'
      end
  end.

(** [s.replace(/%3A/g, ':')] *)
Fixpoint replace_3A (s : string) : string :=
  match s with
  | String "%" (String "3" (String "A" r)) => String ":" (replace_3A r)
  | String c r => String c (replace_3A r)
  | EmptyString => EmptyString
  end.

(** [(s.match(/-/g) || []).length] *)
Fixpoint count_hyphens (s : string) : nat :=
  match s with
  | String c s' =>
      ((if Ascii.eqb c "-"%char then 1 else 0) + count_hyphens s')%nat
  | EmptyString => O
  end.

(** template-literal rendering of a non-negative integer *)
Definition of_nat (n : nat) : string :=
  NilZero.string_of_uint (Nat.to_uint n).

(** template-literal rendering of an integer number *)
Definition of_Z (z : Z) : string :=
  if z <? 0 then "-" ++ of_nat (Z.to_nat (- z)) else of_nat (Z.to_nat z).

(** every character of [s] satisfies [p] *)
Fixpoint all (p : ascii -> bool) (s : string) : bool :=
  match s with
  | String c s' => (p c && all p s')%bool
  | EmptyString => true
  end.

(** not the line feed *)
Definition not_lf (c : ascii) : bool := negb (Ascii.eqb c "010"%char).

End JsString.

(* ===================================================================== *)
(** * Values of type [any] and thrown errors *)
(* ===================================================================== *)

(** A JSON-like JavaScript value. Object fields are kept in insertion
    order. *)
#[warnings="-register-all"]
Inductive JsVal : Type :=
| JUndefined
| JNull
| JBool (b : bool)
| JNum (q : Q)
| JStr (s : string)
| JArr (items : list JsVal)
| JObj (fields : list (string * JsVal)).

Module Js.

(** JavaScript truthiness ([if (v)], [v || d], [!v]) *)
Definition truthy (v : JsVal) : bool :=
  match v with
  | JUndefined | JNull => false
  | JBool b => b
  | JNum q => negb (Qeq_bool q 0)
  | JStr s => negb (JsString.is_empty s)
  | JArr _ | JObj _ => true
  end.

(** [a || b] *)
Definition or (a b : JsVal) : JsVal := if truthy a then a else b.

Fixpoint assoc (k : string) (fs : list (string * JsVal)) : option JsVal :=
  match fs with
  | [] => None
  | (k', v) :: fs' => if String.eqb k k' then Some v else assoc k fs'
  end.

(** [k in v] for a value already known to be of type 'object' *)
Definition has_key (k : string) (v : JsVal) : bool :=
  match v with
  | JObj fs => match assoc k fs with Some _ => true | None => false end
  | _ => false
  end.

(** [typeof v === 'object'] *)
Definition typeof_object (v : JsVal) : bool :=
  match v with
  | JNull | JArr _ | JObj _ => true
  | _ => false
  end.

(** [v.k]: [None] is the TypeError raised on [null] and [undefined];
    array [length] is the only own property of non-objects modelled *)
Definition get (v : JsVal) (k : string) : option JsVal :=
  match v with
  | JUndefined | JNull => None
  | JObj fs => Some (match assoc k fs with Some x => x | None => JUndefined end)
  | JArr items =>
      Some (if String.eqb k "length"
            then JNum (inject_Z (Z.of_nat (length items)))
            else JUndefined)
  | JStr s =>
      Some (if String.eqb k "length"
            then JNum (inject_Z (Z.of_nat (String.length s)))
            else JUndefined)
  | _ => Some JUndefined
  end.

(** [v?.k] *)
Definition get_opt (v : JsVal) (k : string) : JsVal :=
  match get v k with Some x => x | None => JUndefined end.

Fixpoint assoc_set (k : string) (x : JsVal) (fs : list (string * JsVal))
  : list (string * JsVal) :=
  match fs with
  | [] => [(k, x)]
  | (k', v) :: fs' =>
      if String.eqb k k' then (k, x) :: fs' else (k', v) :: assoc_set k x fs'
  end.

(** [v.k = x] on a value for which [v.k] did not throw; assignments to
    properties of primitives are silently dropped *)
Definition set (v : JsVal) (k : string) (x : JsVal) : JsVal :=
  match v with
  | JObj fs => JObj (assoc_set k x fs)
  | _ => v
  end.

(** [String(v)] / template-literal rendering. A number that is not an
    integer is shown as a fraction (decimal expansion is not modelled). *)
Fixpoint toString (v : JsVal) : string :=
  match v with
  | JUndefined => "undefined"
  | JNull => "null"
  | JBool b => if b then "true" else "false"
  | JNum q =>
      if Pos.eqb (Qden q) 1 then JsString.of_Z (Qnum q)
      else JsString.of_Z (Qnum q) ++ "/" ++ JsString.of_Z (Z.pos (Qden q))
  | JStr s => s
  | JArr items =>
      (fix join (l : list JsVal) : string :=
         match l with
         | [] => ""
         | x :: r =>
             let here := match x with
                         | JUndefined | JNull => ""
                         | _ => toString x
                         end in
             match r with
             | [] => here
             | _ => here ++ "," ++ join r
             end
         end) items
  | JObj _ => "[object Object]"
  end.

End Js.

(** Classes of thrown values the code tells apart with [instanceof]. *)
Inductive ErrorClass : Type :=
| PlainError                  (* Error and subclasses other than below *)
| TypeErrorClass              (* TypeError *)
| FigmaClientError
| FigmaServerUnavailableError (* extends FigmaClientError *)
| FigmaAuthenticationError    (* extends FigmaClientError *)
| NotAnError.                 (* a thrown value that is not an Error *)

(** A thrown value: for [NotAnError], [message] holds [String(value)]. *)
Record JsError : Type := mkError {
  err_class : ErrorClass;
  message : string;
  code : option string;
  statusCode : option Z
}.

Module Err.

Definition Error (msg : string) : JsError :=
  mkError PlainError msg None None.

(** [new FigmaClientError(message, code, statusCode?)] *)
Definition ClientError (msg c : string) (st : option Z) : JsError :=
  mkError FigmaClientError msg (Some c) st.

(** [new FigmaServerUnavailableError()] *)
Definition ServerUnavailable : JsError :=
  mkError FigmaServerUnavailableError
    "Figma MCP server is not available. Please ensure Figma desktop app is running."
    (Some "SERVER_UNAVAILABLE") (Some 503).

(** [new FigmaAuthenticationError()] *)
Definition Authentication : JsError :=
  mkError FigmaAuthenticationError
    "Authentication failed. Please check your Figma permissions."
    (Some "AUTH_FAILED") (Some 401).

(** [e instanceof FigmaClientError] *)
Definition isClientError (e : JsError) : bool :=
  match err_class e with
  | FigmaClientError | FigmaServerUnavailableError
  | FigmaAuthenticationError => true
  | _ => false
  end.

(** [e instanceof TypeError] *)
Definition isTypeError (e : JsError) : bool :=
  match err_class e with TypeErrorClass => true | _ => false end.

(** [error instanceof Error ? error.message : String(error)] *)
Definition text (e : JsError) : string := message e.

End Err.

(** How a promise ends: it resolves, rejects, or never settles. *)
Inductive Settled (A : Type) : Type :=
| Resolved (a : A)
| Rejected (e : JsError)
| Pending.
Arguments Resolved {A} a.
Arguments Rejected {A} e.
Arguments Pending {A}.

(* ===================================================================== *)
(** * clients/figma-client.ts *)
(* ===================================================================== *)

Module FigmaClient.

Record FigmaClientConfig : Type := {
  serverUrl : string;
  timeout : Z;
  retryAttempts : Z;
  cacheEnabled : bool;
  cacheTTL : Z
}.

Definition DEFAULT_FIGMA_CLIENT_CONFIG : FigmaClientConfig := {|
  serverUrl := "http://127.0.0.1:3845";
  timeout := 120000;
  retryAttempts := 1;
  cacheEnabled := true;
  cacheTTL := 300000
|}.

(** ** parseFigmaUrl *)

Record ParsedUrl : Type := { fileId : string; nodeId : option string }.

(** [/figma\.com\/(?:file|design)\/([a-zA-Z0-9]+)/] tried at the head of
    [s]; the result is capture group 1 *)
Definition urlPattern_at (s : string) : option string :=
  match JsString.strip_prefix "figma.com/" s with
  | None => None
  | Some r =>
      let after_kind :=
        match JsString.strip_prefix "file" r with
        | Some r' => Some r'
        | None => JsString.strip_prefix "design" r
        end in
      match after_kind with
      | None => None
      | Some r' =>
          match JsString.strip_prefix "/" r' with
          | None => None
          | Some r'' =>
              let id := JsString.take_while JsString.is_alnum r'' in
              if JsString.is_empty id then None else Some id
          end
      end
  end.

Definition not_amp (c : ascii) : bool := negb (Ascii.eqb c "&"%char).

(** [/[?&]node-id=([^&]+)/] tried at the head of [s] *)
Definition nodeIdPattern_at (s : string) : option string :=
  match s with
  | String c r =>
      if (Ascii.eqb c "?"%char || Ascii.eqb c "&"%char)%bool then
        match JsString.strip_prefix "node-id=" r with
        | Some r' =>
            let v := JsString.take_while not_amp r' in
            if JsString.is_empty v then None else Some v
        | None => None
        end
      else None
  | EmptyString => None
  end.

Definition parseFigmaUrl (url : string) : ParsedUrl + JsError :=
  match JsString.search urlPattern_at url with
  | None => inr (Err.ClientError "Invalid Figma URL format" "INVALID_URL" None)
  | Some id =>
      let nodeIdMatch := JsString.search nodeIdPattern_at url in
      let nodeId :=
        match nodeIdMatch with
        | Some v => Some (JsString.replace_3A v)
        | None => None
        end in
      inl {| fileId := id;
             nodeId := match nodeId with
                       | Some n => if JsString.is_empty n then None else Some n
                       | None => None
                       end |}
  end.

(** ** Result cache *)

Record CacheEntry : Type := {
  data : JsVal;
  timestamp : Z;
  ttl : Z
}.

(** [getFromCache(key)] at clock reading [now]: the value returned and
    the cache afterwards *)
Definition getFromCache (cache : gmap string CacheEntry) (key : string)
    (now : Z) : JsVal * gmap string CacheEntry :=
  match cache !! key with
  | None => (JNull, cache)
  | Some entry =>
      if now - timestamp entry >? ttl entry
      then (JNull, delete key cache)
      else (data entry, cache)
  end.

(** [setCache(key, data)] at clock reading [now] *)
Definition setCache (config : FigmaClientConfig)
    (cache : gmap string CacheEntry) (key : string) (d : JsVal) (now : Z)
  : gmap string CacheEntry :=
  <[ key := {| data := d; timestamp := now; ttl := cacheTTL config |} ]> cache.

Definition clearCache (cache : gmap string CacheEntry)
  : gmap string CacheEntry := ∅.

(** ** The network as seen by one request attempt *)

(** What one [reader.read()] yields. A stream is the list of its reads
    in order; past the end of the list no further read settles. *)
Inductive ReadResult : Type :=
| Chunk (text : string)          (* { value, done: false }, decoded *)
| Done                           (* { done: true } *)
| ReadError (e : JsError).       (* the read rejects *)

Record HttpResponse : Type := {
  status : Z;
  statusText : string;
  responseText : string;              (* await response.text() *)
  body : option (list ReadResult)     (* response.body?.getReader() *)
}.

(** [response.ok] *)
Definition ok (r : HttpResponse) : bool :=
  ((200 <=? status r) && (status r <=? 299))%bool.

Inductive FetchResult : Type :=
| FetchResolves (r : HttpResponse)
| FetchRejects (e : JsError).

(** The remote side during one attempt: the answer to [GET /sse] and the
    answer to the [POST] as a function of the URL posted to. *)
Record Exchange : Type := {
  sse : FetchResult;
  session : string -> FetchResult
}.

(** ** Session negotiation *)

(** [lines.indexOf(line)] for a [line] taken from [lines] *)
Fixpoint indexOf (lines : list string) (line : string) : nat :=
  match lines with
  | [] => O
  | l :: ls => if String.eqb l line then O else S (indexOf ls line)
  end.

(** the [for (const line of lines)] loop that looks for the
    [event: endpoint] frame; [rest] is the part of [lines] still to visit *)
Fixpoint endpointLoop (lines rest : list string) : option string :=
  match rest with
  | [] => None
  | line :: rest' =>
      if JsString.startsWith line "event: endpoint" then
        let dataLineIndex := S (indexOf lines line) in
        match lines !! dataLineIndex with
        | Some dataLine =>
            if JsString.startsWith dataLine "data: "
            then Some (JsString.substring_from 6 dataLine)
            else endpointLoop lines rest'
        | None => endpointLoop lines rest'
        end
      else endpointLoop lines rest'
  end.

(** [sessionEndpoint] after the loop over the first chunk ([None] is
    [null]) *)
Definition sessionEndpointOf (chunk : string) : option string :=
  let lines := JsString.split_lines chunk in
  endpointLoop lines lines.

(** ** Response correlation *)

Section WithJSON.

(** [JSON.parse]; [None] when it throws a SyntaxError *)
Variable JSON_parse : string -> option JsVal.

(** [responseData.result || responseData.error] inside the [try]: a
    TypeError on [null] lands in the empty [catch] *)
Definition hasResultOrError (responseData : JsVal) : bool :=
  match Js.get responseData "result", Js.get responseData "error" with
  | Some r, Some e => Js.truthy (Js.or r e)
  | _, _ => false
  end.

(** Where the [for] loop over the complete lines stands: looking for
    an [event: message] line, or just past one, skipping blank lines
    up to the candidate data line. *)
Inductive ScanMode : Type := Searching | AfterEvent.

(** the [for (let i = 0; i < lines.length - 1; i++)] loop over the
    complete lines of the buffer; [Some r] is the accepted payload *)
Fixpoint scanLines (mode : ScanMode) (lines : list string) : option JsVal :=
  match lines with
  | [] => None
  | l :: rest =>
      match mode with
      | Searching =>
          if JsString.startsWith (JsString.trim l) "event: message"
          then scanLines AfterEvent rest
          else scanLines Searching rest
      | AfterEvent =>
          if JsString.is_empty (JsString.trim l)
          then scanLines AfterEvent rest       (* skip empty lines *)
          else if JsString.startsWith l "data: " then
            match JSON_parse (JsString.substring_from 6 l) with
            | Some responseData =>
                if hasResultOrError responseData
                then Some responseData
                else scanLines Searching rest
            | None => scanLines Searching rest (* continue if parse fails *)
            end
          else scanLines Searching rest
      end
  end.

(** [listenForResponse] raced against the response timer: the reads
    still to come and the carried [buffer]; when the reads run out
    the timer fires *)
Fixpoint listenForResponse (request_id : Z) (reads : list ReadResult)
    (buffer : string) : Settled JsVal :=
  match reads with
  | [] => Rejected (Err.ClientError "Response timeout" "TIMEOUT" None)
  | Done :: _ =>
      Rejected (Err.ClientError "SSE stream ended without response"
                  "STREAM_ENDED" None)
  | ReadError e :: _ => Rejected e
  | Chunk chunk :: rest =>
      if JsString.is_empty chunk then listenForResponse request_id rest buffer
      else
        let buffer1 := buffer ++ chunk in
        let lines := JsString.split_lines buffer1 in
        (* keep last incomplete line in buffer *)
        let buffer2 := List.last lines "" in
        match scanLines Searching (List.removelast lines) with
        | Some responseData =>
            (* override the ID to match our request *)
            Resolved (Js.set responseData "id" (JNum (inject_Z request_id)))
        | None => listenForResponse request_id rest buffer2
        end
  end.

(** the outer [catch] of [makeRequestWithSSE] *)
Definition requestCatch (error : JsError) : JsError :=
  if Err.isClientError error then error
  else if (Err.isTypeError error
           && JsString.includes (message error) "fetch")%bool
  then Err.ServerUnavailable
  else Err.ClientError ("Request failed: " ++ Err.text error)
         "REQUEST_FAILED" None.

(** the [try] block of [makeRequestWithSSE] *)
Definition makeRequestWithSSE_try (config : FigmaClientConfig)
    (request_id : Z) (x : Exchange) : Settled JsVal :=
  (* Step 1: establish SSE connection *)
  match sse x with
  | FetchRejects e => Rejected e
  | FetchResolves response =>
      if negb (ok response) then Rejected Err.ServerUnavailable
      else
        match body response with
        | None => Rejected (Err.Error "No response body")
        | Some reads =>
            (* Step 2: get session endpoint *)
            match reads with
            | [] => Pending
            | ReadError e :: _ => Rejected e
            | Done :: _ => Rejected (Err.Error "SSE stream ended prematurely")
            | Chunk chunk :: later =>
                match sessionEndpointOf chunk with
                | None => Rejected (Err.Error "No session endpoint found")
                | Some sessionEndpoint =>
                    if JsString.is_empty sessionEndpoint
                    then Rejected (Err.Error "No session endpoint found")
                    else
                      (* Step 3: send request to session endpoint *)
                      let sessionUrl := serverUrl config ++ sessionEndpoint in
                      match session x sessionUrl with
                      | FetchRejects e => Rejected e
                      | FetchResolves sessionResponse =>
                          if negb (status sessionResponse =? 202) then
                            Rejected
                              (Err.ClientError
                                 ("Unexpected session response: "
                                  ++ JsString.of_Z (status sessionResponse))
                                 "UNEXPECTED_RESPONSE"
                                 (Some (status sessionResponse)))
                          else
                            (* Step 4: listen for response via SSE *)
                            listenForResponse request_id later ""
                      end
                end
            end
        end
  end.

Definition makeRequestWithSSE (config : FigmaClientConfig)
    (request_id : Z) (x : Exchange) : Settled JsVal :=
  match makeRequestWithSSE_try config request_id x with
  | Rejected error => Rejected (requestCatch error)
  | r => r
  end.

(** ** Retry policy *)

(** What [makeRequest] does that is visible from outside, in order. *)
Inductive TransportEvent : Type :=
| Attempted (attempt : Z) (request_id : Z)
| Slept (attempt : Z) (delay : Z).

Record TransportState : Type := {
  requestId : Z;
  events : list TransportEvent
}.

(** [lastError = error instanceof Error ? error : new Error(String(error))] *)
Definition asError (error : JsError) : JsError :=
  match err_class error with
  | NotAnError => Err.Error (message error)
  | _ => error
  end.

(** [Math.min(1000 * Math.pow(2, attempt - 1), 5000)] *)
Definition backoffDelay (attempt : Z) : Z :=
  Z.min (1000 * 2 ^ (attempt - 1)) 5000.

(** the [for (let attempt = 1; attempt <= retryAttempts; attempt++)]
    loop from [attempt] on, with [remaining] iterations to go; [net]
    gives the remote side's behaviour for each request id *)
Fixpoint retryLoop (config : FigmaClientConfig) (net : Z -> Exchange)
    (remaining : nat) (attempt : Z) (lastError : option JsError)
    (st : TransportState) : Settled JsVal * TransportState :=
  match remaining with
  | O =>
      (* throw lastError! *)
      (Rejected (match lastError with
                 | Some e => e
                 | None => mkError NotAnError "undefined" None None
                 end), st)
  | S remaining' =>
      let id := requestId st + 1 in           (* ++this.requestId *)
      let st1 := {| requestId := id;
                    events := events st ++ [Attempted attempt id] |} in
      match makeRequestWithSSE config id (net id) with
      | Resolved r => (Resolved r, st1)
      | Pending => (Pending, st1)
      | Rejected error =>
          let lastError' := asError error in
          let st2 :=
            if attempt <? retryAttempts config
            then {| requestId := requestId st1;
                    events := events st1
                              ++ [Slept attempt (backoffDelay attempt)] |}
            else st1 in
          retryLoop config net remaining' (attempt + 1) (Some lastError') st2
      end
  end.

Definition makeRequest (config : FigmaClientConfig) (net : Z -> Exchange)
    (st : TransportState) : Settled JsVal * TransportState :=
  retryLoop config net (Z.to_nat (retryAttempts config)) 1 None st.

(** ** Connection probe *)

(** the outer [catch] of [makeSessionRequest] *)
Definition sessionCatch (error : JsError) : JsError :=
  if Err.isClientError error then error
  else if (Err.isTypeError error
           && JsString.includes (message error) "fetch")%bool
  then Err.ServerUnavailable
  else Err.ClientError ("Session request failed: " ++ Err.text error)
         "SESSION_REQUEST_FAILED" None.

(** [makeSessionRequest], given how the [POST] ends *)
Definition makeSessionRequest (request_id : Z) (post : FetchResult)
  : JsVal + JsError :=
  match post with
  | FetchRejects e => inr (sessionCatch e)
  | FetchResolves response =>
      if negb (ok response) then
        if status response =? 503 then inr Err.ServerUnavailable
        else if status response =? 401 then inr Err.Authentication
        else inr (Err.ClientError
                    ("HTTP " ++ JsString.of_Z (status response) ++ ": "
                     ++ statusText response)
                    "HTTP_ERROR" (Some (status response)))
      else if ((status response =? 202)
               && String.eqb (responseText response) "Accepted")%bool then
        inl (JObj [("jsonrpc", JStr "2.0");
                   ("id", JNum (inject_Z request_id));
                   ("result",
                     JObj [("tools",
                            JArr [JObj [("name", JStr "figma_connected")]])])])
      else
        match JSON_parse (responseText response) with
        | Some d => inl d
        | None =>
            inr (Err.ClientError
                   ("Invalid JSON response: " ++ responseText response)
                   "INVALID_RESPONSE" None)
        end
  end.

End WithJSON.

(** ** Connection probe: establishSSEConnection and testConnection *)

(** [establishSSEConnection]: the session endpoint, [None] for [null].
    Every error on the way lands in the method's [catch] and gives
    [null]; only a first read that never settles leaves it pending. *)
Definition establishSSEConnection (x : Exchange) : Settled (option string) :=
  match sse x with
  | FetchRejects _ => Resolved None
  | FetchResolves response =>
      if negb (ok response) then Resolved None   (* SSE connection failed *)
      else
        match body response with
        | None => Resolved None                  (* No response body *)
        | Some reads =>
            match reads with
            | [] => Pending
            | ReadError _ :: _ => Resolved None
            | Done :: _ => Resolved None         (* ended prematurely *)
            | Chunk chunk :: _ => Resolved (sessionEndpointOf chunk)
            end
        end
  end.

Section Methods.

Variable JSON_parse : string -> option JsVal.
Variable config : FigmaClientConfig.

(** [testConnection()]: the boolean it resolves with and [this.requestId]
    afterwards; [request_id] is [this.requestId] before the call *)
Definition testConnection (request_id : Z) (x : Exchange) : Settled bool * Z :=
  match establishSSEConnection x with
  | Pending => (Pending, request_id)
  | Rejected _ => (Resolved false, request_id)
  | Resolved None => (Resolved false, request_id)
  | Resolved (Some sessionEndpoint) =>
      if JsString.is_empty sessionEndpoint then (Resolved false, request_id)
      else
        match makeSessionRequest JSON_parse (request_id + 1)
                (session x (serverUrl config ++ sessionEndpoint)) with
        | inl _ => (Resolved true, request_id + 1)
        | inr _ => (Resolved false, request_id + 1)
        end
  end.

(** ** getCodeConnectMap *)

(** everything a [FigmaClient] instance holds besides its configuration,
    and the [(method, params)] pairs it has passed to [makeRequest] *)
Record ClientState : Type := {
  cache : gmap string CacheEntry;
  transport : TransportState;
  sent : list (string * JsVal)
}.

(** [handleError(error)] *)
Definition handleError (error : JsError) : JsError :=
  if Err.isClientError error then error
  else Err.ClientError ("Unexpected error: " ++ Err.text error) "UNKNOWN_ERROR" None.

(** the TypeError of a property read on [null] or [undefined]; the text
    is the one V8 gives *)
Definition cannotRead (of_what key : string) : JsError :=
  mkError TypeErrorClass
    ("Cannot read properties of " ++ of_what ++ " (reading '" ++ key ++ "')")
    None None.

(** [v.k], throwing like JavaScript does *)
Definition read (v : JsVal) (k : string) : JsVal + JsError :=
  match Js.get v k with
  | Some x => inl x
  | None => inr (cannotRead (Js.toString v) k)
  end.

(** the [args] object of [getVariableDefinitions] and
    [getCodeConnectMap]: the node id given, else the one in the URL *)
Definition nodeArgs (fileUrl : string) (node : option string)
  : list (string * JsVal) + JsError :=
  let args := [("clientLanguages", JStr "typescript,javascript");
               ("clientFrameworks", JStr "react");
               ("clientName", JStr "figma-bridge-mcp")] in
  match node with
  | Some n =>
      if negb (JsString.is_empty n) then inl (args ++ [("nodeId", JStr n)])%list
      else
        match parseFigmaUrl fileUrl with
        | inr e => inr e
        | inl parsed =>
            match nodeId parsed with
            | Some n' => inl (args ++ [("nodeId", JStr n')])%list
            | None => inl args
            end
        end
  | None =>
      match parseFigmaUrl fileUrl with
      | inr e => inr e
      | inl parsed =>
          match nodeId parsed with
          | Some n' => inl (args ++ [("nodeId", JStr n')])%list
          | None => inl args
          end
      end
  end.

(** [parseCodeConnectResponse(result)] *)
Definition parseCodeConnectResponse (result : JsVal) : JsVal + JsError :=
  match read result "mappings" with
  | inr e => inr e
  | inl mappings =>
      inl (JObj [("mappings", Js.or mappings (JArr []));
                 ("coverage", Js.or (Js.get_opt result "coverage") (JNum 0));
                 ("unmappedComponents",
                   Js.or (Js.get_opt result "unmappedComponents") (JArr []))])
  end.

(** the message an [Error] gets from its constructor argument *)
Definition errorMessage (v : JsVal) : string :=
  match v with JUndefined => "" | _ => Js.toString v end.

(** a JSON-RPC error code as the [statusCode] of the error thrown; a
    code that is not an integer number is not kept *)
Definition statusOf (v : JsVal) : option Z :=
  match v with
  | JNum q => if Pos.eqb (Qden q) 1 then Some (Qnum q) else None
  | _ => None
  end.

(** [`getCodeConnect:${fileUrl}:${nodeId}`] *)
Definition codeConnectKey (fileUrl : string) (node : option string) : string :=
  "getCodeConnect:" ++ fileUrl ++ ":"
  ++ match node with Some n => n | None => "undefined" end.

(** what follows [await this.makeRequest(...)] inside the [try] of
    [getCodeConnectMap]: the value returned or the error thrown *)
Definition codeConnectResult (response : JsVal) : JsVal + JsError :=
  match read response "error" with
  | inr e => inr e
  | inl err =>
      if Js.truthy err then
        inr (Err.ClientError (errorMessage (Js.get_opt err "message"))
               "GET_CODE_CONNECT_FAILED" (statusOf (Js.get_opt err "code")))
      else
        match read response "result" with
        | inr e => inr e
        | inl result => parseCodeConnectResponse result
        end
  end.

(** [getCodeConnectMap(fileUrl, nodeId)]; [tGet] and [tSet] are the clock
    readings of the cache lookup and of the cache store *)
Definition getCodeConnectMap (net : Z -> Exchange) (fileUrl : string)
    (node : option string) (tGet tSet : Z) (st : ClientState)
  : Settled JsVal * ClientState :=
  let cacheKey := codeConnectKey fileUrl node in
  let looked :=
    if cacheEnabled config then getFromCache (cache st) cacheKey tGet
    else (JNull, cache st) in
  if (cacheEnabled config && Js.truthy (fst looked))%bool then
    (Resolved (fst looked),
     {| cache := snd looked; transport := transport st; sent := sent st |})
  else
    match nodeArgs fileUrl node with
    | inr e =>
        (Rejected (handleError e),
         {| cache := snd looked; transport := transport st; sent := sent st |})
    | inl args =>
        let params := JObj [("name", JStr "get_code_connect_map");
                            ("arguments", JObj args)] in
        let out := makeRequest JSON_parse config net (transport st) in
        let sent1 := (sent st ++ [("tools/call", params)])%list in
        match fst out with
        | Pending =>
            (Pending, {| cache := snd looked; transport := snd out; sent := sent1 |})
        | Rejected e =>
            (Rejected (handleError e),
             {| cache := snd looked; transport := snd out; sent := sent1 |})
        | Resolved response =>
            match codeConnectResult response with
            | inr e =>
                (Rejected (handleError e),
                 {| cache := snd looked; transport := snd out; sent := sent1 |})
            | inl result =>
                (Resolved result,
                 {| cache := if cacheEnabled config
                             then setCache config (snd looked) cacheKey result tSet
                             else snd looked;
                    transport := snd out; sent := sent1 |})
            end
        end
    end.

(** [getCacheStats()] *)
Definition getCacheStats (st : ClientState) : nat * Z :=
  (size (cache st), 0).

End Methods.

End FigmaClient.

(* ===================================================================== *)
(** * types/performance.ts and services/progress-tracker.ts *)
(* ===================================================================== *)

Module ProgressTracker.

(** [ExtractionProgress]; the extractor only ever passes the integer
    percentages 0, 50 and 100, so [percentage] is a [Z] *)
Record ExtractionProgress : Type := {
  stage : string;
  percentage : Z;
  message : string;
  duration : Z;
  partialData : JsVal
}.

Record PerformanceMetrics : Type := {
  totalDuration : Z;
  variablesDuration : Z;
  componentsDuration : Z;
  codeDuration : Z;
  timeoutOccurred : bool;
  timeoutStage : option string;
  cacheHits : Z;
  retryAttempts : Z
}.

(** the private fields of the class; the two [Map]s are finite maps *)
Record Tracker : Type := {
  startTime : Z;
  stageStartTimes : gmap string Z;
  stageDurations : gmap string Z;
  currentStage : string;
  t_timeoutOccurred : bool;
  t_timeoutStage : option string;
  t_cacheHits : Z;
  t_retryAttempts : Z
}.

(** a freshly constructed tracker *)
Definition new : Tracker := {|
  startTime := 0;
  stageStartTimes := ∅;
  stageDurations := ∅;
  currentStage := "";
  t_timeoutOccurred := false;
  t_timeoutStage := None;
  t_cacheHits := 0;
  t_retryAttempts := 0
|}.

(** [start()] at clock reading [now] *)
Definition start (now : Z) : Tracker := {|
  startTime := now;
  stageStartTimes := ∅;
  stageDurations := ∅;
  currentStage := "";
  t_timeoutOccurred := false;
  t_timeoutStage := None;
  t_cacheHits := 0;
  t_retryAttempts := 0
|}.

(** [map.get(k) || dflt] on a [Map<string, number>] *)
Definition get_or (m : gmap string Z) (k : string) (dflt : Z) : Z :=
  match m !! k with
  | Some v => if v =? 0 then dflt else v
  | None => dflt
  end.

(** [map.has(k)] *)
Definition has (m : gmap string Z) (k : string) : bool :=
  match m !! k with Some _ => true | None => false end.

Definition getDefaultMessage (stage : string) (percentage : Z) : string :=
  if percentage =? 100 then
    if String.eqb stage "variables" then "Variables extraction completed"
    else if String.eqb stage "components" then "Components analysis completed"
    else if String.eqb stage "code" then "Code generation completed"
    else if String.eqb stage "complete" then "Extraction completed successfully"
    else stage ++ " completed"
  else
    let pct := "(" ++ JsString.of_Z percentage ++ "%)" in
    if String.eqb stage "variables" then "Extracting design variables... " ++ pct
    else if String.eqb stage "components" then "Analyzing components... " ++ pct
    else if String.eqb stage "code" then "Generating React code... " ++ pct
    else if String.eqb stage "complete" then "Finalizing extraction..."
    else "Processing " ++ stage ++ "... " ++ pct.

(** the placeholder returned by [collectPartialData] *)
Definition collectPartialData : JsVal :=
  JObj [("variables", JArr []); ("components", JArr [])].

Definition set_stage_tables (t : Tracker) (cur : string)
    (starts durs : gmap string Z) : Tracker := {|
  startTime := startTime t;
  stageStartTimes := starts;
  stageDurations := durs;
  currentStage := cur;
  t_timeoutOccurred := t_timeoutOccurred t;
  t_timeoutStage := t_timeoutStage t;
  t_cacheHits := t_cacheHits t;
  t_retryAttempts := t_retryAttempts t
|}.

(** [updateStage(stage, percentage, message?)] at clock reading [now];
    [msg = None] is an omitted message *)
Definition updateStage (t : Tracker) (stage : string) (percentage : Z)
    (msg : option string) (now : Z) : ExtractionProgress * Tracker :=
  (* track stage transitions *)
  let t1 :=
    if negb (String.eqb stage (currentStage t)) then
      let durs :=
        if (negb (JsString.is_empty (currentStage t))
            && negb (has (stageDurations t) (currentStage t)))%bool
        then
          let previousStart := get_or (stageStartTimes t) (currentStage t) now in
          <[ currentStage t := now - previousStart ]> (stageDurations t)
        else stageDurations t in
      set_stage_tables t stage (<[ stage := now ]> (stageStartTimes t)) durs
    else t in
  (* complete current stage if at 100% *)
  let t2 :=
    if ((percentage =? 100) && negb (has (stageDurations t1) stage))%bool then
      let stageStart := get_or (stageStartTimes t1) stage now in
      set_stage_tables t1 (currentStage t1) (stageStartTimes t1)
        (<[ stage := now - stageStart ]> (stageDurations t1))
    else t1 in
  ({| stage := stage;
      percentage := Z.max 0 (Z.min 100 percentage);
      message := match msg with
                 | Some m => if JsString.is_empty m
                             then getDefaultMessage stage percentage else m
                 | None => getDefaultMessage stage percentage
                 end;
      duration := now - startTime t;
      partialData := collectPartialData |}, t2).

Definition recordTimeout (t : Tracker) (stage : string) : Tracker := {|
  startTime := startTime t;
  stageStartTimes := stageStartTimes t;
  stageDurations := stageDurations t;
  currentStage := currentStage t;
  t_timeoutOccurred := true;
  t_timeoutStage := Some stage;
  t_cacheHits := t_cacheHits t;
  t_retryAttempts := t_retryAttempts t
|}.

Definition recordCacheHit (t : Tracker) : Tracker := {|
  startTime := startTime t;
  stageStartTimes := stageStartTimes t;
  stageDurations := stageDurations t;
  currentStage := currentStage t;
  t_timeoutOccurred := t_timeoutOccurred t;
  t_timeoutStage := t_timeoutStage t;
  t_cacheHits := t_cacheHits t + 1;
  t_retryAttempts := t_retryAttempts t
|}.

Definition recordRetryAttempt (t : Tracker) : Tracker := {|
  startTime := startTime t;
  stageStartTimes := stageStartTimes t;
  stageDurations := stageDurations t;
  currentStage := currentStage t;
  t_timeoutOccurred := t_timeoutOccurred t;
  t_timeoutStage := t_timeoutStage t;
  t_cacheHits := t_cacheHits t;
  t_retryAttempts := t_retryAttempts t + 1
|}.

(** [getPerformanceMetrics()] at clock reading [now] *)
Definition getPerformanceMetrics (t : Tracker) (now : Z) : PerformanceMetrics := {|
  totalDuration := now - startTime t;
  variablesDuration := get_or (stageDurations t) "variables" 0;
  componentsDuration := get_or (stageDurations t) "components" 0;
  codeDuration := get_or (stageDurations t) "code" 0;
  timeoutOccurred := t_timeoutOccurred t;
  timeoutStage := t_timeoutStage t;
  cacheHits := t_cacheHits t;
  retryAttempts := t_retryAttempts t
|}.

(** the body of [getEfficiencyScore] after [metrics] has been read *)
Definition efficiencyOf (metrics : PerformanceMetrics) : Q :=
  let totalTime := totalDuration metrics in
  let score := 100%Q in
  (* time penalty (target: under 15 seconds) *)
  let score :=
    if totalTime >? 15000
    then (score - Qmin 30 (inject_Z (totalTime - 15000) / 1000))%Q
    else score in
  (* timeout penalty *)
  let score := if timeoutOccurred metrics then (score - 20)%Q else score in
  (* retry penalty *)
  let score := (score - inject_Z (retryAttempts metrics) * 5)%Q in
  (* cache bonus *)
  let score := (score + inject_Z (cacheHits metrics) * 2)%Q in
  Qmax 0 (Qmin 100 score).

(** [getEfficiencyScore()] at clock reading [now] *)
Definition getEfficiencyScore (t : Tracker) (now : Z) : Q :=
  efficiencyOf (getPerformanceMetrics t now).

(** The score as the specification words it: 100, minus one point per
    second beyond the 15 s target capped at 30, minus 20 for any
    timeout, minus 5 per retry, plus 2 per cache hit, clamped to
    [0, 100]. *)
Definition spec_efficiency (totalMs : Z) (timedOut : bool)
    (retries hits : Z) : Q :=
  let secondsOver := Qmax 0 (inject_Z (totalMs - 15000) / 1000) in
  let raw := (100 - Qmin 30 secondsOver
              - (if timedOut then 20 else 0)
              - 5 * inject_Z retries + 2 * inject_Z hits)%Q in
  Qmax 0 (Qmin 100 raw).

End ProgressTracker.

Module Performance.

Record StageTimeouts : Type := {
  variables : Q;
  components : Q;
  code : Q
}.

Definition DEFAULT_STAGE_TIMEOUTS : StageTimeouts := {|
  variables := 5000;
  components := 10000;
  code := 15000
|}.

End Performance.

(* ===================================================================== *)
(** * types/mcp.ts: the input of the streaming extraction *)
(* ===================================================================== *)

Module Mcp.

(** the [options] the extractor reads; an absent option is [None] *)
Record Options : Type := {
  includeCode : option bool;
  includeVariants : option bool;
  includeTokens : option bool;
  maxWaitTime : option Q
}.

(** [StreamingFigmaContextInput] *)
Record StreamingFigmaContextInput : Type := {
  url : option string;
  figmaData : JsVal;          (* [JUndefined] when absent *)
  options : option Options
}.

End Mcp.

(* ===================================================================== *)
(** * services/streaming-extractor.ts *)
(* ===================================================================== *)

Module StreamingExtractor.

Import ProgressTracker.

(** ** Data *)

(** the [basicMetadata] object of the emergency level; [extractedAt] is
    the clock reading behind [new Date().toISOString()] *)
Record Metadata : Type := {
  extractionMethod : string;
  figmaFileId : string;
  figmaNodeId : option string;
  extractedAt : Z;
  complexityDetected : bool;
  recommendedApproach : string
}.

(** the [finalResult] / [result] object *)
Record FigmaData : Type := {
  fileId : JsVal;
  nodeId : JsVal;
  url : JsVal;
  code : JsVal;
  components : JsVal;
  variables : JsVal;
  codeConnectMap : JsVal;
  metadata : option Metadata
}.

Record StreamingExtractionResult : Type := {
  success : bool;
  figmaData : FigmaData;
  performance : PerformanceMetrics;
  warnings : list string;
  errors : list string
}.

(** ** The Figma client as the extractor sees it *)

Inductive ClientCall : Type :=
| TestConnection
| GetVariableDefinitions (fileUrl : string) (node : option string)
| GetCodeConnectMap (fileUrl : string) (node : option string)
| GetCode (selUrl selNode : string) (includeImages includeVariables : bool).

(** How the promise returned by a client method ends: after [latency]
    milliseconds with a value or an error, or never. *)
Inductive Reply : Type :=
| After (latency : Z) (r : JsVal + JsError)
| NoReply.

(** A client is any function from the calls made so far and the call
    being made to the way that call ends. *)
Definition Client : Type := list ClientCall -> ClientCall -> Reply.

(** ** World state and the monad of an async method *)

Record State : Type := mkState {
  now : Z;                                (* Date.now() *)
  tracker : Tracker;                      (* this.progressTracker *)
  calls : list ClientCall;                (* calls made on this.figmaClient *)
  delivered : list ExtractionProgress;    (* arguments onProgress was called with *)
  st_warnings : list string;              (* the [warnings] array *)
  st_errors : list string;                (* the [errors] array *)
  finalResult : FigmaData                 (* the object [finalResult] refers to *)
}.

Inductive Outcome (A : Type) : Type :=
| Ret (a : A) (s : State)        (* returns / resolves *)
| Throw (e : JsError) (s : State) (* throws / rejects *)
| Hang (s : State).               (* awaits a promise that never settles *)
Arguments Ret {A} a s.
Arguments Throw {A} e s.
Arguments Hang {A} s.

Definition M (A : Type) : Type := State -> Outcome A.

Definition ret {A} (a : A) : M A := fun s => Ret a s.

Definition bind {A B} (m : M A) (k : A -> M B) : M B :=
  fun s =>
    match m s with
    | Ret a s' => k a s'
    | Throw e s' => Throw e s'
    | Hang s' => Hang s'
    end.

Definition throw {A} (e : JsError) : M A := fun s => Throw e s.

(** [try { body } catch (error) { handler }] *)
Definition try_catch {A} (body : M A) (handler : JsError -> M A) : M A :=
  fun s =>
    match body s with
    | Throw e s' => handler e s'
    | r => r
    end.

Definition gets {A} (f : State -> A) : M A := fun s => Ret (f s) s.
Definition modify (f : State -> State) : M unit := fun s => Ret tt (f s).

Notation "x <- m ;; k" := (bind m (fun x => k))
  (at level 100, m at next level, right associativity).
Notation "m ;;; k" := (bind m (fun _ => k))
  (at level 100, right associativity).

Definition set_now (v : Z) (s : State) : State :=
  mkState v (tracker s) (calls s) (delivered s) (st_warnings s) (st_errors s)
    (finalResult s).
Definition set_tracker (v : Tracker) (s : State) : State :=
  mkState (now s) v (calls s) (delivered s) (st_warnings s) (st_errors s)
    (finalResult s).
Definition set_calls (v : list ClientCall) (s : State) : State :=
  mkState (now s) (tracker s) v (delivered s) (st_warnings s) (st_errors s)
    (finalResult s).
Definition set_delivered (v : list ExtractionProgress) (s : State) : State :=
  mkState (now s) (tracker s) (calls s) v (st_warnings s) (st_errors s)
    (finalResult s).
Definition set_warnings (v : list string) (s : State) : State :=
  mkState (now s) (tracker s) (calls s) (delivered s) v (st_errors s)
    (finalResult s).
Definition set_errors (v : list string) (s : State) : State :=
  mkState (now s) (tracker s) (calls s) (delivered s) (st_warnings s) v
    (finalResult s).
Definition set_finalResult (v : FigmaData) (s : State) : State :=
  mkState (now s) (tracker s) (calls s) (delivered s) (st_warnings s)
    (st_errors s) v.

(** [warnings.push(w)], [errors.push(e)] *)
Definition pushWarning (w : string) : M unit :=
  modify (fun s => set_warnings (st_warnings s ++ [w]) s).
Definition pushError (e : string) : M unit :=
  modify (fun s => set_errors (st_errors s ++ [e]) s).

(** assignments to fields of [result] *)
Definition assign (f : FigmaData -> FigmaData) : M unit :=
  modify (fun s => set_finalResult (f (finalResult s)) s).

Definition with_variables (v : JsVal) (r : FigmaData) : FigmaData :=
  Build_FigmaData (fileId r) (nodeId r) (url r) (code r) (components r) v
    (codeConnectMap r) (metadata r).
Definition with_codeConnectMap (v : JsVal) (r : FigmaData) : FigmaData :=
  Build_FigmaData (fileId r) (nodeId r) (url r) (code r) (components r)
    (variables r) v (metadata r).
Definition with_code (v : JsVal) (r : FigmaData) : FigmaData :=
  Build_FigmaData (fileId r) (nodeId r) (url r) v (components r)
    (variables r) (codeConnectMap r) (metadata r).
Definition with_components (v : JsVal) (r : FigmaData) : FigmaData :=
  Build_FigmaData (fileId r) (nodeId r) (url r) (code r) v
    (variables r) (codeConnectMap r) (metadata r).
Definition with_metadata (v : Metadata) (r : FigmaData) : FigmaData :=
  Build_FigmaData (fileId r) (nodeId r) (url r) (code r) (components r)
    (variables r) (codeConnectMap r) (Some v).
Definition with_location (f n u : JsVal) (r : FigmaData) : FigmaData :=
  Build_FigmaData f n u (code r) (components r)
    (variables r) (codeConnectMap r) (metadata r).

(** a [string | undefined] as a value *)
Definition optStr (o : option string) : JsVal :=
  match o with Some s => JStr s | None => JUndefined end.

(** truthiness of a [string | undefined] *)
Definition nonEmpty (o : option string) : bool :=
  match o with Some s => negb (JsString.is_empty s) | None => false end.

(** ** Timers *)

(** the delay [setTimeout] really uses: truncated, and at least 1 ms *)
Definition timerDelay (timeout : Q) : Z := Z.max 1 (Qfloor timeout).

(** [Promise.race([call, timer])]: the time it takes and what it
    fulfils with, [None] when it rejects; a call that settles in the very
    millisecond the timer fires is taken to lose *)
Definition race (reply : Reply) (timeout : Q) : Z * option JsVal :=
  match reply with
  | After latency r =>
      if latency <? timerDelay timeout
      then (latency, match r with inl v => Some v | inr _ => None end)
      else (timerDelay timeout, None)
  | NoReply => (timerDelay timeout, None)
  end.

(** [{ success, data? }] *)
Record SafeResult : Type := { ok : bool; data : JsVal }.

Section WithClient.

Variable figmaClient : Client.

(** the progress callback: [None] when it returns, [Some e] when it
    throws [e] *)
Variable onProgress : ExtractionProgress -> option JsError.

(** the state once [this.progressTracker.updateStage(stage, pct, msg)]
    has run and its value has been handed to the callback *)
Definition afterUpdate (stage : string) (pct : Z) (msg : string) (s : State)
  : State :=
  let (progress, t') := updateStage (tracker s) stage pct (Some msg) (now s) in
  set_delivered (delivered s ++ [progress]) (set_tracker t' s).

(** [onProgress(this.progressTracker.updateStage(stage, pct, msg))] *)
Definition report (stage : string) (pct : Z) (msg : string) : M unit :=
  fun s =>
    let progress := fst (updateStage (tracker s) stage pct (Some msg) (now s)) in
    match onProgress progress with
    | None => Ret tt (afterUpdate stage pct msg s)
    | Some e => Throw e (afterUpdate stage pct msg s)
    end.

(** invoking a method of [this.figmaClient] *)
Definition invoke (c : ClientCall) : M Reply :=
  fun s => Ret (figmaClient (calls s) c) (set_calls (calls s ++ [c]) s).

(** [await promise] *)
Definition await (r : Reply) : M JsVal :=
  fun s =>
    match r with
    | After latency (inl v) => Ret v (set_now (now s + latency) s)
    | After latency (inr e) => Throw e (set_now (now s + latency) s)
    | NoReply => Hang s
    end.

(** [try { return { success: true, data: await Promise.race([...]) } }
     catch { return { success: false } }] *)
Definition safeRace (c : ClientCall) (timeout : Q) : M SafeResult :=
  reply <- invoke c ;;
  fun s =>
    let (elapsed, r) := race reply timeout in
    let s' := set_now (now s + elapsed) s in
    match r with
    | Some v => Ret {| ok := true; data := v |} s'
    | None => Ret {| ok := false; data := JUndefined |} s'
    end.

Definition safeExtractVariables (u : string) (n : option string)
    (timeout : Q) : M SafeResult :=
  safeRace (GetVariableDefinitions u n) timeout.

Definition safeExtractComponents (u : string) (n : option string)
    (timeout : Q) : M SafeResult :=
  safeRace (GetCodeConnectMap u n) timeout.

Definition safeExtractCode (input : Mcp.StreamingFigmaContextInput)
    (u n : string) (timeout : Q) : M SafeResult :=
  let opt (f : Mcp.Options -> option bool) : bool :=   (* ?. and ?? true *)
    match Mcp.options input with
    | Some o => match f o with Some b => b | None => true end
    | None => true
    end in
  safeRace (GetCode u n (opt Mcp.includeVariants) (opt Mcp.includeTokens))
    timeout.

(** ** Complexity heuristic and stage timeouts *)

(** [/node-id=([^&]+)/] tried at the head of [s] *)
Definition nodeIdParam_at (s : string) : option string :=
  match JsString.strip_prefix "node-id=" s with
  | Some r =>
      let v := JsString.take_while FigmaClient.not_amp r in
      if JsString.is_empty v then None else Some v
  | None => None
  end.

(** four digits at the head of [s] *)
Definition four_digits_at (s : string) : option unit :=
  match s with
  | String a (String b (String c (String d _))) =>
      if (JsString.is_digit a && JsString.is_digit b
          && JsString.is_digit c && JsString.is_digit d)%bool
      then Some tt else None
  | _ => None
  end.

(** [/\d{4,}/.test(nodeId)] *)
Definition hasHighNumbers (n : string) : bool :=
  match JsString.search four_digits_at n with Some _ => true | None => false end.

(** [(nodeId.match(/-/g) || []).length >= 2] *)
Definition hasMultipleParts (n : string) : bool :=
  Nat.leb 2 (JsString.count_hyphens n).

(** [/^(13\d\d|1[4-9]\d\d|[2-9]\d\d\d)/.test(nodeId)] *)
Definition isInComplexRange (n : string) : bool :=
  match n with
  | String a (String b (String c (String d _))) =>
      (((Ascii.eqb a "1" && Ascii.eqb b "3")
        || (Ascii.eqb a "1" && JsString.in_range 52 57 b)
        || (JsString.in_range 50 57 a && JsString.is_digit b))
       && JsString.is_digit c && JsString.is_digit d)%bool
  | _ => false
  end.

Definition detectComplexLayout (u : option string) : bool :=
  match u with
  | None => false
  | Some u' =>
      if JsString.is_empty u' then false
      else
        match JsString.search nodeIdParam_at u' with
        | Some n => (hasHighNumbers n || hasMultipleParts n
                     || isInComplexRange n)%bool
        | None => false
        end
  end.

(** [input.options?.maxWaitTime || 15000] *)
Definition maxWaitTimeOf (input : Mcp.StreamingFigmaContextInput) : Q :=
  match Mcp.options input with
  | Some o =>
      match Mcp.maxWaitTime o with
      | Some m => if Qeq_bool m 0 then 15000%Q else m
      | None => 15000%Q
      end
  | None => 15000%Q
  end.

Definition getStageTimeouts (input : Mcp.StreamingFigmaContextInput)
  : Performance.StageTimeouts :=
  let maxWaitTime := maxWaitTimeOf input in
  let isComplexLayout := detectComplexLayout (Mcp.url input) in
  if isComplexLayout then
    {| Performance.variables := Qmin 3000 (maxWaitTime * (2 # 10));
       Performance.components := Qmin 5000 (maxWaitTime * (3 # 10));
       Performance.code := Qmin 8000 (maxWaitTime * (5 # 10)) |}
  else
    {| Performance.variables :=
         Qmin (Performance.variables Performance.DEFAULT_STAGE_TIMEOUTS)
           (maxWaitTime * (3 # 10));
       Performance.components :=
         Qmin (Performance.components Performance.DEFAULT_STAGE_TIMEOUTS)
           (maxWaitTime * (6 # 10));
       Performance.code :=
         Qmin (Performance.code Performance.DEFAULT_STAGE_TIMEOUTS)
           maxWaitTime |}.

(** ** The four fallback levels *)

(** [`${v.length}`] *)
Definition lengthText (v : JsVal) : string :=
  Js.toString (Js.get_opt v "length").

(** LEVEL 1: optimal extraction - attempt full data extraction *)
Definition tryOptimalExtraction (input : Mcp.StreamingFigmaContextInput)
    (u : string) (n : option string) (timeouts : Performance.StageTimeouts)
    (shouldIncludeCode isComplexLayout : bool) : M bool :=
  try_catch
    ((* Phase 1: variables *)
     report "variables" 0 "Extracting design variables..." ;;;
     variablesResult <- safeExtractVariables u n (Performance.variables timeouts) ;;
     if ok variablesResult then
       assign (with_variables
                 (Js.or (Js.get_opt (data variablesResult) "variables") (JArr []))) ;;;
       vars <- gets (fun s => variables (finalResult s)) ;;
       report "variables" 100 ("Variables: " ++ lengthText vars ++ " found") ;;;
       (* Phase 2: components *)
       report "components" 0 "Analyzing components..." ;;;
       componentsResult <-
         safeExtractComponents u n (Performance.components timeouts) ;;
       (if ok componentsResult then
          assign (with_codeConnectMap
                    (Js.or (Js.get_opt (data componentsResult) "mappings") (JArr []))) ;;;
          maps <- gets (fun s => codeConnectMap (finalResult s)) ;;
          report "components" 100
            ("Components: " ++ lengthText maps ++ " mappings")
        else
          pushWarning "Component mapping failed, but variables are available") ;;;
       (* Phase 3: code generation *)
       (match n with
        | Some n' =>
            if (shouldIncludeCode && negb (JsString.is_empty n'))%bool then
              (if isComplexLayout then
                 report "code" 0
                   "Complex layout - attempting code generation with aggressive timeout" ;;;
                 pushWarning
                   "Complex layout detected. Code generation may timeout gracefully."
               else
                 report "code" 0 "Generating React code...") ;;;
              codeResult <-
                safeExtractCode input u n' (Performance.code timeouts) ;;
              if ok codeResult then
                assign (with_code
                          (Js.or (Js.get_opt (data codeResult) "code") JNull)) ;;;
                assign (with_components
                          (Js.or (Js.get_opt (data codeResult) "components") (JArr []))) ;;;
                report "code" 100 "Code generation completed"
              else
                pushWarning
                  "Code generation timed out - design data still fully available" ;;;
                report "code" 50 "Code generation timed out gracefully"
            else report "code" 100 "Code generation skipped"
        | None => report "code" 100 "Code generation skipped"
        end) ;;;
       ret true
     else ret false)
    (fun error =>
       pushError ("Optimal extraction failed: " ++ Err.text error) ;;;
       ret false).

(** LEVEL 2: balanced extraction - variables + components only *)
Definition tryBalancedExtraction (u : string) (n : option string) : M bool :=
  try_catch
    (report "variables" 0 "Fast variables extraction..." ;;;
     variablesResult <- safeExtractVariables u n 3000 ;;
     if ok variablesResult then
       assign (with_variables
                 (Js.or (Js.get_opt (data variablesResult) "variables") (JArr []))) ;;;
       vars <- gets (fun s => variables (finalResult s)) ;;
       report "variables" 100 ("Variables: " ++ lengthText vars ++ " found") ;;;
       report "components" 0 "Fast components extraction..." ;;;
       componentsResult <- safeExtractComponents u n 5000 ;;
       (if ok componentsResult then
          assign (with_codeConnectMap
                    (Js.or (Js.get_opt (data componentsResult) "mappings") (JArr []))) ;;;
          maps <- gets (fun s => codeConnectMap (finalResult s)) ;;
          report "components" 100
            ("Components: " ++ lengthText maps ++ " mappings")
        else ret tt) ;;;
       report "code" 100 "Code generation skipped for performance" ;;;
       ret true
     else ret false)
    (fun error =>
       pushError ("Balanced extraction failed: " ++ Err.text error) ;;;
       ret false).

(** LEVEL 3: minimal extraction - variables only *)
Definition tryMinimalExtraction (u : string) (n : option string) : M bool :=
  try_catch
    (report "variables" 0 "Minimal variables extraction..." ;;;
     variablesResult <- safeExtractVariables u n 2000 ;;
     if ok variablesResult then
       assign (with_variables
                 (Js.or (Js.get_opt (data variablesResult) "variables") (JArr []))) ;;;
       vars <- gets (fun s => variables (finalResult s)) ;;
       report "variables" 100 ("Variables: " ++ lengthText vars ++ " found") ;;;
       report "components" 100 "Components skipped for performance" ;;;
       report "code" 100 "Code generation skipped for performance" ;;;
       ret true
     else ret false)
    (fun error =>
       pushError ("Minimal extraction failed: " ++ Err.text error) ;;;
       ret false).

(** LEVEL 4: emergency fallback - basic file info *)
Definition executeEmergencyFallback (u : string) (n : option string) : M unit :=
  match FigmaClient.parseFigmaUrl u with
  | inr e => throw e
  | inl urlData =>
      assign (with_variables (JArr [])) ;;;
      assign (with_components (JArr [])) ;;;
      assign (with_codeConnectMap (JArr [])) ;;;
      assign (with_code JNull) ;;;
      today <- gets now ;;
      let basicMetadata := {|
        extractionMethod := "emergency_fallback";
        figmaFileId := FigmaClient.fileId urlData;
        figmaNodeId := if nonEmpty n then n else FigmaClient.nodeId urlData;
        extractedAt := today;
        complexityDetected := detectComplexLayout (Some u);
        recommendedApproach :=
          "Consider using IDE integration with Figma MCP for better results"
      |} in
      pushWarning
        "Emergency fallback active - Figma MCP server may be overloaded or design is extremely complex" ;;;
      pushWarning "Basic file information extracted from URL" ;;;
      pushWarning
        "For better results: 1) Try smaller frame selections, 2) Use IDE integration, 3) Retry later" ;;;
      assign (with_metadata basicMetadata) ;;;
      report "variables" 100 "Emergency fallback: Basic info extracted" ;;;
      report "components" 100 "Emergency fallback: File metadata available" ;;;
      report "code" 100 "Emergency fallback: URL data parsed"
  end.

Definition executeProgressiveFallbackExtraction
    (input : Mcp.StreamingFigmaContextInput) (u : string) (n : option string)
    (isComplexLayout : bool) : M unit :=
  let timeouts := getStageTimeouts input in
  let shouldIncludeCode :=
    match Mcp.options input with
    | Some o => match Mcp.includeCode o with Some false => false | _ => true end
    | None => true
    end in
  (* LEVEL 1 *)
  l1 <- tryOptimalExtraction input u n timeouts shouldIncludeCode isComplexLayout ;;
  if l1 then ret tt
  else
    (* LEVEL 2 *)
    pushWarning
      "Falling back to essential data extraction (variables + components only)" ;;;
    l2 <- tryBalancedExtraction u n ;;
    if l2 then ret tt
    else
      (* LEVEL 3 *)
      pushWarning "Falling back to minimal extraction (variables only)" ;;;
      l3 <- tryMinimalExtraction u n ;;
      if l3 then ret tt
      else
        (* LEVEL 4 *)
        pushWarning
          "Using emergency fallback - providing basic file information" ;;;
        executeEmergencyFallback u n.

(** [input.url!] and [result.nodeId] as the callee's typed parameters *)
Definition executeExtractionStages (input : Mcp.StreamingFigmaContextInput)
    (u : string) (n : option string) : M unit :=
  let isComplexLayout := detectComplexLayout (Mcp.url input) in
  executeProgressiveFallbackExtraction input u n isComplexLayout ;;;
  report "complete" 100 "Extraction completed".

Definition buildResult (ok : bool) : M StreamingExtractionResult :=
  fun s =>
    Ret {| success := ok;
           figmaData := finalResult s;
           performance := getPerformanceMetrics (tracker s) (now s);
           warnings := st_warnings s;
           errors := st_errors s |} s.

Definition buildSuccessResult : M StreamingExtractionResult := buildResult true.
Definition buildErrorResult : M StreamingExtractionResult := buildResult false.

(** the statements of [extractWithProgress] before its [try] *)
Definition prologue (input : Mcp.StreamingFigmaContextInput) : M unit :=
  modify (fun s =>
    let inputUrl := match Mcp.url input with Some u => u | None => "" end in
    set_finalResult
      {| fileId := JStr ""; nodeId := JUndefined; url := JStr inputUrl;
         code := JNull; components := JArr []; variables := JArr [];
         codeConnectMap := JArr []; metadata := None |}
      (set_errors [] (set_warnings [] (set_tracker (start (now s)) s)))).

(** the [try] block of [extractWithProgress] *)
Definition pipelineBody (input : Mcp.StreamingFigmaContextInput)
  : M StreamingExtractionResult :=
  let fd := Mcp.figmaData input in
  let hasValidFigmaData :=
    (Js.truthy fd && Js.typeof_object fd && Js.has_key "fileId" fd)%bool in
  if hasValidFigmaData then
    (* use pre-extracted data - no API calls needed *)
    report "complete" 100 "Using pre-extracted data" ;;;
    modify (set_finalResult
      {| fileId := Js.get_opt fd "fileId";
         nodeId := Js.get_opt fd "nodeId";
         url := Js.get_opt fd "url";
         code := Js.or (Js.get_opt fd "code") JNull;
         components := Js.or (Js.get_opt fd "components") (JArr []);
         variables := Js.or (Js.get_opt fd "variables") (JArr []);
         codeConnectMap := Js.or (Js.get_opt fd "codeConnectMap") (JArr []);
         metadata := None |}) ;;;
    buildSuccessResult
  else
    match Mcp.url input with
    | None => throw (Err.Error "Either figmaData or url must be provided")
    | Some u =>
        if JsString.is_empty u
        then throw (Err.Error "Either figmaData or url must be provided")
        else
          (* test connection first *)
          pending <- invoke TestConnection ;;
          isConnected <- await pending ;;
          if negb (Js.truthy isConnected)
          then throw Err.ServerUnavailable
          else
            (* parse Figma URL *)
            match FigmaClient.parseFigmaUrl u with
            | inr e => throw e
            | inl parsed =>
                assign (with_location
                          (JStr (FigmaClient.fileId parsed))
                          (optStr (FigmaClient.nodeId parsed))
                          (JStr u)) ;;;
                executeExtractionStages input u (FigmaClient.nodeId parsed) ;;;
                buildSuccessResult
            end
    end.

(** the [catch (error)] block of [extractWithProgress] *)
Definition pipelineCatch (error : JsError) : M StreamingExtractionResult :=
  let errorMessage := Err.text error in
  pushError errorMessage ;;;
  report "complete" 0 ("Extraction failed: " ++ errorMessage) ;;;
  buildErrorResult.

Definition extractWithProgress (input : Mcp.StreamingFigmaContextInput)
  : M StreamingExtractionResult :=
  prologue input ;;;
  try_catch (pipelineBody input) pipelineCatch.

End WithClient.

(** a state an invocation can start from: nothing called or delivered yet *)
Definition initial (t0 : Z) : State := {|
  now := t0;
  tracker := ProgressTracker.new;
  calls := [];
  delivered := [];
  st_warnings := [];
  st_errors := [];
  finalResult :=
    {| fileId := JUndefined; nodeId := JUndefined; url := JUndefined;
       code := JUndefined; components := JUndefined; variables := JUndefined;
       codeConnectMap := JUndefined; metadata := None |}
|}.

End StreamingExtractor.

(* ===================================================================== *)
(** * Concrete inputs used by the examples *)
(* ===================================================================== *)

Module Scenario.

Import StreamingExtractor.

(** the URL of scripts/debug/test-complex-layout-url.js *)
Definition complexUrl : string :=
  "https://www.figma.com/design/5h7RH37bjkXERjpF5dhtFX/Compasso?node-id=1311-9692&t=yYSTaSy5g7qI4B5A-11".

Definition simpleUrl : string :=
  "https://www.figma.com/design/5h7RH37bjkXERjpF5dhtFX/Compasso?node-id=12-34".

(** the URL of the specification's scenario A; it is not a Figma URL *)
Definition scenarioAUrl : string := "https://x.com/design/ABC123/Foo?node-id=10-20".

(** the URL the unit tests of the extractor use *)
Definition testUrl : string := "https://figma.com/file/123/test".

Definition optionsWith (m : Q) : Mcp.Options := {|
  Mcp.includeCode := None;
  Mcp.includeVariants := None;
  Mcp.includeTokens := None;
  Mcp.maxWaitTime := Some m
|}.

(** standalone input: a URL and [maxWaitTime] *)
Definition urlInput (u : string) (m : Q) : Mcp.StreamingFigmaContextInput := {|
  Mcp.url := Some u;
  Mcp.figmaData := JUndefined;
  Mcp.options := Some (optionsWith m)
|}.

(** pass-through input of the unit test 'should use pre-extracted
    figmaData without API calls' *)
Definition preExtracted : JsVal :=
  JObj [("fileId", JStr "test-file-id");
        ("nodeId", JStr "test-node-id");
        ("url", JStr testUrl);
        ("code", JStr "pre-extracted code");
        ("components", JArr [JObj [("id", JStr "comp1"); ("name", JStr "PreExtracted")]]);
        ("variables", JArr [JObj [("id", JStr "var1"); ("name", JStr "color")]]);
        ("codeConnectMap", JArr [JObj [("componentId", JStr "comp1")]])].

Definition passThroughInput : Mcp.StreamingFigmaContextInput := {|
  Mcp.url := None;
  Mcp.figmaData := preExtracted;
  Mcp.options := None
|}.

(** [get(key)] performed at each of the clock readings [nows] in turn:
    the values returned and the cache afterwards *)
Fixpoint getRepeatedly (cache : gmap string FigmaClient.CacheEntry)
    (key : string) (nows : list Z)
  : list JsVal * gmap string FigmaClient.CacheEntry :=
  match nows with
  | [] => ([], cache)
  | t :: later =>
      let (v, cache1) := FigmaClient.getFromCache cache key t in
      let (vs, cache2) := getRepeatedly cache1 key later in
      (v :: vs, cache2)
  end.

(** a callback that only records, like [(progress) => updates.push(progress)] *)
Definition quietCallback (_ : ProgressTracker.ExtractionProgress)
  : option JsError := None.

(** a client whose probe resolves [false] after 5 ms and whose every
    other call is rejected at once *)
Definition unreachableClient : Client :=
  fun _ c =>
    match c with
    | TestConnection => After 5 (inl (JBool false))
    | _ => After 0 (inr Err.ServerUnavailable)
    end.

(** a client whose probe resolves [true] and whose extraction calls
    never answer *)
Definition silentClient : Client :=
  fun _ c =>
    match c with
    | TestConnection => After 5 (inl (JBool true))
    | _ => NoReply
    end.

(** a client that would answer everything at once *)
Definition healthyClient : Client :=
  fun _ c =>
    match c with
    | TestConnection => After 1 (inl (JBool true))
    | GetVariableDefinitions _ _ =>
        After 1 (inl (JObj [("variables", JArr [JStr "v1"; JStr "v2"]);
                            ("collections", JArr [])]))
    | GetCodeConnectMap _ _ =>
        After 1 (inl (JObj [("mappings", JArr []); ("coverage", JNum 0);
                            ("unmappedComponents", JArr [])]))
    | GetCode _ _ _ _ =>
        After 1 (inl (JObj [("code", JStr "export default function A() {}");
                            ("components", JArr [])]))
    end.

End Scenario.


(* ===================================================================== *)
(** * The retry schedule as the specification words it *)
(* ===================================================================== *)

Module RetrySpec.

Import FigmaClient.

(** number of request attempts in a trace *)
Fixpoint attempts (evs : list TransportEvent) : nat :=
  match evs with
  | [] => O
  | Attempted _ _ :: rest => S (attempts rest)
  | Slept _ _ :: rest => attempts rest
  end.


(** a remote side that refuses every connection: [fetch] rejects with
    the TypeError Node raises *)
Definition refusing : Exchange := {|
  sse := FetchRejects (mkError TypeErrorClass "fetch failed" None None);
  session := fun _ =>
    FetchRejects (mkError TypeErrorClass "fetch failed" None None)
|}.

(** a parser that rejects everything; enough where no payload is read *)
Definition no_parse (_ : string) : option JsVal := None.

Definition threeAttempts : FigmaClientConfig := {|
  serverUrl := "http://127.0.0.1:3845";
  timeout := 120000;
  retryAttempts := 3;
  cacheEnabled := true;
  cacheTTL := 300000
|}.

End RetrySpec.

(* ===================================================================== *)
(** * Concrete wire traffic used by the examples *)
(* ===================================================================== *)

Module Wire.

Import FigmaClient.

(** the double quote and the line feed *)
Definition dq : string := String "034"%char EmptyString.
Definition nl : string := String "010"%char EmptyString.

(** a JSON-RPC result as the remote service sends it:
    [{ jsonrpc: 2.0, id: 1, result: { content: [] } }] with its keys and
    strings in double quotes *)
Definition resultPayload : string :=
  "{" ++ dq ++ "jsonrpc" ++ dq ++ ":" ++ dq ++ "2.0" ++ dq ++ ","
  ++ dq ++ "id" ++ dq ++ ":1,"
  ++ dq ++ "result" ++ dq ++ ":{" ++ dq ++ "content" ++ dq ++ ":[]}}".

Definition resultValue : JsVal :=
  JObj [("jsonrpc", JStr "2.0"); ("id", JNum 1);
        ("result", JObj [("content", JArr [])])].

(** a second result, with another id and another content *)
Definition laterPayload : string :=
  "{" ++ dq ++ "jsonrpc" ++ dq ++ ":" ++ dq ++ "2.0" ++ dq ++ ","
  ++ dq ++ "id" ++ dq ++ ":99,"
  ++ dq ++ "result" ++ dq ++ ":{" ++ dq ++ "content" ++ dq ++ ":[0]}}".

Definition laterValue : JsVal :=
  JObj [("jsonrpc", JStr "2.0"); ("id", JNum 99);
        ("result", JObj [("content", JArr [JNum 0])])].

(** [JSON.parse] on the two payloads above; any other text is taken to
    be malformed *)
Definition wire_parse (text : string) : option JsVal :=
  if String.eqb text resultPayload then Some resultValue
  else if String.eqb text laterPayload then Some laterValue
  else None.

(** [event: message] / [data: payload] / blank line *)
Definition messageFrame (payload : string) : string :=
  "event: message" ++ nl ++ "data: " ++ payload ++ nl ++ nl.

(** the first frame of every session *)
Definition endpointFrame : string :=
  "event: endpoint" ++ nl ++ "data: /messages?sessionId=abc" ++ nl ++ nl.

(** [GET /sse] answered 200 with a stream that starts with the endpoint
    frame and goes on with [reads] *)
Definition sseOpen (reads : list ReadResult) : FetchResult :=
  FetchResolves {| status := 200; statusText := "OK"; responseText := "";
                   body := Some (Chunk endpointFrame :: reads) |}.

(** a bodyless answer with the given status *)
Definition answered (st : Z) (reason text : string) : FetchResult :=
  FetchResolves {| status := st; statusText := reason; responseText := text;
                   body := None |}.

(** a session whose [POST] is answered with status [st] *)
Definition postAnswered (st : Z) (reason : string) (reads : list ReadResult)
  : Exchange :=
  {| sse := sseOpen reads; session := fun _ => answered st reason "" |}.

(** idle transport state of a new client *)
Definition idle : TransportState := {| requestId := 0; events := [] |}.

End Wire.

(* ===================================================================== *)
(** * Vocabulary for the further properties *)
(* ===================================================================== *)

Module Shape.

(** not the letter f, with which the host name [figma.com] starts *)
Definition not_f (c : ascii) : bool := negb (Ascii.eqb c "f"%char).

(** neither of the two characters that introduce a query parameter *)
Definition not_query (c : ascii) : bool :=
  negb (Ascii.eqb c "?"%char || Ascii.eqb c "&"%char)%bool.

(** a Figma URL put together from its parts: what precedes the host
    name, [file] or [design], the file id, the title, and the node-id
    parameter followed by [tail] *)
Definition figmaUrl (pre kind id title nid tail : string) : string :=
  pre ++ "figma.com/" ++ kind ++ "/" ++ id ++ "/" ++ title
  ++ "?node-id=" ++ nid ++ tail.

(** the empty string or one that starts with an ampersand *)
Definition query_tail (tail : string) : Prop :=
  match tail with
  | EmptyString => True
  | String c _ => c = "&"%char
  end.

End Shape.

Module Measures.

(** total time paused in a trace of [makeRequest], in ms *)
Fixpoint slept (evs : list FigmaClient.TransportEvent) : Z :=
  match evs with
  | [] => 0
  | FigmaClient.Slept _ d :: rest => d + slept rest
  | FigmaClient.Attempted _ _ :: rest => slept rest
  end.

(** the request ids of the attempts of a trace, in order *)
Fixpoint requestIds (evs : list FigmaClient.TransportEvent) : list Z :=
  match evs with
  | [] => []
  | FigmaClient.Attempted _ id :: rest => id :: requestIds rest
  | FigmaClient.Slept _ _ :: rest => requestIds rest
  end.

(** a remote side that refuses the first connection and answers from
    the second on *)
Definition secondTime (id : Z) : FigmaClient.Exchange :=
  if id <=? 1 then RetrySpec.refusing
  else Wire.postAnswered 202 "Accepted"
         [FigmaClient.Chunk (Wire.messageFrame Wire.resultPayload)].

(** a remote side that answers the [POST] itself, with 200 and the
    JSON-RPC result in the body *)
Definition answersInline : FigmaClient.Exchange :=
  {| FigmaClient.sse := Wire.sseOpen [];
     FigmaClient.session := fun _ => Wire.answered 200 "OK" Wire.resultPayload |}.

(** a client that has not been used yet *)
Definition freshClient : FigmaClient.ClientState :=
  {| FigmaClient.cache := ∅; FigmaClient.transport := Wire.idle;
     FigmaClient.sent := [] |}.

(** a configuration that allows no attempt at all *)
Definition noAttempts : FigmaClient.FigmaClientConfig := {|
  FigmaClient.serverUrl := "http://127.0.0.1:3845";
  FigmaClient.timeout := 120000;
  FigmaClient.retryAttempts := 0;
  FigmaClient.cacheEnabled := true;
  FigmaClient.cacheTTL := 300000
|}.

(** the calls the fallback ladder can make on the client: never the
    probe, and [getCode] only where code generation is allowed *)
Definition ladderCall (allowCode : bool) (c : StreamingExtractor.ClientCall)
  : Prop :=
  match c with
  | StreamingExtractor.TestConnection => False
  | StreamingExtractor.GetCode _ _ _ _ => allowCode = true
  | _ => True
  end.

(** [shouldIncludeCode && nodeId] of level 1 *)
Definition codeAllowed (input : Mcp.StreamingFigmaContextInput)
    (n : option string) : bool :=
  (match Mcp.options input with
   | Some o => match Mcp.includeCode o with Some false => false | _ => true end
   | None => true
   end && StreamingExtractor.nonEmpty n)%bool.

(** the node id the pipeline takes from the input's URL *)
Definition urlNode (input : Mcp.StreamingFigmaContextInput) : option string :=
  match Mcp.url input with
  | Some u =>
      match FigmaClient.parseFigmaUrl u with
      | inl parsed => FigmaClient.nodeId parsed
      | inr _ => None
      end
  | None => None
  end.

(** what a stretch of the fallback ladder may do to the world: make at
    most [k] calls on the client, all of them ladder calls; let at most
    [d] ms pass; deliver progress updates; and leave [errors] alone *)
Definition steps (allowCode : bool) (k : nat) (d : Z)
    (s s' : StreamingExtractor.State) : Prop :=
  exists (cs : list StreamingExtractor.ClientCall)
         (evs : list ProgressTracker.ExtractionProgress),
    StreamingExtractor.calls s' = (StreamingExtractor.calls s ++ cs)%list
    /\ (length cs <= k)%nat
    /\ Forall (ladderCall allowCode) cs
    /\ StreamingExtractor.now s' <= StreamingExtractor.now s + d
    /\ StreamingExtractor.st_errors s' = StreamingExtractor.st_errors s
    /\ StreamingExtractor.delivered s'
       = (StreamingExtractor.delivered s ++ evs)%list.

(** a computation that always returns, with a value in [P], within
    [steps] *)
Definition returnsWith {A : Type} (allowCode : bool) (k : nat) (d : Z)
    (P : A -> Prop) (m : StreamingExtractor.M A) : Prop :=
  forall s : StreamingExtractor.State,
    exists (a : A) (s' : StreamingExtractor.State),
      m s = StreamingExtractor.Ret a s' /\ P a /\ steps allowCode k d s s'.

(** the calls and the time of one [extractWithProgress]: none at all,
    or the probe followed by at most three ladder calls, ending no
    later than thirty seconds after the probe's answer; the call stays
    pending only when the probe does *)
Definition callsBounded (figmaClient : StreamingExtractor.Client)
    (input : Mcp.StreamingFigmaContextInput) (s0 : StreamingExtractor.State)
    (o : StreamingExtractor.Outcome StreamingExtractor.StreamingExtractionResult)
  : Prop :=
  match o with
  | StreamingExtractor.Ret _ s' =>
      (StreamingExtractor.calls s' = StreamingExtractor.calls s0
       /\ StreamingExtractor.now s' = StreamingExtractor.now s0)
      \/ (exists (lat : Z) (reply : JsVal + JsError)
                 (rest : list StreamingExtractor.ClientCall),
             figmaClient (StreamingExtractor.calls s0)
               StreamingExtractor.TestConnection
             = StreamingExtractor.After lat reply
             /\ StreamingExtractor.calls s'
                = (StreamingExtractor.calls s0
                   ++ StreamingExtractor.TestConnection :: rest)%list
             /\ (length rest <= 3)%nat
             /\ Forall (ladderCall (codeAllowed input (urlNode input))) rest
             /\ StreamingExtractor.now s'
                <= StreamingExtractor.now s0 + lat + 30000)
  | StreamingExtractor.Throw _ _ => False
  | StreamingExtractor.Hang s' =>
      figmaClient (StreamingExtractor.calls s0) StreamingExtractor.TestConnection
      = StreamingExtractor.NoReply
      /\ StreamingExtractor.calls s'
         = (StreamingExtractor.calls s0 ++ [StreamingExtractor.TestConnection])%list
  end.

(** [success] and [errors] of a returned result go together *)
Definition errorsMatchSuccess
    (o : StreamingExtractor.Outcome StreamingExtractor.StreamingExtractionResult)
  : Prop :=
  match o with
  | StreamingExtractor.Ret r _ =>
      if StreamingExtractor.success r
      then StreamingExtractor.errors r = []
      else exists msg : string, StreamingExtractor.errors r = [msg]
  | _ => True
  end.

(** the last update delivered before a result is returned is for the
    stage [complete], at 100 for a success and at 0 for a failure *)
Definition endsWithComplete (s0 : StreamingExtractor.State)
    (o : StreamingExtractor.Outcome StreamingExtractor.StreamingExtractionResult)
  : Prop :=
  match o with
  | StreamingExtractor.Ret r s' =>
      exists (evs : list ProgressTracker.ExtractionProgress)
             (last : ProgressTracker.ExtractionProgress),
        StreamingExtractor.delivered s'
        = (StreamingExtractor.delivered s0 ++ evs ++ [last])%list
        /\ ProgressTracker.stage last = "complete"
        /\ ProgressTracker.percentage last
           = (if StreamingExtractor.success r then 100 else 0)
  | _ => True
  end.

(** no result is returned, and what is thrown is what the callback
    threw *)
Definition callbackErrorEscapes
    (onProgress : ProgressTracker.ExtractionProgress -> option JsError)
    (o : StreamingExtractor.Outcome StreamingExtractor.StreamingExtractionResult)
  : Prop :=
  match o with
  | StreamingExtractor.Ret _ _ => False
  | StreamingExtractor.Throw e _ =>
      exists progress : ProgressTracker.ExtractionProgress,
        onProgress progress = Some e
  | StreamingExtractor.Hang _ => True
  end.

(** an input with neither pre-extracted data nor a URL *)
Definition emptyInput : Mcp.StreamingFigmaContextInput := {|
  Mcp.url := None;
  Mcp.figmaData := JUndefined;
  Mcp.options := None
|}.

(** a callback that throws on every update *)
Definition failingCallback (_ : ProgressTracker.ExtractionProgress)
  : option JsError := Some (Err.Error "callback failed").

End Measures.

(* ===================================================================== *)
(** * Theorems *)
(* ===================================================================== *)

(** ** Result cache *)

Section CacheFacts.

Import FigmaClient.

Variable config : FigmaClientConfig.

Lemma getFromCache_fresh (cache : gmap string CacheEntry) (key : string)
    (d : JsVal) (storedAt now : Z) :
  now - storedAt <= cacheTTL config ->
  getFromCache (setCache config cache key d storedAt) key now
  = (d, setCache config cache key d storedAt).
Proof.
  intros Hfresh. unfold getFromCache, setCache.
  rewrite lookup_insert_eq. cbn [timestamp ttl data].
  destruct (now - storedAt >? cacheTTL config) eqn:E; [|reflexivity].
  apply Z.gtb_lt in E. lia.
Qed.

Lemma getFromCache_expired (cache : gmap string CacheEntry) (key : string)
    (d : JsVal) (storedAt now : Z) :
  cacheTTL config < now - storedAt ->
  getFromCache (setCache config cache key d storedAt) key now
  = (JNull, delete key (setCache config cache key d storedAt)).
Proof.
  intros Hold. unfold getFromCache, setCache.
  rewrite lookup_insert_eq. cbn [timestamp ttl data].
  destruct (now - storedAt >? cacheTTL config) eqn:E; [reflexivity|].
  rewrite Z.gtb_ltb in E. apply Z.ltb_ge in E. lia.
Qed.

Lemma getFromCache_other (cache : gmap string CacheEntry) (key other : string)
    (now : Z) :
  other <> key ->
  snd (getFromCache cache other now) !! key = cache !! key.
Proof.
  intros Hne. unfold getFromCache.
  destruct (cache !! other) as [entry|]; [|reflexivity].
  destruct (now - timestamp entry >? ttl entry); [|reflexivity].
  cbn [snd]. by rewrite lookup_delete_ne.
Qed.

Lemma getFromCache_absent (cache : gmap string CacheEntry) (key : string)
    (now : Z) :
  cache !! key = None -> getFromCache cache key now = (JNull, cache).
Proof. intros H. unfold getFromCache. by rewrite H. Qed.

End CacheFacts.

(** C5. After [set(key, data)] at time [storedAt] with lifetime
    [ttl = cacheTTL], every [get(key)] of a run of reads made while
    [now - storedAt <= ttl] returns the stored [data] itself and leaves
    the cache as it is; a [get(key)] made when [now - storedAt > ttl]
    returns [null] and deletes the entry, so that later reads miss too.
    Eviction happens only there: reading any other key, at any time,
    leaves the entry of [key] in place. *)
Theorem cache_ttl_lazy_eviction
    (config : FigmaClient.FigmaClientConfig)
    (cache : gmap string FigmaClient.CacheEntry)
    (key : string) (d : JsVal) (storedAt : Z) :
  (forall nows : list Z,
      Forall (fun now => now - storedAt <= FigmaClient.cacheTTL config) nows ->
      Scenario.getRepeatedly
        (FigmaClient.setCache config cache key d storedAt) key nows
      = (map (fun _ => d) nows,
         FigmaClient.setCache config cache key d storedAt))
  /\ (forall now : Z,
        FigmaClient.cacheTTL config < now - storedAt ->
        FigmaClient.getFromCache
          (FigmaClient.setCache config cache key d storedAt) key now
        = (JNull, delete key (FigmaClient.setCache config cache key d storedAt))
        /\ delete key (FigmaClient.setCache config cache key d storedAt) !! key
           = None
        /\ forall later : Z,
            fst (FigmaClient.getFromCache
                   (delete key (FigmaClient.setCache config cache key d storedAt))
                   key later) = JNull)
  /\ (forall (other : string) (now : Z),
        other <> key ->
        snd (FigmaClient.getFromCache
               (FigmaClient.setCache config cache key d storedAt) other now)
          !! key
        = Some {| FigmaClient.data := d;
                  FigmaClient.timestamp := storedAt;
                  FigmaClient.ttl := FigmaClient.cacheTTL config |}).
Proof.
  split; [|split].
  - induction 1 as [|now nows Hnow _ IH]; [reflexivity|].
    cbn [Scenario.getRepeatedly map].
    rewrite getFromCache_fresh by assumption. by rewrite IH.
  - intros now Hold. split; [by apply getFromCache_expired|].
    split; [apply lookup_delete_eq|].
    intros later. rewrite getFromCache_absent; [reflexivity|].
    apply lookup_delete_eq.
  - intros other now Hne. rewrite getFromCache_other by assumption.
    unfold FigmaClient.setCache. apply lookup_insert_eq.
Qed.

(** ** Efficiency score *)

Section ScoreFacts.

Import ProgressTracker.

Lemma seconds_over_nonneg (totalMs : Z) :
  totalMs > 15000 -> (0 <= inject_Z (totalMs - 15000) / 1000)%Q.
Proof.
  intros H. apply Qle_shift_div_l; [reflexivity|].
  rewrite Qmult_0_l. change 0%Q with (inject_Z 0).
  rewrite <- Zle_Qle. lia.
Qed.

Lemma seconds_over_nonpos (totalMs : Z) :
  totalMs <= 15000 -> (inject_Z (totalMs - 15000) / 1000 <= 0)%Q.
Proof.
  intros H. apply Qle_shift_div_r; [reflexivity|].
  rewrite Qmult_0_l. change 0%Q with (inject_Z 0).
  rewrite <- Zle_Qle. lia.
Qed.

Lemma efficiencyOf_spec (metrics : PerformanceMetrics) :
  efficiencyOf metrics
  == spec_efficiency (totalDuration metrics) (timeoutOccurred metrics)
       (retryAttempts metrics) (cacheHits metrics).
Proof.
  unfold efficiencyOf, spec_efficiency.
  apply Q.max_compat; [reflexivity|]. apply Q.min_compat; [reflexivity|].
  destruct (totalDuration metrics >? 15000) eqn:E.
  - apply Z.gtb_lt in E.
    assert (H : Qmax 0 (inject_Z (totalDuration metrics - 15000) / 1000)
                == inject_Z (totalDuration metrics - 15000) / 1000).
    { apply Q.max_r, seconds_over_nonneg. lia. }
    assert (H' : Qmin 30 (Qmax 0 (inject_Z (totalDuration metrics - 15000) / 1000))
                 == Qmin 30 (inject_Z (totalDuration metrics - 15000) / 1000)).
    { apply Q.min_compat; [reflexivity|exact H]. }
    rewrite H'. destruct (timeoutOccurred metrics); ring.
  - rewrite Z.gtb_ltb in E. apply Z.ltb_ge in E.
    assert (H : Qmax 0 (inject_Z (totalDuration metrics - 15000) / 1000) == 0).
    { apply Q.max_l, seconds_over_nonpos. lia. }
    assert (H' : Qmin 30 (Qmax 0 (inject_Z (totalDuration metrics - 15000) / 1000))
                 == 0).
    { rewrite (Q.min_compat 30%Q 30%Q (Qeq_refl 30%Q) _ _ H). apply Q.min_r. discriminate. }
    rewrite H'. destruct (timeoutOccurred metrics); ring.
Qed.

End ScoreFacts.

(** C9. [getEfficiencyScore] equals 100 minus min(30, seconds of the
    total duration beyond the 15 s target), minus 20 if a timeout
    occurred, minus 5 per retry, plus 2 per cache hit, clamped to
    [0, 100]; it always lies in [0, 100]; and for a run of 20 s with
    one timeout, no retry and no cache hit it is 75. (Numbers are exact
    rationals.) *)
Theorem efficiency_score_formula :
  (forall (t : ProgressTracker.Tracker) (now : Z),
      ProgressTracker.getEfficiencyScore t now
      == ProgressTracker.spec_efficiency
           (now - ProgressTracker.startTime t)
           (ProgressTracker.t_timeoutOccurred t)
           (ProgressTracker.t_retryAttempts t)
           (ProgressTracker.t_cacheHits t))
  /\ (forall (t : ProgressTracker.Tracker) (now : Z),
        (0 <= ProgressTracker.getEfficiencyScore t now)%Q
        /\ (ProgressTracker.getEfficiencyScore t now <= 100)%Q)
  /\ (forall (t : ProgressTracker.Tracker) (now : Z),
        now - ProgressTracker.startTime t = 20000 ->
        ProgressTracker.t_timeoutOccurred t = true ->
        ProgressTracker.t_retryAttempts t = 0 ->
        ProgressTracker.t_cacheHits t = 0 ->
        ProgressTracker.getEfficiencyScore t now == 75).
Proof.
  split; [|split].
  - intros t now. unfold ProgressTracker.getEfficiencyScore.
    rewrite efficiencyOf_spec. reflexivity.
  - intros t now. unfold ProgressTracker.getEfficiencyScore,
      ProgressTracker.efficiencyOf. split.
    + apply Q.le_max_l.
    + apply Q.max_lub; [discriminate|apply Q.le_min_l].
  - intros t now Hdur Hto Hretry Hhits.
    unfold ProgressTracker.getEfficiencyScore.
    rewrite efficiencyOf_spec.
    cbn [ProgressTracker.getPerformanceMetrics ProgressTracker.totalDuration
         ProgressTracker.timeoutOccurred ProgressTracker.retryAttempts
         ProgressTracker.cacheHits].
    rewrite Hdur, Hto, Hretry, Hhits. vm_compute. reflexivity.
Qed.

(** ** Complexity heuristic and stage timeouts *)

Section TimeoutFacts.

Import StreamingExtractor.

Lemma maxWaitTimeOf_given (input : Mcp.StreamingFigmaContextInput)
    (o : Mcp.Options) (m : Q) :
  Mcp.options input = Some o -> Mcp.maxWaitTime o = Some m ->
  (5000 <= m)%Q -> maxWaitTimeOf input = m.
Proof.
  intros Ho Hm H. unfold maxWaitTimeOf. rewrite Ho, Hm.
  destruct (Qeq_bool m 0) eqn:E; [|reflexivity].
  apply Qeq_bool_eq in E. lra.
Qed.

Lemma detectComplexLayout_high_numbers (u n : string) :
  JsString.search nodeIdParam_at u = Some n ->
  hasHighNumbers n = true ->
  detectComplexLayout (Some u) = true.
Proof.
  intros Hmatch Hhigh. unfold detectComplexLayout.
  destruct (JsString.is_empty u) eqn:E.
  - destruct u; [discriminate Hmatch|discriminate E].
  - rewrite Hmatch, Hhigh. reflexivity.
Qed.

End TimeoutFacts.

(** C8. The URL with [node-id=1311-9692] is classified complex and the
    one with [node-id=12-34] is not; any URL whose node-id has a run of
    four or more digits is complex; and for every [maxWaitTime] in
    [5000, 60000] each level-1 stage timeout (variables, components,
    code) computed for an input whose URL is complex is strictly smaller
    than the one computed for an input whose URL is not. *)
Theorem complex_layout_timeouts_are_tighter
    (m : Q) (Hlo : (5000 <= m)%Q) (Hhi : (m <= 60000)%Q) :
  StreamingExtractor.detectComplexLayout (Some Scenario.complexUrl) = true
  /\ StreamingExtractor.detectComplexLayout (Some Scenario.simpleUrl) = false
  /\ (forall u n : string,
        JsString.search StreamingExtractor.nodeIdParam_at u = Some n ->
        StreamingExtractor.hasHighNumbers n = true ->
        StreamingExtractor.detectComplexLayout (Some u) = true)
  /\ (forall (complex simple : Mcp.StreamingFigmaContextInput)
             (oc os : Mcp.Options),
        StreamingExtractor.detectComplexLayout (Mcp.url complex) = true ->
        StreamingExtractor.detectComplexLayout (Mcp.url simple) = false ->
        Mcp.options complex = Some oc -> Mcp.maxWaitTime oc = Some m ->
        Mcp.options simple = Some os -> Mcp.maxWaitTime os = Some m ->
        (Performance.variables (StreamingExtractor.getStageTimeouts complex)
         < Performance.variables (StreamingExtractor.getStageTimeouts simple))%Q
        /\ (Performance.components (StreamingExtractor.getStageTimeouts complex)
            < Performance.components (StreamingExtractor.getStageTimeouts simple))%Q
        /\ (Performance.code (StreamingExtractor.getStageTimeouts complex)
            < Performance.code (StreamingExtractor.getStageTimeouts simple))%Q).
Proof.
  split; [reflexivity|]. split; [reflexivity|].
  split; [exact detectComplexLayout_high_numbers|].
  intros complex simple oc os Hc Hs Hoc Hmc Hos Hms.
  unfold StreamingExtractor.getStageTimeouts.
  rewrite (maxWaitTimeOf_given complex oc m Hoc Hmc Hlo),
    (maxWaitTimeOf_given simple os m Hos Hms Hlo), Hc, Hs.
  cbn [Performance.variables Performance.components Performance.code
       Performance.DEFAULT_STAGE_TIMEOUTS].
  repeat split; apply Q.min_glb_lt.
  - eapply Qle_lt_trans; [apply Q.le_min_l|reflexivity].
  - eapply Qle_lt_trans; [apply Q.le_min_r|lra].
  - eapply Qle_lt_trans; [apply Q.le_min_l|reflexivity].
  - eapply Qle_lt_trans; [apply Q.le_min_r|lra].
  - eapply Qle_lt_trans; [apply Q.le_min_l|reflexivity].
  - eapply Qle_lt_trans; [apply Q.le_min_r|lra].
Qed.

(** the statement of C8 at [maxWaitTime = 15000], the schema default *)
Lemma complex_layout_timeouts_witness :
  (5000 <= 15000)%Q /\ (15000 <= 60000)%Q
  /\ (Performance.code
        (StreamingExtractor.getStageTimeouts
           (Scenario.urlInput Scenario.complexUrl 15000))
      < Performance.code
          (StreamingExtractor.getStageTimeouts
             (Scenario.urlInput Scenario.simpleUrl 15000)))%Q.
Proof.
  assert (Hlo : (5000 <= 15000)%Q) by discriminate.
  assert (Hhi : (15000 <= 60000)%Q) by discriminate.
  split; [exact Hlo|]. split; [exact Hhi|].
  destruct (complex_layout_timeouts_are_tighter 15000 Hlo Hhi)
    as (Hc & Hs & _ & Hall).
  exact (proj2 (proj2 (Hall (Scenario.urlInput Scenario.complexUrl 15000)
                         (Scenario.urlInput Scenario.simpleUrl 15000)
                         _ _ Hc Hs eq_refl eq_refl eq_refl eq_refl))).
Defined.

(** ** Retry policy *)

Section RetryFacts.

Import FigmaClient RetrySpec.

Variable JSON_parse : string -> option JsVal.
Variable config : FigmaClientConfig.
Variable net : Z -> Exchange.




Lemma attempts_app (a b : list TransportEvent) :
  attempts (a ++ b)%list = (attempts a + attempts b)%nat.
Proof.
  induction a as [|[n i|n d] a IH]; cbn; [reflexivity| |]; rewrite IH; reflexivity.
Qed.



End RetryFacts.



(** The run behind the witness, in full: three attempts, pauses of 1000
    and 2000 ms, and the last attempt's error surfaced. *)
Example three_refused_attempts :
  FigmaClient.makeRequest RetrySpec.no_parse RetrySpec.threeAttempts
    (fun _ => RetrySpec.refusing) Wire.idle
  = (Rejected Err.ServerUnavailable,
     {| FigmaClient.requestId := 3;
        FigmaClient.events :=
          [FigmaClient.Attempted 1 1; FigmaClient.Slept 1 1000;
           FigmaClient.Attempted 2 2; FigmaClient.Slept 2 2000;
           FigmaClient.Attempted 3 3] |}).
Proof. vm_compute. reflexivity. Qed.

(** the backoff is capped at 5 s from the fourth attempt on *)
Example backoff_values :
  map FigmaClient.backoffDelay [1; 2; 3; 4; 5] = [1000; 2000; 4000; 5000; 5000].
Proof. reflexivity. Qed.

(** ** Response correlation *)

Section CorrelationFacts.

Import FigmaClient.

Variable JSON_parse : string -> option JsVal.

Lemma assoc_assoc_set (k : string) (x : JsVal) (fs : list (string * JsVal)) :
  Js.assoc k (Js.assoc_set k x fs) = Some x.
Proof.
  induction fs as [|[k' v] fs IH]; cbn.
  - by rewrite String.eqb_refl.
  - destruct (String.eqb k k') eqn:E; cbn; rewrite ?String.eqb_refl, ?E; auto.
Qed.

(** only an object can carry a truthy [result] or [error] *)
Lemma hasResultOrError_object (d : JsVal) :
  hasResultOrError d = true -> exists fs, d = JObj fs.
Proof.
  destruct d as [| |b|q|s|items|fs]; cbn; try discriminate; eauto.
Qed.

Lemma scanLines_accepted (lines : list string) :
  forall (mode : ScanMode) (d : JsVal),
    scanLines JSON_parse mode lines = Some d -> hasResultOrError d = true.
Proof.
  induction lines as [|l rest IH]; intros mode d; cbn [scanLines]; [discriminate|].
  destruct mode.
  - destruct (JsString.startsWith (JsString.trim l) "event: message"); apply IH.
  - destruct (JsString.is_empty (JsString.trim l)); [apply IH|].
    destruct (JsString.startsWith l "data: "); [|apply IH].
    destruct (JSON_parse (JsString.substring_from 6 l)) as [r|]; [|apply IH].
    destruct (hasResultOrError r) eqn:E; [|apply IH].
    intros [= <-]. exact E.
Qed.

(** Whatever response is accepted, it is handed back carrying the id of
    the request, whatever id the remote side had put there. *)
Lemma listenForResponse_overrides_id (request_id : Z) (reads : list ReadResult) :
  forall (buffer : string) (r : JsVal),
    listenForResponse JSON_parse request_id reads buffer = Resolved r ->
    exists d : JsVal,
      hasResultOrError d = true
      /\ r = Js.set d "id" (JNum (inject_Z request_id))
      /\ Js.get r "id" = Some (JNum (inject_Z request_id)).
Proof.
  induction reads as [|rd reads IH]; intros buffer r; cbn [listenForResponse];
    [discriminate|].
  destruct rd as [chunk| |e]; try discriminate.
  destruct (JsString.is_empty chunk); [apply IH|].
  destruct (scanLines JSON_parse Searching
              (removelast (JsString.split_lines (buffer ++ chunk)))) as [d|] eqn:E;
    [|apply IH].
  intros [= <-]. exists d. pose proof (scanLines_accepted _ _ _ E) as Hd.
  split; [exact Hd|]. split; [reflexivity|].
  destruct (hasResultOrError_object d Hd) as [fs ->]. cbn.
  by rewrite assoc_assoc_set.
Qed.

End CorrelationFacts.

(** C3 (the code departs from it). A response frame that reaches the
    client in two reads - the [event: message] line in one, its [data:]
    line in the next, or the [data:] line cut in the middle - is never
    accepted, whatever [JSON.parse] would make of it: the stream ends
    without a response. When a later frame arrives whole, that later
    frame is accepted instead of the first one. The same frame delivered
    in one read is accepted and handed back with the request's id. *)
Theorem split_frame_is_dropped :
  (forall (JSON_parse : string -> option JsVal) (request_id : Z),
      FigmaClient.listenForResponse JSON_parse request_id
        [FigmaClient.Chunk ("event: message" ++ Wire.nl);
         FigmaClient.Chunk ("data: " ++ Wire.resultPayload ++ Wire.nl ++ Wire.nl);
         FigmaClient.Done] ""
      = Rejected (Err.ClientError "SSE stream ended without response"
                    "STREAM_ENDED" None))
  /\ (forall (JSON_parse : string -> option JsVal) (request_id : Z),
        FigmaClient.listenForResponse JSON_parse request_id
          [FigmaClient.Chunk
             ("event: message" ++ Wire.nl ++ "data: "
              ++ String.substring 0 20 Wire.resultPayload);
           FigmaClient.Chunk
             (JsString.substring_from 20 Wire.resultPayload ++ Wire.nl ++ Wire.nl);
           FigmaClient.Done] ""
        = Rejected (Err.ClientError "SSE stream ended without response"
                      "STREAM_ENDED" None))
  /\ FigmaClient.listenForResponse Wire.wire_parse 7
       [FigmaClient.Chunk ("event: message" ++ Wire.nl);
        FigmaClient.Chunk ("data: " ++ Wire.resultPayload ++ Wire.nl ++ Wire.nl);
        FigmaClient.Chunk (Wire.messageFrame Wire.laterPayload);
        FigmaClient.Done] ""
     = Resolved (JObj [("jsonrpc", JStr "2.0"); ("id", JNum 7);
                       ("result", JObj [("content", JArr [JNum 0])])])
  /\ FigmaClient.listenForResponse Wire.wire_parse 7
       [FigmaClient.Chunk (Wire.messageFrame Wire.resultPayload);
        FigmaClient.Chunk (Wire.messageFrame Wire.laterPayload);
        FigmaClient.Done] ""
     = Resolved (JObj [("jsonrpc", JStr "2.0"); ("id", JNum 7);
                       ("result", JObj [("content", JArr [])])]).
Proof.
  split; [|split; [|split]].
  - intros JSON_parse request_id. vm_compute. reflexivity.
  - intros JSON_parse request_id. vm_compute. reflexivity.
  - vm_compute. reflexivity.
  - vm_compute. reflexivity.
Qed.

(** a response whose [result] is present but falsy is passed over too *)
Example falsy_result_not_accepted :
  FigmaClient.hasResultOrError
    (JObj [("jsonrpc", JStr "2.0"); ("id", JNum 1); ("result", JNull)]) = false
  /\ FigmaClient.hasResultOrError
       (JObj [("jsonrpc", JStr "2.0"); ("id", JNum 1); ("result", JNum 0)]) = false
  /\ FigmaClient.hasResultOrError
       (JObj [("jsonrpc", JStr "2.0"); ("id", JNum 1); ("result", JObj [])]) = true.
Proof. repeat split. Qed.

(** ** Dispatch: status of the POST to the session endpoint *)

Section DispatchFacts.

Import FigmaClient.

Variable JSON_parse : string -> option JsVal.
Variable config : FigmaClientConfig.

(** In [makeRequestWithSSE], once the session is negotiated, 202 leads
    on to the stream ... *)
Lemma post_202_listens (request_id : Z) (reason : string) (reads : list ReadResult) :
  makeRequestWithSSE JSON_parse config request_id (Wire.postAnswered 202 reason reads)
  = match listenForResponse JSON_parse request_id reads "" with
    | Rejected error => Rejected (requestCatch error)
    | r => r
    end.
Proof. reflexivity. Qed.

(** ... and every other status, 2xx or not, 503 and 401 included, gives
    the same generic error carrying the status. *)
Lemma post_not_202_unexpected (request_id st : Z) (reason : string)
    (reads : list ReadResult) :
  st <> 202 ->
  makeRequestWithSSE JSON_parse config request_id (Wire.postAnswered st reason reads)
  = Rejected (Err.ClientError ("Unexpected session response: " ++ JsString.of_Z st)
                "UNEXPECTED_RESPONSE" (Some st)).
Proof.
  intros Hne. unfold makeRequestWithSSE, makeRequestWithSSE_try.
  cbn -[JsString.of_Z Z.eqb String.append].
  destruct (st =? 202) eqn:E; [apply Z.eqb_eq in E; contradiction|].
  reflexivity.
Qed.

(** [makeSessionRequest], the probe's path, does classify. *)
Lemma probe_classifies (request_id st : Z) (reason text : string) :
  (st < 200 \/ 299 < st) ->
  makeSessionRequest JSON_parse request_id (Wire.answered st reason text)
  = inr (if st =? 503 then Err.ServerUnavailable
         else if st =? 401 then Err.Authentication
         else Err.ClientError ("HTTP " ++ JsString.of_Z st ++ ": " ++ reason)
                "HTTP_ERROR" (Some st)).
Proof.
  intros Hbad. unfold makeSessionRequest, ok.
  cbn -[JsString.of_Z Z.eqb Z.leb String.append].
  assert (E : ((200 <=? st) && (st <=? 299))%bool = false).
  { apply andb_false_iff. destruct Hbad; [left; apply Z.leb_gt|right; apply Z.leb_gt]; lia. }
  rewrite E. cbn [negb].
  destruct (st =? 503); [reflexivity|]. destruct (st =? 401); reflexivity.
Qed.

End DispatchFacts.

(** C6 (the code departs from it). In a Transport call
    ([makeRequestWithSSE]) a POST answered 202 leads on to the stream,
    but one answered 503 or 401 raises neither ServerUnavailable nor
    AuthenticationError: it raises the generic [FigmaClientError] with
    code UNEXPECTED_RESPONSE carrying the status, as for any other
    status. The classification the claim describes is what the
    connection probe's [makeSessionRequest] does with the same answers. *)
Theorem post_status_is_not_classified
    (JSON_parse : string -> option JsVal)
    (config : FigmaClient.FigmaClientConfig)
    (request_id : Z) (reads : list FigmaClient.ReadResult) :
  FigmaClient.makeRequestWithSSE JSON_parse config request_id
    (Wire.postAnswered 503 "Service Unavailable" reads)
  = Rejected (Err.ClientError "Unexpected session response: 503"
                "UNEXPECTED_RESPONSE" (Some 503))
  /\ FigmaClient.makeRequestWithSSE JSON_parse config request_id
       (Wire.postAnswered 401 "Unauthorized" reads)
     = Rejected (Err.ClientError "Unexpected session response: 401"
                   "UNEXPECTED_RESPONSE" (Some 401))
  /\ FigmaClient.makeRequestWithSSE JSON_parse config request_id
       (Wire.postAnswered 500 "Internal Server Error" reads)
     = Rejected (Err.ClientError "Unexpected session response: 500"
                   "UNEXPECTED_RESPONSE" (Some 500))
  /\ FigmaClient.makeSessionRequest JSON_parse request_id
       (Wire.answered 503 "Service Unavailable" "")
     = inr Err.ServerUnavailable
  /\ FigmaClient.makeSessionRequest JSON_parse request_id
       (Wire.answered 401 "Unauthorized" "")
     = inr Err.Authentication
  /\ FigmaClient.makeSessionRequest JSON_parse request_id
       (Wire.answered 500 "Internal Server Error" "")
     = inr (Err.ClientError "HTTP 500: Internal Server Error" "HTTP_ERROR"
              (Some 500)).
Proof.
  rewrite !post_not_202_unexpected by lia.
  rewrite !probe_classifies by lia.
  repeat (split; [reflexivity|]). reflexivity.
Qed.

(** ** The extraction pipeline *)

Section PipelineFacts.

Import StreamingExtractor.

Variable figmaClient : Client.
Variable onProgress : ProgressTracker.ExtractionProgress -> option JsError.

(** the progress callback returns normally *)
Hypothesis quiet : forall progress, onProgress progress = None.

Lemma report_returns (stage : string) (pct : Z) (msg : string) (s : State) :
  report onProgress stage pct msg s = Ret tt (afterUpdate stage pct msg s).
Proof. unfold report. by rewrite quiet. Qed.

Lemma finalResult_afterUpdate stage pct msg s :
  finalResult (afterUpdate stage pct msg s) = finalResult s.
Proof. unfold afterUpdate. by destruct (ProgressTracker.updateStage _ _ _ _ _). Qed.

Lemma calls_afterUpdate stage pct msg s :
  calls (afterUpdate stage pct msg s) = calls s.
Proof. unfold afterUpdate. by destruct (ProgressTracker.updateStage _ _ _ _ _). Qed.

Lemma errors_afterUpdate stage pct msg s :
  st_errors (afterUpdate stage pct msg s) = st_errors s.
Proof. unfold afterUpdate. by destruct (ProgressTracker.updateStage _ _ _ _ _). Qed.

Lemma warnings_afterUpdate stage pct msg s :
  st_warnings (afterUpdate stage pct msg s) = st_warnings s.
Proof. unfold afterUpdate. by destruct (ProgressTracker.updateStage _ _ _ _ _). Qed.

Lemma now_afterUpdate stage pct msg s :
  now (afterUpdate stage pct msg s) = now s.
Proof. unfold afterUpdate. by destruct (ProgressTracker.updateStage _ _ _ _ _). Qed.

Lemma delivered_afterUpdate stage pct msg s :
  delivered (afterUpdate stage pct msg s)
  = (delivered s
     ++ [fst (ProgressTracker.updateStage (tracker s) stage pct (Some msg) (now s))])%list.
Proof. unfold afterUpdate. by destruct (ProgressTracker.updateStage _ _ _ _ _). Qed.

(** a lost race: the call is logged, time passes, [{ success: false }] *)
Lemma safeRace_lost (c : ClientCall) (timeout : Q) (s : State) :
  snd (race (figmaClient (calls s) c) timeout) = None ->
  safeRace figmaClient c timeout s
  = Ret {| ok := false; data := JUndefined |}
      (set_now (now s + fst (race (figmaClient (calls s) c) timeout))
         (set_calls (calls s ++ [c]) s)).
Proof.
  intros Hlost. unfold safeRace, bind, invoke.
  destruct (race (figmaClient (calls s) c) timeout) as [elapsed r].
  cbn in Hlost. subst r. reflexivity.
Qed.

(** Level 4 always returns, with the collections emptied and the
    metadata attached. *)
Lemma executeEmergencyFallback_returns (u : string) (n : option string)
    (urlData : FigmaClient.ParsedUrl) (s : State) :
  FigmaClient.parseFigmaUrl u = inl urlData ->
  exists s' : State,
    executeEmergencyFallback onProgress u n s = Ret tt s'
    /\ calls s' = calls s
    /\ st_errors s' = st_errors s
    /\ finalResult s'
       = {| fileId := fileId (finalResult s);
            nodeId := nodeId (finalResult s);
            url := url (finalResult s);
            code := JNull;
            components := JArr [];
            variables := JArr [];
            codeConnectMap := JArr [];
            metadata :=
              Some {| extractionMethod := "emergency_fallback";
                      figmaFileId := FigmaClient.fileId urlData;
                      figmaNodeId := if nonEmpty n then n
                                     else FigmaClient.nodeId urlData;
                      extractedAt := now s;
                      complexityDetected := detectComplexLayout (Some u);
                      recommendedApproach :=
                        "Consider using IDE integration with Figma MCP for better results" |} |}.
Proof.
  intros Hparse. unfold executeEmergencyFallback. rewrite Hparse.
  unfold bind, assign, pushWarning, modify, gets.
  rewrite !report_returns. eexists. split; [reflexivity|].
  rewrite !calls_afterUpdate, !errors_afterUpdate, !finalResult_afterUpdate.
  repeat split.
Qed.

(** the common course of a level once its variables call has lost: the
    progress report, the lost race, [return false] *)
Ltac level_lost H :=
  unfold try_catch, bind, safeExtractVariables;
  rewrite report_returns;
  rewrite safeRace_lost by (rewrite calls_afterUpdate; exact H);
  cbn [ok]; eexists; split; [reflexivity|];
  cbn [finalResult st_errors calls set_now set_calls];
  by rewrite finalResult_afterUpdate, errors_afterUpdate, calls_afterUpdate.

(** A level whose variables call loses its race returns [false] and
    leaves the result object and the error list as they were. *)
Lemma tryOptimalExtraction_variables_lost
    (input : Mcp.StreamingFigmaContextInput) (u : string) (n : option string)
    (timeouts : Performance.StageTimeouts) (inc cx : bool) (s : State) :
  snd (race (figmaClient (calls s) (GetVariableDefinitions u n))
         (Performance.variables timeouts)) = None ->
  exists s' : State,
    tryOptimalExtraction figmaClient onProgress input u n timeouts inc cx s
    = Ret false s'
    /\ finalResult s' = finalResult s
    /\ st_errors s' = st_errors s
    /\ calls s' = (calls s ++ [GetVariableDefinitions u n])%list.
Proof. intros Hlost. unfold tryOptimalExtraction. level_lost Hlost. Qed.

Lemma tryBalancedExtraction_variables_lost (u : string) (n : option string)
    (s : State) :
  snd (race (figmaClient (calls s) (GetVariableDefinitions u n)) 3000) = None ->
  exists s' : State,
    tryBalancedExtraction figmaClient onProgress u n s = Ret false s'
    /\ finalResult s' = finalResult s
    /\ st_errors s' = st_errors s
    /\ calls s' = (calls s ++ [GetVariableDefinitions u n])%list.
Proof. intros Hlost. unfold tryBalancedExtraction. level_lost Hlost. Qed.

Lemma tryMinimalExtraction_variables_lost (u : string) (n : option string)
    (s : State) :
  snd (race (figmaClient (calls s) (GetVariableDefinitions u n)) 2000) = None ->
  exists s' : State,
    tryMinimalExtraction figmaClient onProgress u n s = Ret false s'
    /\ finalResult s' = finalResult s
    /\ st_errors s' = st_errors s
    /\ calls s' = (calls s ++ [GetVariableDefinitions u n])%list.
Proof. intros Hlost. unfold tryMinimalExtraction. level_lost Hlost. Qed.

(** When the variables call loses its race under each of the three
    timeouts, the ladder runs down to level 4. *)
Lemma ladder_reaches_emergency
    (input : Mcp.StreamingFigmaContextInput) (u : string) (n : option string)
    (cx : bool) (urlData : FigmaClient.ParsedUrl) (s : State) :
  (forall (h : list ClientCall) (t : Q),
      t = Performance.variables (getStageTimeouts input)
      \/ t = 3000%Q \/ t = 2000%Q ->
      snd (race (figmaClient h (GetVariableDefinitions u n)) t) = None) ->
  FigmaClient.parseFigmaUrl u = inl urlData ->
  exists s' : State,
    executeProgressiveFallbackExtraction figmaClient onProgress input u n cx s
    = Ret tt s'
    /\ st_errors s' = st_errors s
    /\ calls s'
       = (calls s ++ [GetVariableDefinitions u n; GetVariableDefinitions u n;
                      GetVariableDefinitions u n])%list
    /\ fileId (finalResult s') = fileId (finalResult s)
    /\ nodeId (finalResult s') = nodeId (finalResult s)
    /\ url (finalResult s') = url (finalResult s)
    /\ code (finalResult s') = JNull
    /\ components (finalResult s') = JArr []
    /\ variables (finalResult s') = JArr []
    /\ codeConnectMap (finalResult s') = JArr []
    /\ exists md : Metadata,
        metadata (finalResult s') = Some md
        /\ extractionMethod md = "emergency_fallback"
        /\ figmaFileId md = FigmaClient.fileId urlData
        /\ complexityDetected md = detectComplexLayout (Some u).
Proof.
  intros Hlost Hparse. unfold executeProgressiveFallbackExtraction.
  destruct (tryOptimalExtraction_variables_lost input u n (getStageTimeouts input)
              (match Mcp.options input with
               | Some o => match Mcp.includeCode o with
                           | Some false => false
                           | _ => true
                           end
               | None => true
               end) cx s) as (s1 & E1 & R1 & X1 & K1);
    [apply Hlost; left; reflexivity|].
  unfold bind at 1. rewrite E1.
  unfold bind at 1. unfold pushWarning at 1, modify at 1.
  destruct (tryBalancedExtraction_variables_lost u n
              (set_warnings
                 (st_warnings s1
                  ++ ["Falling back to essential data extraction (variables + components only)"])
                 s1)) as (s2 & E2 & R2 & X2 & K2);
    [apply Hlost; right; left; reflexivity|].
  unfold bind at 1. rewrite E2.
  unfold bind at 1. unfold pushWarning at 1, modify at 1.
  destruct (tryMinimalExtraction_variables_lost u n
              (set_warnings
                 (st_warnings s2
                  ++ ["Falling back to minimal extraction (variables only)"])
                 s2)) as (s3 & E3 & R3 & X3 & K3);
    [apply Hlost; right; right; reflexivity|].
  unfold bind at 1. rewrite E3.
  unfold bind at 1. unfold pushWarning at 1, modify at 1.
  destruct (executeEmergencyFallback_returns u n urlData
              (set_warnings
                 (st_warnings s3
                  ++ ["Using emergency fallback - providing basic file information"])
                 s3) Hparse) as (s4 & E4 & K4 & X4 & R4).
  exists s4. split; [exact E4|].
  cbn [finalResult st_errors calls set_warnings] in *.
  rewrite X4, X3, X2, X1, K4, K3, K2, K1, R4, R3, R2, R1.
  rewrite <- !app_assoc. cbn [app fileId nodeId url code components variables
                               codeConnectMap metadata].
  repeat (split; [reflexivity|]).
  eexists. split; [reflexivity|]. repeat split.
Qed.

End PipelineFacts.

Section StandaloneFacts.

Import StreamingExtractor.

Variable figmaClient : Client.
Variable onProgress : ProgressTracker.ExtractionProgress -> option JsError.
Hypothesis quiet : forall progress, onProgress progress = None.

Lemma parseFigmaUrl_nonempty (u : string) (parsed : FigmaClient.ParsedUrl) :
  FigmaClient.parseFigmaUrl u = inl parsed -> JsString.is_empty u = false.
Proof. destruct u; [discriminate|reflexivity]. Qed.

(** the state [extractWithProgress] runs its [try] block in *)
Lemma prologue_returns (input : Mcp.StreamingFigmaContextInput) (s0 : State) :
  exists s1 : State,
    prologue input s0 = Ret tt s1
    /\ calls s1 = calls s0 /\ st_errors s1 = [] /\ st_warnings s1 = []
    /\ delivered s1 = delivered s0 /\ now s1 = now s0
    /\ finalResult s1
       = {| fileId := JStr ""; nodeId := JUndefined;
            url := JStr (match Mcp.url input with Some u => u | None => "" end);
            code := JNull; components := JArr []; variables := JArr [];
            codeConnectMap := JArr []; metadata := None |}.
Proof. eexists. split; [reflexivity|]. repeat split. Qed.

(** The [catch] block always returns an error result. *)
Lemma pipelineCatch_returns (error : JsError) (s : State) :
  exists (r : StreamingExtractionResult) (s' : State),
    pipelineCatch onProgress error s = Ret r s'
    /\ success r = false
    /\ errors r = (st_errors s ++ [message error])%list
    /\ warnings r = st_warnings s
    /\ figmaData r = finalResult s
    /\ calls s' = calls s
    /\ delivered s'
       = (delivered s
          ++ [fst (ProgressTracker.updateStage (tracker s) "complete" 0
                     (Some (String.append "Extraction failed: " (message error)))
                     (now s))])%list.
Proof.
  unfold pipelineCatch, bind, pushError, modify, buildErrorResult, buildResult.
  rewrite (report_returns _ quiet). eexists. eexists. split; [reflexivity|].
  cbn [success errors warnings figmaData].
  rewrite errors_afterUpdate, warnings_afterUpdate, finalResult_afterUpdate,
    calls_afterUpdate, delivered_afterUpdate.
  repeat split.
Qed.

(** [extractWithProgress] in terms of its [try] block *)
Lemma extractWithProgress_unfold (input : Mcp.StreamingFigmaContextInput)
    (s0 s1 : State) :
  prologue input s0 = Ret tt s1 ->
  extractWithProgress figmaClient onProgress input s0
  = match pipelineBody figmaClient onProgress input s1 with
    | Throw e s2 => pipelineCatch onProgress e s2
    | r => r
    end.
Proof.
  intros H. unfold extractWithProgress, bind. rewrite H. reflexivity.
Qed.

(** the standalone pipeline when the probe answers that the server is
    there and the URL parses: the ladder runs, then completion is
    reported and a success result is built *)
Lemma pipelineBody_standalone (input : Mcp.StreamingFigmaContextInput)
    (u : string) (parsed : FigmaClient.ParsedUrl) (latency : Z)
    (connected : JsVal) (s : State) :
  (Js.truthy (Mcp.figmaData input) && Js.typeof_object (Mcp.figmaData input)
   && Js.has_key "fileId" (Mcp.figmaData input))%bool = false ->
  Mcp.url input = Some u ->
  FigmaClient.parseFigmaUrl u = inl parsed ->
  figmaClient (calls s) TestConnection = After latency (inl connected) ->
  Js.truthy connected = true ->
  pipelineBody figmaClient onProgress input s
  = (executeExtractionStages figmaClient onProgress input u
       (FigmaClient.nodeId parsed) ;;;
     buildSuccessResult)
      (set_finalResult
         (with_location (JStr (FigmaClient.fileId parsed))
            (optStr (FigmaClient.nodeId parsed)) (JStr u) (finalResult s))
         (set_now (now s + latency) (set_calls (calls s ++ [TestConnection]) s))).
Proof.
  intros Hsa Hurl Hparse Hprobe Hconn. unfold pipelineBody.
  rewrite Hsa, Hurl, (parseFigmaUrl_nonempty _ _ Hparse).
  unfold bind at 1. unfold invoke at 1. rewrite Hprobe.
  unfold bind at 1. unfold await at 1. rewrite Hconn. cbn [negb].
  rewrite Hparse. reflexivity.
Qed.

End StandaloneFacts.

(** C1. Standalone invocation (no usable [figmaData], a URL that
    parses), the connection probe succeeds, and the variables call loses
    its race - it is rejected or outlasted by the timer - under each of
    the three timeouts it is tried with, the level-1 variables timeout,
    3000 and 2000 ms (components and code are then never attempted): [extractWithProgress] returns - it neither throws
    nor hangs - a result with [success = true] whose [figmaData] has the
    URL-parsed [fileId], [variables = []], [components = []],
    [codeConnectMap = []], [code = null] and
    [metadata.extractionMethod = "emergency_fallback"]. The progress
    callback is taken to return normally. *)
Theorem emergency_fallback_result
    (figmaClient : StreamingExtractor.Client)
    (onProgress : ProgressTracker.ExtractionProgress -> option JsError)
    (input : Mcp.StreamingFigmaContextInput)
    (u : string) (parsed : FigmaClient.ParsedUrl)
    (latency : Z) (connected : JsVal) (s0 : StreamingExtractor.State)
    (Hquiet : forall progress, onProgress progress = None)
    (Hstandalone :
       (Js.truthy (Mcp.figmaData input) && Js.typeof_object (Mcp.figmaData input)
        && Js.has_key "fileId" (Mcp.figmaData input))%bool = false)
    (Hurl : Mcp.url input = Some u)
    (Hparse : FigmaClient.parseFigmaUrl u = inl parsed)
    (Hprobe : figmaClient (StreamingExtractor.calls s0)
                StreamingExtractor.TestConnection
              = StreamingExtractor.After latency (inl connected))
    (Hconnected : Js.truthy connected = true)
    (Hlost : forall (h : list StreamingExtractor.ClientCall) (t : Q),
        t = Performance.variables (StreamingExtractor.getStageTimeouts input)
        \/ t = 3000%Q \/ t = 2000%Q ->
        snd (StreamingExtractor.race
               (figmaClient h
                  (StreamingExtractor.GetVariableDefinitions u
                     (FigmaClient.nodeId parsed))) t) = None) :
  exists (result : StreamingExtractor.StreamingExtractionResult)
         (s' : StreamingExtractor.State),
    StreamingExtractor.extractWithProgress figmaClient onProgress input s0
    = StreamingExtractor.Ret result s'
    /\ StreamingExtractor.success result = true
    /\ StreamingExtractor.fileId (StreamingExtractor.figmaData result)
       = JStr (FigmaClient.fileId parsed)
    /\ StreamingExtractor.variables (StreamingExtractor.figmaData result) = JArr []
    /\ StreamingExtractor.components (StreamingExtractor.figmaData result) = JArr []
    /\ StreamingExtractor.codeConnectMap (StreamingExtractor.figmaData result)
       = JArr []
    /\ StreamingExtractor.code (StreamingExtractor.figmaData result) = JNull
    /\ (exists md : StreamingExtractor.Metadata,
          StreamingExtractor.metadata (StreamingExtractor.figmaData result)
          = Some md
          /\ StreamingExtractor.extractionMethod md = "emergency_fallback"
          /\ StreamingExtractor.figmaFileId md = FigmaClient.fileId parsed)
    /\ StreamingExtractor.errors result = [].
Proof.
  destruct (prologue_returns input s0) as (s1 & Hpro & Hc1 & He1 & _).
  rewrite (extractWithProgress_unfold _ _ _ _ _ Hpro).
  rewrite (pipelineBody_standalone figmaClient onProgress input u parsed latency
             connected s1 Hstandalone Hurl Hparse)
    by (rewrite ?Hc1; assumption).
  unfold StreamingExtractor.bind at 1.
  unfold StreamingExtractor.executeExtractionStages.
  unfold StreamingExtractor.bind at 1.
  edestruct (ladder_reaches_emergency figmaClient onProgress Hquiet input u
               (FigmaClient.nodeId parsed)
               (StreamingExtractor.detectComplexLayout (Mcp.url input)) parsed)
    as (s2 & E2 & X2 & _ & F2 & _ & _ & K2 & P2 & V2 & M2 & md & D2 & D3 & D4 & _);
    [exact Hlost|exact Hparse|].
  rewrite E2. rewrite (report_returns _ Hquiet).
  unfold StreamingExtractor.buildSuccessResult, StreamingExtractor.buildResult.
  eexists. eexists. split; [reflexivity|].
  cbn [StreamingExtractor.success StreamingExtractor.figmaData
       StreamingExtractor.errors].
  rewrite errors_afterUpdate, finalResult_afterUpdate.
  rewrite X2, F2, K2, P2, V2, M2.
  cbn [StreamingExtractor.st_errors StreamingExtractor.set_finalResult
       StreamingExtractor.set_now StreamingExtractor.set_calls
       StreamingExtractor.finalResult StreamingExtractor.with_location
       StreamingExtractor.fileId].
  repeat (split; [reflexivity|]).
  split; [|exact He1]. exists md. repeat split; assumption.
Qed.

(** the statement of C1 for the complex URL of the debug script, a
    client whose extraction calls never answer, at the default
    [maxWaitTime] *)
Lemma emergency_fallback_witness :
  FigmaClient.parseFigmaUrl Scenario.complexUrl
  = inl {| FigmaClient.fileId := "5h7RH37bjkXERjpF5dhtFX";
           FigmaClient.nodeId := Some "1311-9692" |}
  /\ exists (result : StreamingExtractor.StreamingExtractionResult)
            (s' : StreamingExtractor.State),
      StreamingExtractor.extractWithProgress Scenario.silentClient
        Scenario.quietCallback (Scenario.urlInput Scenario.complexUrl 15000)
        (StreamingExtractor.initial 1000)
      = StreamingExtractor.Ret result s'
      /\ StreamingExtractor.success result = true
      /\ StreamingExtractor.fileId (StreamingExtractor.figmaData result)
         = JStr "5h7RH37bjkXERjpF5dhtFX"
      /\ StreamingExtractor.variables (StreamingExtractor.figmaData result)
         = JArr [].
Proof.
  split; [reflexivity|].
  destruct (emergency_fallback_result Scenario.silentClient Scenario.quietCallback
              (Scenario.urlInput Scenario.complexUrl 15000) Scenario.complexUrl
              {| FigmaClient.fileId := "5h7RH37bjkXERjpF5dhtFX";
                 FigmaClient.nodeId := Some "1311-9692" |}
              5 (JBool true) (StreamingExtractor.initial 1000)
              (fun _ => eq_refl) eq_refl eq_refl eq_refl eq_refl eq_refl
              (fun _ _ _ => eq_refl))
    as (result & s' & Hrun & Hok & Hid & Hvars & _).
  exists result, s'. repeat split; assumption.
Defined.

Section PassThroughFacts.

Import StreamingExtractor.

Variable figmaClient : Client.
Variable onProgress : ProgressTracker.ExtractionProgress -> option JsError.
Hypothesis quiet : forall progress, onProgress progress = None.

(** the first progress event after [start()]: no time has passed *)
Lemma first_update_after_start (t0 : Z) (stage msg : string) (pct : Z) :
  JsString.is_empty msg = false ->
  fst (ProgressTracker.updateStage (ProgressTracker.start t0) stage pct (Some msg) t0)
  = {| ProgressTracker.stage := stage;
       ProgressTracker.percentage := Z.max 0 (Z.min 100 pct);
       ProgressTracker.message := msg;
       ProgressTracker.duration := 0;
       ProgressTracker.partialData := ProgressTracker.collectPartialData |}.
Proof.
  intros Hmsg. unfold ProgressTracker.updateStage.
  cbn [fst ProgressTracker.start ProgressTracker.startTime].
  rewrite Hmsg, Z.sub_diag. reflexivity.
Qed.

Lemma hasValidFigmaData_object (fields : list (string * JsVal)) :
  Js.assoc "fileId" fields <> None ->
  (Js.truthy (JObj fields) && Js.typeof_object (JObj fields)
   && Js.has_key "fileId" (JObj fields))%bool = true.
Proof.
  intros H. cbn. destruct (Js.assoc "fileId" fields); [reflexivity|congruence].
Qed.

End PassThroughFacts.

(** C7. When the input carries a [figmaData] object with a [fileId]
    field, [extractWithProgress] makes no call on the Figma client at
    all (neither [testConnection] nor any extraction method: the log of
    calls is unchanged), delivers exactly one progress event, stage
    [complete] at 100 percent, and returns a success result built from
    the supplied data, with no warning and no error. The progress
    callback is taken to return normally. *)
Theorem pass_through_makes_no_calls
    (figmaClient : StreamingExtractor.Client)
    (onProgress : ProgressTracker.ExtractionProgress -> option JsError)
    (input : Mcp.StreamingFigmaContextInput)
    (fields : list (string * JsVal)) (s0 : StreamingExtractor.State)
    (Hquiet : forall progress, onProgress progress = None)
    (Hdata : Mcp.figmaData input = JObj fields)
    (Hfile : Js.assoc "fileId" fields <> None) :
  exists (result : StreamingExtractor.StreamingExtractionResult)
         (s' : StreamingExtractor.State),
    StreamingExtractor.extractWithProgress figmaClient onProgress input s0
    = StreamingExtractor.Ret result s'
    /\ StreamingExtractor.calls s' = StreamingExtractor.calls s0
    /\ StreamingExtractor.delivered s'
       = (StreamingExtractor.delivered s0
          ++ [{| ProgressTracker.stage := "complete";
                 ProgressTracker.percentage := 100;
                 ProgressTracker.message := "Using pre-extracted data";
                 ProgressTracker.duration := 0;
                 ProgressTracker.partialData :=
                   ProgressTracker.collectPartialData |}])%list
    /\ StreamingExtractor.success result = true
    /\ StreamingExtractor.warnings result = []
    /\ StreamingExtractor.errors result = []
    /\ StreamingExtractor.figmaData result
       = {| StreamingExtractor.fileId := Js.get_opt (JObj fields) "fileId";
            StreamingExtractor.nodeId := Js.get_opt (JObj fields) "nodeId";
            StreamingExtractor.url := Js.get_opt (JObj fields) "url";
            StreamingExtractor.code :=
              Js.or (Js.get_opt (JObj fields) "code") JNull;
            StreamingExtractor.components :=
              Js.or (Js.get_opt (JObj fields) "components") (JArr []);
            StreamingExtractor.variables :=
              Js.or (Js.get_opt (JObj fields) "variables") (JArr []);
            StreamingExtractor.codeConnectMap :=
              Js.or (Js.get_opt (JObj fields) "codeConnectMap") (JArr []);
            StreamingExtractor.metadata := None |}.
Proof.
  destruct (prologue_returns input s0) as (s1 & Hpro & Hc1 & He1 & Hw1 & Hd1 & Hn1 & _).
  rewrite (extractWithProgress_unfold _ _ _ _ _ Hpro).
  unfold StreamingExtractor.pipelineBody.
  rewrite Hdata, (hasValidFigmaData_object fields Hfile).
  unfold StreamingExtractor.bind, StreamingExtractor.modify,
    StreamingExtractor.buildSuccessResult, StreamingExtractor.buildResult.
  rewrite (report_returns _ Hquiet).
  eexists. eexists. split; [reflexivity|].
  cbn [StreamingExtractor.success StreamingExtractor.figmaData
       StreamingExtractor.errors StreamingExtractor.warnings
       StreamingExtractor.calls StreamingExtractor.delivered
       StreamingExtractor.st_errors StreamingExtractor.st_warnings
       StreamingExtractor.finalResult StreamingExtractor.set_finalResult].
  rewrite calls_afterUpdate, delivered_afterUpdate, errors_afterUpdate,
    warnings_afterUpdate, Hc1, He1, Hw1, Hd1.
  split; [reflexivity|]. split; [|repeat split].
  f_equal. f_equal.
  injection Hpro as Hs1. subst s1.
  cbn [StreamingExtractor.tracker StreamingExtractor.now
       StreamingExtractor.set_finalResult StreamingExtractor.set_errors
       StreamingExtractor.set_warnings StreamingExtractor.set_tracker].
  apply first_update_after_start. reflexivity.
Qed.

(** the statement of C7 at the input of the unit test 'should use
    pre-extracted figmaData without API calls', with a client that would
    answer every call *)
Lemma pass_through_witness :
  Js.assoc "fileId"
    [("fileId", JStr "test-file-id"); ("nodeId", JStr "test-node-id");
     ("url", JStr Scenario.testUrl); ("code", JStr "pre-extracted code");
     ("components", JArr [JObj [("id", JStr "comp1"); ("name", JStr "PreExtracted")]]);
     ("variables", JArr [JObj [("id", JStr "var1"); ("name", JStr "color")]]);
     ("codeConnectMap", JArr [JObj [("componentId", JStr "comp1")]])] <> None
  /\ exists (result : StreamingExtractor.StreamingExtractionResult)
            (s' : StreamingExtractor.State),
      StreamingExtractor.extractWithProgress Scenario.healthyClient
        Scenario.quietCallback Scenario.passThroughInput
        (StreamingExtractor.initial 1000)
      = StreamingExtractor.Ret result s'
      /\ StreamingExtractor.calls s' = []
      /\ StreamingExtractor.success result = true
      /\ StreamingExtractor.code (StreamingExtractor.figmaData result)
         = JStr "pre-extracted code".
Proof.
  assert (Hfile :
    Js.assoc "fileId"
      [("fileId", JStr "test-file-id"); ("nodeId", JStr "test-node-id");
       ("url", JStr Scenario.testUrl); ("code", JStr "pre-extracted code");
       ("components", JArr [JObj [("id", JStr "comp1"); ("name", JStr "PreExtracted")]]);
       ("variables", JArr [JObj [("id", JStr "var1"); ("name", JStr "color")]]);
       ("codeConnectMap", JArr [JObj [("componentId", JStr "comp1")]])] <> None)
    by discriminate.
  split; [exact Hfile|].
  destruct (pass_through_makes_no_calls Scenario.healthyClient
              Scenario.quietCallback Scenario.passThroughInput _
              (StreamingExtractor.initial 1000) (fun _ => eq_refl) eq_refl Hfile)
    as (result & s' & Hrun & Hcalls & _ & Hok & _ & _ & Hdata).
  exists result, s'. split; [exact Hrun|]. split; [exact Hcalls|].
  split; [exact Hok|]. rewrite Hdata. reflexivity.
Defined.

Section RejectionFacts.

Import StreamingExtractor.

Variable figmaClient : Client.
Variable onProgress : ProgressTracker.ExtractionProgress -> option JsError.
Hypothesis quiet : forall progress, onProgress progress = None.

(** the preflight's [throw new FigmaServerUnavailableError()] *)
Lemma pipelineBody_probe_false (input : Mcp.StreamingFigmaContextInput)
    (u : string) (latency : Z) (answer : JsVal) (s : State) :
  (Js.truthy (Mcp.figmaData input) && Js.typeof_object (Mcp.figmaData input)
   && Js.has_key "fileId" (Mcp.figmaData input))%bool = false ->
  Mcp.url input = Some u ->
  JsString.is_empty u = false ->
  figmaClient (calls s) TestConnection = After latency (inl answer) ->
  Js.truthy answer = false ->
  pipelineBody figmaClient onProgress input s
  = Throw Err.ServerUnavailable
      (set_now (now s + latency) (set_calls (calls s ++ [TestConnection]) s)).
Proof.
  intros Hsa Hurl Hne Hprobe Hfalse. unfold pipelineBody.
  rewrite Hsa, Hurl, Hne.
  unfold bind at 1. unfold invoke at 1. rewrite Hprobe.
  unfold bind at 1. unfold await at 1. rewrite Hfalse. reflexivity.
Qed.


(** what [parseFigmaUrl] throws is always the same error *)
Lemma parseFigmaUrl_error (u : string) (e : JsError) :
  FigmaClient.parseFigmaUrl u = inr e ->
  e = Err.ClientError "Invalid Figma URL format" "INVALID_URL" None.
Proof.
  unfold FigmaClient.parseFigmaUrl.
  destruct (JsString.search FigmaClient.urlPattern_at u); [discriminate|].
  by intros [= <-].
Qed.



End RejectionFacts.

(** C2 (the code departs from it). Standalone invocation, the
    connection probe answers [false] (or anything falsy):
    [extractWithProgress] does not reject. The
    [FigmaServerUnavailableError] thrown by the preflight is caught by
    the method's own [catch]; the promise resolves with
    [success = false], the error's message as the only entry of
    [errors], and the initial, empty [figmaData]. No fallback level has
    run: the probe is the only call made on the client, and the only
    progress event is the [complete] one of the [catch] block. The
    progress callback is taken to return normally. *)
Theorem unreachable_server_resolves_with_error
    (figmaClient : StreamingExtractor.Client)
    (onProgress : ProgressTracker.ExtractionProgress -> option JsError)
    (input : Mcp.StreamingFigmaContextInput)
    (u : string) (latency : Z) (answer : JsVal) (s0 : StreamingExtractor.State)
    (Hquiet : forall progress, onProgress progress = None)
    (Hstandalone :
       (Js.truthy (Mcp.figmaData input) && Js.typeof_object (Mcp.figmaData input)
        && Js.has_key "fileId" (Mcp.figmaData input))%bool = false)
    (Hurl : Mcp.url input = Some u)
    (Hnonempty : JsString.is_empty u = false)
    (Hprobe : figmaClient (StreamingExtractor.calls s0)
                StreamingExtractor.TestConnection
              = StreamingExtractor.After latency (inl answer))
    (Hfalse : Js.truthy answer = false) :
  exists (result : StreamingExtractor.StreamingExtractionResult)
         (s' : StreamingExtractor.State),
    StreamingExtractor.extractWithProgress figmaClient onProgress input s0
    = StreamingExtractor.Ret result s'
    /\ StreamingExtractor.success result = false
    /\ StreamingExtractor.errors result
       = ["Figma MCP server is not available. Please ensure Figma desktop app is running."]
    /\ StreamingExtractor.warnings result = []
    /\ StreamingExtractor.figmaData result
       = {| StreamingExtractor.fileId := JStr "";
            StreamingExtractor.nodeId := JUndefined;
            StreamingExtractor.url := JStr u;
            StreamingExtractor.code := JNull;
            StreamingExtractor.components := JArr [];
            StreamingExtractor.variables := JArr [];
            StreamingExtractor.codeConnectMap := JArr [];
            StreamingExtractor.metadata := None |}
    /\ StreamingExtractor.calls s'
       = (StreamingExtractor.calls s0 ++ [StreamingExtractor.TestConnection])%list
    /\ length (StreamingExtractor.delivered s')
       = S (length (StreamingExtractor.delivered s0)).
Proof.
  destruct (prologue_returns input s0)
    as (s1 & Hpro & Hc1 & He1 & Hw1 & Hd1 & Hn1 & Hf1).
  rewrite (extractWithProgress_unfold _ _ _ _ _ Hpro).
  rewrite (pipelineBody_probe_false figmaClient onProgress input u latency answer s1)
    by (rewrite ?Hc1; assumption).
  destruct (pipelineCatch_returns onProgress Hquiet Err.ServerUnavailable
              (StreamingExtractor.set_now (StreamingExtractor.now s1 + latency)
                 (StreamingExtractor.set_calls
                    (StreamingExtractor.calls s1 ++ [StreamingExtractor.TestConnection])
                    s1)))
    as (r & s2 & Hrun & Hok & Herr & Hwarn & Hdata & Hcalls & Hdel).
  exists r, s2. split; [exact Hrun|]. split; [exact Hok|].
  rewrite Herr, Hwarn, Hdata, Hcalls, Hdel.
  cbn [StreamingExtractor.st_errors StreamingExtractor.st_warnings
       StreamingExtractor.finalResult StreamingExtractor.calls
       StreamingExtractor.delivered StreamingExtractor.set_now
       StreamingExtractor.set_calls].
  rewrite He1, Hw1, Hf1, Hc1, Hd1, Hurl, length_app.
  repeat split. cbn. lia.
Qed.

(** the statement of C2 at the input of the unit test 'should handle
    server unavailable error' *)
Lemma unreachable_server_witness :
  Js.truthy (JBool false) = false
  /\ exists (result : StreamingExtractor.StreamingExtractionResult)
            (s' : StreamingExtractor.State),
      StreamingExtractor.extractWithProgress Scenario.unreachableClient
        Scenario.quietCallback (Scenario.urlInput Scenario.testUrl 15000)
        (StreamingExtractor.initial 1000)
      = StreamingExtractor.Ret result s'
      /\ StreamingExtractor.success result = false
      /\ StreamingExtractor.calls s' = [StreamingExtractor.TestConnection].
Proof.
  split; [reflexivity|].
  destruct (unreachable_server_resolves_with_error Scenario.unreachableClient
              Scenario.quietCallback (Scenario.urlInput Scenario.testUrl 15000)
              Scenario.testUrl 5 (JBool false) (StreamingExtractor.initial 1000)
              (fun _ => eq_refl) eq_refl eq_refl eq_refl eq_refl eq_refl)
    as (result & s' & Hrun & Hok & _ & _ & _ & Hcalls & _).
  exists result, s'. split; [exact Hrun|]. split; [exact Hok|exact Hcalls].
Defined.



(* ===================================================================== *)
(** * Further properties of the code *)
(* ===================================================================== *)

(** ** Strings *)

Section StringFacts.

Lemma append_cons (a : ascii) (p r : string) :
  String a p ++ r = String a (p ++ r).
Proof. reflexivity. Qed.

Lemma append_nil (r : string) : "" ++ r = r.
Proof. reflexivity. Qed.

Lemma append_assoc (a b c : string) : (a ++ b) ++ c = a ++ b ++ c.
Proof.
  induction a as [|x a IH]; [reflexivity|].
  rewrite !append_cons. by rewrite IH.
Qed.

Lemma strip_prefix_Some (p s r : string) :
  JsString.strip_prefix p s = Some r -> s = p ++ r.
Proof.
  revert s. induction p as [|a p IH]; intros s; cbn [JsString.strip_prefix String.append].
  - by intros [= ->].
  - destruct s as [|b s]; [discriminate|].
    destruct (Ascii.eqb_spec a b) as [->|]; [|discriminate].
    intros H. by rewrite (IH _ H).
Qed.

Lemma strip_prefix_app (p r : string) :
  JsString.strip_prefix p (p ++ r) = Some r.
Proof.
  induction p as [|a p IH]; [reflexivity|].
  rewrite append_cons. cbn [JsString.strip_prefix]. by rewrite Ascii.eqb_refl.
Qed.

Lemma prefix_app (p r : string) : String.prefix p (p ++ r) = true.
Proof.
  induction p as [|a p IH]; [by destruct r|].
  rewrite append_cons. cbn [String.prefix].
  destruct (ascii_dec a a); [exact IH|congruence].
Qed.

Lemma includes_tail (c : ascii) (s needle : string) :
  JsString.includes s needle = true ->
  JsString.includes (String c s) needle = true.
Proof. intros H. cbn [JsString.includes]. rewrite H. apply orb_true_r. Qed.

Lemma includes_head (s needle : string) :
  String.prefix needle s = true -> JsString.includes s needle = true.
Proof. intros H. destruct s; cbn [JsString.includes]; rewrite H; reflexivity. Qed.

(** a search that succeeds succeeded at the head of some suffix *)
Lemma search_Some {A : Type} (f : string -> option A) (s : string) (x : A) :
  JsString.search f s = Some x ->
  exists pre post : string, s = pre ++ post /\ f post = Some x.
Proof.
  induction s as [|c s IH]; cbn [JsString.search].
  - destruct (f "") eqn:E; [|discriminate]. intros [= ->]. by exists "", "".
  - destruct (f (String c s)) eqn:E.
    + intros [= ->]. by exists "", (String c s).
    + intros H. destruct (IH H) as (pre & post & -> & Hf).
      by exists (String c pre), post.
Qed.

(** a search skips a prefix at none of whose positions the pattern can
    start *)
Lemma search_skip {A : Type} (f : string -> option A) (pre post : string) :
  (forall (a b : string), pre = a ++ b -> b <> "" -> f (b ++ post) = None) ->
  JsString.search f (pre ++ post) = JsString.search f post.
Proof.
  induction pre as [|c pre IH]; intros H; [reflexivity|].
  pose proof (H "" (String c pre) eq_refl ltac:(discriminate)) as Hf.
  rewrite append_cons in Hf. rewrite append_cons. cbn [JsString.search].
  rewrite Hf.
  apply IH. intros a b -> Hb. apply (H (String c a) b); [reflexivity|exact Hb].
Qed.

Lemma take_while_all (p : ascii -> bool) (s : string) :
  JsString.all p (JsString.take_while p s) = true.
Proof.
  induction s as [|c s IH]; cbn; [reflexivity|].
  destruct (p c) eqn:E; cbn; [by rewrite E|reflexivity].
Qed.

Lemma take_while_app (p : ascii -> bool) (s rest : string) :
  JsString.all p s = true ->
  match rest with String c _ => p c = false | EmptyString => True end ->
  JsString.take_while p (s ++ rest) = s.
Proof.
  intros Hs Hrest. induction s as [|c s IH].
  - rewrite append_nil. destruct rest as [|c r]; cbn; [reflexivity|by rewrite Hrest].
  - cbn in Hs. apply andb_prop in Hs as [Hc Hs].
    rewrite append_cons. cbn [JsString.take_while]. rewrite Hc. by rewrite (IH Hs).
Qed.

Lemma is_empty_false_app (s r : string) :
  JsString.is_empty s = false -> JsString.is_empty (s ++ r) = false.
Proof. by destruct s. Qed.

End StringFacts.

(** ** parseFigmaUrl *)

Section UrlFacts.

Import FigmaClient.

Lemma all_app (p : ascii -> bool) (a b : string) :
  JsString.all p (a ++ b) = (JsString.all p a && JsString.all p b)%bool.
Proof.
  induction a as [|c a IH]; [reflexivity|].
  rewrite append_cons. cbn [JsString.all]. by rewrite IH, andb_assoc.
Qed.

Lemma all_weaken (p q : ascii -> bool) (s : string) :
  (forall c, p c = true -> q c = true) ->
  JsString.all p s = true -> JsString.all q s = true.
Proof.
  intros Hpq. induction s as [|c s IH]; cbn; [reflexivity|].
  intros H. apply andb_prop in H as [Hc Hs]. by rewrite (Hpq c Hc), (IH Hs).
Qed.

Lemma alnum_not_query (c : ascii) :
  JsString.is_alnum c = true -> Shape.not_query c = true.
Proof.
  unfold Shape.not_query.
  destruct (Ascii.eqb_spec c "?") as [->|_]; [discriminate|].
  destruct (Ascii.eqb_spec c "&") as [->|_]; [discriminate|reflexivity].
Qed.

(** the file-id pattern cannot start where the text does not start with f *)
Lemma urlPattern_at_not_f (c : ascii) (s : string) :
  Shape.not_f c = true -> urlPattern_at (String c s) = None.
Proof.
  unfold Shape.not_f, urlPattern_at. cbn [JsString.strip_prefix].
  rewrite Ascii.eqb_sym. by intros ->%negb_true_iff.
Qed.

Lemma nodeIdPattern_at_not_query (c : ascii) (s : string) :
  Shape.not_query c = true -> nodeIdPattern_at (String c s) = None.
Proof.
  unfold Shape.not_query, nodeIdPattern_at. by intros ->%negb_true_iff.
Qed.

(** a search skips a prefix none of whose characters can start a match *)
Lemma search_skip_all {A : Type} (f : string -> option A) (p : ascii -> bool)
    (pre post : string) :
  (forall c s, p c = true -> f (String c s) = None) ->
  JsString.all p pre = true ->
  JsString.search f (pre ++ post) = JsString.search f post.
Proof.
  intros Hf. induction pre as [|c pre IH]; [reflexivity|].
  cbn [JsString.all]. intros H. apply andb_prop in H as [Hc Hpre].
  rewrite append_cons. cbn [JsString.search]. rewrite (Hf c _ Hc). by apply IH.
Qed.

Lemma urlPattern_at_here (kind id rest : string) :
  kind = "file" \/ kind = "design" ->
  JsString.is_empty id = false ->
  JsString.all JsString.is_alnum id = true ->
  urlPattern_at ("figma.com/" ++ kind ++ "/" ++ id ++ "/" ++ rest) = Some id.
Proof.
  intros Hkind Hne Hal. unfold urlPattern_at.
  rewrite strip_prefix_app.
  assert (Hk : match JsString.strip_prefix "file" (kind ++ "/" ++ id ++ "/" ++ rest) with
               | Some r' => Some r'
               | None => JsString.strip_prefix "design" (kind ++ "/" ++ id ++ "/" ++ rest)
               end = Some ("/" ++ id ++ "/" ++ rest)).
  { destruct Hkind as [-> | ->]; reflexivity. }
  rewrite Hk, strip_prefix_app.
  rewrite (take_while_app JsString.is_alnum id ("/" ++ rest) Hal) by reflexivity.
  by rewrite Hne.
Qed.

Lemma replace_3A_nonempty (s : string) :
  JsString.is_empty s = false -> JsString.is_empty (JsString.replace_3A s) = false.
Proof.
  destruct s as [|c s]; [discriminate|]. intros _.
  destruct c as [[] [] [] [] [] [] [] []]; try reflexivity.
  destruct s as [|c2 s]; [reflexivity|].
  destruct c2 as [[] [] [] [] [] [] [] []]; try reflexivity.
  destruct s as [|c3 s]; [reflexivity|].
  destruct c3 as [[] [] [] [] [] [] [] []]; reflexivity.
Qed.

End UrlFacts.

(** X1. A URL of the usual shape - anything without an f, a question
    mark or an ampersand, then [figma.com/], [file] or [design], an
    alphanumeric file id, a title without [?] and [&], and a
    [?node-id=] parameter that ends with the text or at the next [&] -
    parses to exactly that file id and to that node id with every [%3A]
    turned into a colon. *)
Theorem parseFigmaUrl_round_trip
    (pre kind id title nid tail : string)
    (Hpre : JsString.all Shape.not_f pre = true)
    (Hpre' : JsString.all Shape.not_query pre = true)
    (Hkind : kind = "file" \/ kind = "design")
    (Hid : JsString.is_empty id = false)
    (Halnum : JsString.all JsString.is_alnum id = true)
    (Htitle : JsString.all Shape.not_query title = true)
    (Hnid : JsString.is_empty nid = false)
    (Hnid' : JsString.all FigmaClient.not_amp nid = true)
    (Htail : Shape.query_tail tail) :
  FigmaClient.parseFigmaUrl (Shape.figmaUrl pre kind id title nid tail)
  = inl {| FigmaClient.fileId := id;
           FigmaClient.nodeId := Some (JsString.replace_3A nid) |}.
Proof.
  unfold FigmaClient.parseFigmaUrl, Shape.figmaUrl.
  rewrite (search_skip_all FigmaClient.urlPattern_at Shape.not_f pre _
             urlPattern_at_not_f Hpre).
  assert (Hhead : JsString.search FigmaClient.urlPattern_at
                    ("figma.com/" ++ kind ++ "/" ++ id ++ "/" ++ title
                     ++ "?node-id=" ++ nid ++ tail) = Some id).
  { pose proof (urlPattern_at_here kind id (title ++ "?node-id=" ++ nid ++ tail)
                  Hkind Hid Halnum) as H.
    destruct ("figma.com/" ++ kind ++ "/" ++ id ++ "/" ++ title
              ++ "?node-id=" ++ nid ++ tail); cbn [JsString.search]; by rewrite H. }
  rewrite Hhead.
  assert (Hq : JsString.search FigmaClient.nodeIdPattern_at
                 (pre ++ "figma.com/" ++ kind ++ "/" ++ id ++ "/" ++ title
                  ++ "?node-id=" ++ nid ++ tail) = Some nid).
  { replace (pre ++ "figma.com/" ++ kind ++ "/" ++ id ++ "/" ++ title
             ++ "?node-id=" ++ nid ++ tail)
      with ((pre ++ "figma.com/" ++ kind ++ "/" ++ id ++ "/" ++ title)
            ++ "?node-id=" ++ nid ++ tail)
      by (rewrite !append_assoc; reflexivity).
    rewrite (search_skip_all FigmaClient.nodeIdPattern_at Shape.not_query _ _
               nodeIdPattern_at_not_query).
    - change ("?node-id=" ++ nid ++ tail)
        with (String "?" ("node-id=" ++ nid ++ tail)).
      cbn [JsString.search FigmaClient.nodeIdPattern_at Ascii.eqb Bool.eqb orb].
      rewrite strip_prefix_app.
      rewrite (take_while_app FigmaClient.not_amp nid tail Hnid').
      + by rewrite Hnid.
      + destruct tail as [|c t]; [exact I|]. cbn in Htail. by subst c.
    - rewrite !all_app, Hpre', Htitle.
      rewrite (all_weaken _ _ id alnum_not_query Halnum).
      destruct Hkind as [-> | ->]; reflexivity. }
  rewrite Hq. by rewrite (replace_3A_nonempty nid Hnid).
Qed.

(** the statement of X1 for the URL of the extractor's debug script, whose
    node id is followed by another parameter *)
Lemma parseFigmaUrl_round_trip_witness :
  Shape.figmaUrl "https://www." "design" "5h7RH37bjkXERjpF5dhtFX" "Compasso"
    "1311-9692" "&t=yYSTaSy5g7qI4B5A-11" = Scenario.complexUrl
  /\ FigmaClient.parseFigmaUrl
       (Shape.figmaUrl "https://www." "design" "5h7RH37bjkXERjpF5dhtFX"
          "Compasso" "1311-9692" "&t=yYSTaSy5g7qI4B5A-11")
     = inl {| FigmaClient.fileId := "5h7RH37bjkXERjpF5dhtFX";
              FigmaClient.nodeId := Some "1311-9692" |}.
Proof.
  split; [reflexivity|].
  exact (parseFigmaUrl_round_trip "https://www." "design"
           "5h7RH37bjkXERjpF5dhtFX" "Compasso" "1311-9692"
           "&t=yYSTaSy5g7qI4B5A-11" eq_refl eq_refl (or_intror eq_refl)
           eq_refl eq_refl eq_refl eq_refl eq_refl eq_refl).
Defined.

Section DecodeFacts.

Lemma prefix_cons (a b : ascii) (p s : string) :
  String.prefix (String a p) (String b s)
  = if Ascii.eqb a b then String.prefix p s else false.
Proof.
  cbn [String.prefix]. destruct (ascii_dec a b) as [->|Hne].
  - by rewrite Ascii.eqb_refl.
  - by destruct (Ascii.eqb_spec a b).
Qed.

Lemma replace_3A_other (c : ascii) (r : string) :
  c <> "%"%char ->
  JsString.replace_3A (String c r) = String c (JsString.replace_3A r).
Proof.
  intros H. destruct c as [[] [] [] [] [] [] [] []]; try reflexivity.
  exfalso. by apply H.
Qed.

Lemma replace_3A_pct_other (c2 : ascii) (r : string) :
  c2 <> "3"%char ->
  JsString.replace_3A (String "%" (String c2 r))
  = String "%" (JsString.replace_3A (String c2 r)).
Proof.
  intros H. destruct c2 as [[] [] [] [] [] [] [] []]; try reflexivity.
  exfalso. by apply H.
Qed.

Lemma replace_3A_pct3_other (c3 : ascii) (r : string) :
  c3 <> "A"%char ->
  JsString.replace_3A (String "%" (String "3" (String c3 r)))
  = String "%" (JsString.replace_3A (String "3" (String c3 r))).
Proof.
  intros H. destruct c3 as [[] [] [] [] [] [] [] []]; try reflexivity.
  exfalso. by apply H.
Qed.

(** where no [%3A] starts, the character is copied *)
Lemma replace_3A_miss (c : ascii) (r : string) :
  String.prefix "%3A" (String c r) = false ->
  JsString.replace_3A (String c r) = String c (JsString.replace_3A r).
Proof.
  rewrite prefix_cons.
  destruct (Ascii.eqb_spec "%" c) as [<-|Hc]; [|intros _; by apply replace_3A_other].
  destruct r as [|c2 r2]; [reflexivity|]. rewrite prefix_cons.
  destruct (Ascii.eqb_spec "3" c2) as [<-|Hc2];
    [|intros _; by apply replace_3A_pct_other].
  destruct r2 as [|c3 r3]; [reflexivity|]. rewrite prefix_cons.
  destruct (Ascii.eqb_spec "A" c3) as [<-|Hc3];
    [|intros _; by apply replace_3A_pct3_other].
  by destruct r3.
Qed.

Lemma prefix_3A_inv (v : string) :
  String.prefix "%3A" v = true -> exists r, v = "%3A" ++ r.
Proof.
  destruct v as [|c v]; [discriminate|]. rewrite prefix_cons.
  destruct (Ascii.eqb_spec "%" c) as [<-|]; [|discriminate].
  destruct v as [|c2 v]; [discriminate|]. rewrite prefix_cons.
  destruct (Ascii.eqb_spec "3" c2) as [<-|]; [|discriminate].
  destruct v as [|c3 v]; [discriminate|]. rewrite prefix_cons.
  destruct (Ascii.eqb_spec "A" c3) as [<-|]; [|discriminate].
  intros _. by exists v.
Qed.

(** induction along the way [replace(/%3A/g, ':')] consumes its input *)
Lemma replace_3A_ind (P : string -> string -> Prop) :
  P "" "" ->
  (forall r out, P r out -> P ("%3A" ++ r) (":" ++ out)) ->
  (forall c r out, String.prefix "%3A" (String c r) = false ->
                   P r out -> P (String c r) (String c out)) ->
  forall v, P v (JsString.replace_3A v).
Proof.
  intros Hnil Hhit Hmiss v.
  assert (H : forall n v, (String.length v <= n)%nat -> P v (JsString.replace_3A v)).
  { clear v. induction n as [|n IH]; intros v Hlen.
    - destruct v; [exact Hnil|cbn in Hlen; lia].
    - destruct v as [|c r]; [exact Hnil|].
      destruct (String.prefix "%3A" (String c r)) eqn:E.
      + destruct (prefix_3A_inv _ E) as [r' Hr']. rewrite Hr'.
        change (JsString.replace_3A ("%3A" ++ r'))
          with (":" ++ JsString.replace_3A r').
        apply Hhit, IH. rewrite Hr', !append_cons, append_nil in Hlen.
        cbn in Hlen. lia.
      + rewrite (replace_3A_miss _ _ E). apply Hmiss; [exact E|].
        apply IH. cbn in Hlen. lia. }
  by apply (H (String.length v)).
Qed.

Lemma replace_3A_all_not_amp (v : string) :
  JsString.all FigmaClient.not_amp v = true ->
  JsString.all FigmaClient.not_amp (JsString.replace_3A v) = true.
Proof.
  apply (replace_3A_ind (fun v out =>
           JsString.all FigmaClient.not_amp v = true ->
           JsString.all FigmaClient.not_amp out = true)).
  - reflexivity.
  - intros r out IH H. cbn in H. cbn. rewrite !append_cons, append_nil. cbn.
    apply IH. exact H.
  - intros c r out _ IH H. cbn in *. apply andb_prop in H as [Hc Hr].
    by rewrite Hc, (IH Hr).
Qed.

(** after decoding, no [%3A] is left *)
Lemma replace_3A_decoded (v : string) :
  JsString.includes (JsString.replace_3A v) "%3A" = false.
Proof.
  enough (H : JsString.includes (JsString.replace_3A v) "%3A" = false
              /\ (String.prefix "3A" (JsString.replace_3A v) = true ->
                  String.prefix "3A" v = true)
              /\ (String.prefix "A" (JsString.replace_3A v) = true ->
                  String.prefix "A" v = true)) by apply H.
  apply (replace_3A_ind (fun v out =>
           JsString.includes out "%3A" = false
           /\ (String.prefix "3A" out = true -> String.prefix "3A" v = true)
           /\ (String.prefix "A" out = true -> String.prefix "A" v = true))).
  - repeat split; discriminate.
  - intros r out (Hinc & _ & _). rewrite !append_cons, !append_nil.
    split; [|split; discriminate].
    cbn [JsString.includes]. rewrite prefix_cons. cbn. exact Hinc.
  - intros c r out Hmiss (Hinc & H3A & HA). split; [|split].
    + cbn [JsString.includes]. rewrite Hinc, orb_false_r.
      rewrite prefix_cons in Hmiss |- *.
      destruct (Ascii.eqb "%" c); [|reflexivity].
      destruct (String.prefix "3A" out) eqn:E; [|reflexivity].
      by rewrite (H3A eq_refl) in Hmiss.
    + rewrite !prefix_cons. destruct (Ascii.eqb "3" c); [exact HA|discriminate].
    + rewrite !prefix_cons. destruct (Ascii.eqb "A" c); [|discriminate].
      by destruct out, r.
Qed.

End DecodeFacts.

(** X2. Whatever URL [parseFigmaUrl] accepts, the file id it returns is
    not empty and purely alphanumeric, and a node id, when one is
    returned, is not empty, holds no ampersand and no [%3A]. *)
Theorem parseFigmaUrl_well_formed
    (url : string) (parsed : FigmaClient.ParsedUrl)
    (Hparse : FigmaClient.parseFigmaUrl url = inl parsed) :
  JsString.is_empty (FigmaClient.fileId parsed) = false
  /\ JsString.all JsString.is_alnum (FigmaClient.fileId parsed) = true
  /\ forall n : string,
      FigmaClient.nodeId parsed = Some n ->
      JsString.is_empty n = false
      /\ JsString.all FigmaClient.not_amp n = true
      /\ JsString.includes n "%3A" = false.
Proof.
  unfold FigmaClient.parseFigmaUrl in Hparse.
  destruct (JsString.search FigmaClient.urlPattern_at url) as [id|] eqn:Eid;
    [|discriminate].
  injection Hparse as <-. cbn [FigmaClient.fileId FigmaClient.nodeId].
  destruct (search_Some _ _ _ Eid) as (pre & post & _ & Hat).
  unfold FigmaClient.urlPattern_at in Hat.
  destruct (JsString.strip_prefix "figma.com/" post) as [r|]; [|discriminate].
  destruct (match JsString.strip_prefix "file" r with
            | Some r' => Some r'
            | None => JsString.strip_prefix "design" r
            end) as [r'|]; [|discriminate].
  destruct (JsString.strip_prefix "/" r') as [r''|]; [|discriminate].
  destruct (JsString.is_empty (JsString.take_while JsString.is_alnum r'')) eqn:Eempty;
    [discriminate|].
  injection Hat as <-. split; [exact Eempty|]. split; [apply take_while_all|].
  intros n.
  destruct (JsString.search FigmaClient.nodeIdPattern_at url) as [v|] eqn:Ev;
    [|discriminate].
  destruct (JsString.is_empty (JsString.replace_3A v)) eqn:Edec; [discriminate|].
  intros [= <-]. split; [exact Edec|].
  split; [|apply replace_3A_decoded].
  apply replace_3A_all_not_amp.
  destruct (search_Some _ _ _ Ev) as (pre' & post' & _ & Hat').
  unfold FigmaClient.nodeIdPattern_at in Hat'.
  destruct post' as [|c q]; [discriminate|].
  destruct (Ascii.eqb c "?" || Ascii.eqb c "&")%bool; [|discriminate].
  destruct (JsString.strip_prefix "node-id=" q) as [q'|]; [|discriminate].
  destruct (JsString.is_empty (JsString.take_while FigmaClient.not_amp q'));
    [discriminate|].
  injection Hat' as <-. apply take_while_all.
Qed.

(** the statement of X2 at a URL of the client's unit tests, whose node
    id is written with an encoded colon *)
Lemma parseFigmaUrl_well_formed_witness :
  FigmaClient.parseFigmaUrl "https://figma.com/design/xyz789/Design?node-id=1%3A2"
  = inl {| FigmaClient.fileId := "xyz789"; FigmaClient.nodeId := Some "1:2" |}
  /\ JsString.all JsString.is_alnum "xyz789" = true
  /\ JsString.includes "1:2" "%3A" = false.
Proof.
  assert (Hparse :
    FigmaClient.parseFigmaUrl "https://figma.com/design/xyz789/Design?node-id=1%3A2"
    = inl {| FigmaClient.fileId := "xyz789"; FigmaClient.nodeId := Some "1:2" |})
    by reflexivity.
  split; [exact Hparse|].
  destruct (parseFigmaUrl_well_formed _ _ Hparse) as (_ & Halnum & Hnode).
  split; [exact Halnum|].
  exact (proj2 (proj2 (Hnode "1:2" eq_refl))).
Defined.

Section RejectFacts.

Import FigmaClient.

Lemma urlPattern_at_prefix (s id : string) :
  urlPattern_at s = Some id ->
  String.prefix "figma.com/file/" s = true
  \/ String.prefix "figma.com/design/" s = true.
Proof.
  unfold urlPattern_at.
  destruct (JsString.strip_prefix "figma.com/" s) as [r|] eqn:E1; [|discriminate].
  apply strip_prefix_Some in E1. subst s.
  destruct (JsString.strip_prefix "file" r) as [r1|] eqn:E2.
  - apply strip_prefix_Some in E2. subst r.
    destruct (JsString.strip_prefix "/" r1) as [r2|] eqn:E3; [|discriminate].
    apply strip_prefix_Some in E3. subst r1. intros _. left.
    change ("figma.com/" ++ "file" ++ "/" ++ r2) with ("figma.com/file/" ++ r2).
    apply prefix_app.
  - destruct (JsString.strip_prefix "design" r) as [r1|] eqn:E2'; [|discriminate].
    apply strip_prefix_Some in E2'. subst r.
    destruct (JsString.strip_prefix "/" r1) as [r2|] eqn:E3; [|discriminate].
    apply strip_prefix_Some in E3. subst r1. intros _. right.
    change ("figma.com/" ++ "design" ++ "/" ++ r2) with ("figma.com/design/" ++ r2).
    apply prefix_app.
Qed.

Lemma search_urlPattern_includes (url id : string) :
  JsString.search urlPattern_at url = Some id ->
  JsString.includes url "figma.com/file/" = true
  \/ JsString.includes url "figma.com/design/" = true.
Proof.
  induction url as [|c url IH]; cbn [JsString.search].
  - destruct (urlPattern_at "") eqn:E; [|discriminate]. discriminate E.
  - destruct (urlPattern_at (String c url)) as [x|] eqn:E.
    + intros _. destruct (urlPattern_at_prefix _ _ E) as [H|H];
        [left|right]; by apply includes_head.
    + intros H. destruct (IH H) as [H'|H']; [left|right]; by apply includes_tail.
Qed.

End RejectFacts.

(** X3. A URL that contains neither [figma.com/file/] nor
    [figma.com/design/] is refused: [parseFigmaUrl] throws the
    [FigmaClientError] 'Invalid Figma URL format' with code INVALID_URL. *)
Theorem parseFigmaUrl_refuses_foreign_urls
    (url : string)
    (Hfile : JsString.includes url "figma.com/file/" = false)
    (Hdesign : JsString.includes url "figma.com/design/" = false) :
  FigmaClient.parseFigmaUrl url
  = inr (Err.ClientError "Invalid Figma URL format" "INVALID_URL" None).
Proof.
  unfold FigmaClient.parseFigmaUrl.
  destruct (JsString.search FigmaClient.urlPattern_at url) as [id|] eqn:E;
    [|reflexivity].
  destruct (search_urlPattern_includes _ _ E) as [H|H]; congruence.
Qed.

(** the statement of X3 at one of the invalid URLs of the client's unit
    tests *)
Lemma parseFigmaUrl_refuses_witness :
  JsString.includes "https://figma.com/invalid-path" "figma.com/file/" = false
  /\ FigmaClient.parseFigmaUrl "https://figma.com/invalid-path"
     = inr (Err.ClientError "Invalid Figma URL format" "INVALID_URL" None).
Proof.
  split; [reflexivity|].
  exact (parseFigmaUrl_refuses_foreign_urls "https://figma.com/invalid-path"
           eq_refl eq_refl).
Defined.

(** ** detectComplexLayout *)

Section HeuristicFacts.

Import StreamingExtractor.

Lemma in_range_is_digit (lo : nat) (c : ascii) :
  (48 <= lo)%nat -> JsString.in_range lo 57 c = true -> JsString.is_digit c = true.
Proof.
  unfold JsString.in_range, JsString.is_digit. intros Hlo H.
  apply andb_prop in H as [H1 H2]. apply Nat.leb_le in H1.
  rewrite H2, andb_true_r. apply Nat.leb_le. lia.
Qed.

(** a node id in the 'complex range' starts with four digits *)
Lemma isInComplexRange_hasHighNumbers (n : string) :
  isInComplexRange n = true -> hasHighNumbers n = true.
Proof.
  unfold isInComplexRange, hasHighNumbers.
  destruct n as [|a [|b [|c [|d r]]]]; try discriminate.
  intros H. apply andb_prop in H as [H Hd]. apply andb_prop in H as [H Hc].
  assert (Hab : JsString.is_digit a = true /\ JsString.is_digit b = true).
  { apply orb_prop in H as [H|H]; [apply orb_prop in H as [H|H]|];
      apply andb_prop in H as [Ha Hb].
    - apply Ascii.eqb_eq in Ha, Hb. by subst.
    - apply Ascii.eqb_eq in Ha. subst a. split; [reflexivity|].
      by apply (in_range_is_digit 52); [lia|].
    - split; [|exact Hb]. by apply (in_range_is_digit 50); [lia|]. }
  destruct Hab as [Ha Hb].
  cbn [JsString.search four_digits_at]. by rewrite Ha, Hb, Hc, Hd.
Qed.

End HeuristicFacts.

(** X4. The third test of [detectComplexLayout], the 'complex range'
    [/^(13\d\d|1[4-9]\d\d|[2-9]\d\d\d)/], never decides anything: a URL
    is classified complex exactly when the value of its first
    [node-id=] parameter holds four digits in a row or at least two
    hyphens; without such a parameter, or without a URL, it is not
    complex. *)
Theorem detectComplexLayout_two_tests (u : option string) :
  StreamingExtractor.detectComplexLayout u
  = match u with
    | None => false
    | Some url =>
        match JsString.search StreamingExtractor.nodeIdParam_at url with
        | Some n => (StreamingExtractor.hasHighNumbers n
                     || StreamingExtractor.hasMultipleParts n)%bool
        | None => false
        end
    end.
Proof.
  destruct u as [url|]; [|reflexivity].
  unfold StreamingExtractor.detectComplexLayout.
  destruct (JsString.is_empty url) eqn:E.
  - destruct url; [reflexivity|discriminate].
  - destruct (JsString.search StreamingExtractor.nodeIdParam_at url) as [n|];
      [|reflexivity].
    destruct (StreamingExtractor.isInComplexRange n) eqn:Er;
      [|by rewrite orb_false_r].
    by rewrite (isInComplexRange_hasHighNumbers n Er).
Qed.

(** ** Result cache, continued *)

(** X5. Storing under a key that is already there replaces the entry and
    restarts its lifetime: after [set(key, d1)] at [t1] and
    [set(key, d2)] at [t2] the cache is as if only the second had
    happened, its size has not grown, and a read made while
    [now - t2 <= ttl] returns [d2] even when the first entry would have
    expired by then. Entries under other keys are not touched. *)
Theorem cache_overwrite_restarts_ttl
    (config : FigmaClient.FigmaClientConfig)
    (cache : gmap string FigmaClient.CacheEntry)
    (key : string) (d1 d2 : JsVal) (t1 t2 now : Z)
    (Hfresh : now - t2 <= FigmaClient.cacheTTL config) :
  FigmaClient.setCache config (FigmaClient.setCache config cache key d1 t1) key d2 t2
  = FigmaClient.setCache config cache key d2 t2
  /\ size (FigmaClient.setCache config
             (FigmaClient.setCache config cache key d1 t1) key d2 t2)
     = size (FigmaClient.setCache config cache key d1 t1)
  /\ fst (FigmaClient.getFromCache
            (FigmaClient.setCache config
               (FigmaClient.setCache config cache key d1 t1) key d2 t2) key now)
     = d2
  /\ forall other : string,
      other <> key ->
      FigmaClient.setCache config
        (FigmaClient.setCache config cache key d1 t1) key d2 t2 !! other
      = cache !! other.
Proof.
  assert (E : FigmaClient.setCache config
                (FigmaClient.setCache config cache key d1 t1) key d2 t2
              = FigmaClient.setCache config cache key d2 t2)
    by (unfold FigmaClient.setCache; apply insert_insert_eq).
  split; [exact E|]. split; [|split].
  - rewrite E. unfold FigmaClient.setCache.
    rewrite !map_size_insert. by destruct (cache !! key).
  - rewrite E, getFromCache_fresh by exact Hfresh. reflexivity.
  - intros other Hne. rewrite E. unfold FigmaClient.setCache.
    by rewrite lookup_insert_ne.
Qed.

(** the statement of X5 where the second store comes six minutes after
    the first and the read four minutes after the second, at the default
    lifetime of five minutes *)
Lemma cache_overwrite_witness :
  460000 - 360000 <= FigmaClient.cacheTTL FigmaClient.DEFAULT_FIGMA_CLIENT_CONFIG
  /\ fst (FigmaClient.getFromCache
            (FigmaClient.setCache FigmaClient.DEFAULT_FIGMA_CLIENT_CONFIG
               (FigmaClient.setCache FigmaClient.DEFAULT_FIGMA_CLIENT_CONFIG ∅
                  "k" (JStr "old") 0) "k" (JStr "new") 360000) "k" 460000)
     = JStr "new".
Proof.
  assert (H : 460000 - 360000
              <= FigmaClient.cacheTTL FigmaClient.DEFAULT_FIGMA_CLIENT_CONFIG)
    by (cbn; lia).
  split; [exact H|].
  exact (proj1 (proj2 (proj2
           (cache_overwrite_restarts_ttl FigmaClient.DEFAULT_FIGMA_CLIENT_CONFIG
              ∅ "k" (JStr "old") (JStr "new") 0 360000 460000 H)))).
Defined.

(** X6. A read never makes the cache larger and never changes another
    key's entry; it removes an entry exactly when it finds the key
    present and expired, and then the size drops by one. So an expired
    entry that is never read again stays counted in [getCacheStats().size]
    for good. After [clearCache()] every read misses and the size is 0. *)
Theorem cache_read_effect
    (cache : gmap string FigmaClient.CacheEntry) (key : string) (now : Z) :
  (size (snd (FigmaClient.getFromCache cache key now)) <= size cache)%nat
  /\ (forall entry : FigmaClient.CacheEntry,
        cache !! key = Some entry ->
        now - FigmaClient.timestamp entry > FigmaClient.ttl entry ->
        snd (FigmaClient.getFromCache cache key now) = delete key cache
        /\ S (size (snd (FigmaClient.getFromCache cache key now))) = size cache)
  /\ (forall entry : FigmaClient.CacheEntry,
        cache !! key = Some entry ->
        now - FigmaClient.timestamp entry <= FigmaClient.ttl entry ->
        FigmaClient.getFromCache cache key now = (FigmaClient.data entry, cache))
  /\ (cache !! key = None ->
      FigmaClient.getFromCache cache key now = (JNull, cache))
  /\ FigmaClient.getFromCache (FigmaClient.clearCache cache) key now = (JNull, ∅)
  /\ size (FigmaClient.clearCache cache) = 0%nat.
Proof.
  unfold FigmaClient.getFromCache, FigmaClient.clearCache.
  split; [|split; [|split; [|split; [|split]]]].
  - destruct (cache !! key) as [entry|] eqn:Ek; [|reflexivity].
    destruct (now - FigmaClient.timestamp entry >? FigmaClient.ttl entry);
      [|reflexivity].
    cbn [snd]. rewrite map_size_delete, Ek. lia.
  - intros entry Ek Hold. rewrite Ek.
    destruct (now - FigmaClient.timestamp entry >? FigmaClient.ttl entry) eqn:E.
    + cbn [snd]. split; [reflexivity|].
      rewrite map_size_delete, Ek.
      destruct (size cache) as [|k] eqn:Es; [|reflexivity].
      apply map_size_empty_iff in Es. subst cache.
      by rewrite lookup_empty in Ek.
    + rewrite Z.gtb_ltb in E. apply Z.ltb_ge in E. lia.
  - intros entry Ek Hfresh. rewrite Ek.
    destruct (now - FigmaClient.timestamp entry >? FigmaClient.ttl entry) eqn:E;
      [|reflexivity].
    apply Z.gtb_lt in E. lia.
  - by intros ->.
  - by rewrite lookup_empty.
  - apply map_size_empty.
Qed.

(** ** Progress tracker, continued *)

Section TrackerFacts.

Import ProgressTracker.


Lemma has_None (m : gmap string Z) (k : string) :
  m !! k = None -> has m k = false.
Proof. unfold has. by intros ->. Qed.


End TrackerFacts.



(** X8. The duration recorded for a stage is the time between the call
    that entered it and the first call that either reports it at 100
    percent or moves on to another stage - except that a stage entered
    at clock reading 0 is given duration 0, because its start time is
    then taken for missing. *)
Theorem stage_duration_is_time_in_stage
    (t : ProgressTracker.Tracker) (stage next : string) (p1 p2 : Z)
    (m1 m2 : option string) (t1 t2 : Z)
    (Hentering : ProgressTracker.currentStage t <> stage)
    (Hopen : ProgressTracker.stageDurations t !! stage = None)
    (Hnamed : JsString.is_empty stage = false)
    (Hp1 : p1 <> 100)
    (Hnext : next <> stage) :
  ProgressTracker.stageDurations
    (snd (ProgressTracker.updateStage
            (snd (ProgressTracker.updateStage t stage p1 m1 t1))
            stage 100 m2 t2)) !! stage
  = Some (t2 - (if t1 =? 0 then t2 else t1))
  /\ ProgressTracker.stageDurations
       (snd (ProgressTracker.updateStage
               (snd (ProgressTracker.updateStage t stage p1 m1 t1))
               next p2 m2 t2)) !! stage
     = Some (t2 - (if t1 =? 0 then t2 else t1)).
Proof.
  assert (Hne : String.eqb stage (ProgressTracker.currentStage t) = false)
    by (apply String.eqb_neq; congruence).
  assert (Hp : (p1 =? 100) = false) by (by apply Z.eqb_neq).
  (* the tracker once the stage has been entered *)
  assert (Hin : exists u : ProgressTracker.Tracker,
             snd (ProgressTracker.updateStage t stage p1 m1 t1) = u
             /\ ProgressTracker.currentStage u = stage
             /\ ProgressTracker.stageStartTimes u !! stage = Some t1
             /\ ProgressTracker.stageDurations u !! stage = None).
  { eexists. split; [reflexivity|].
    unfold ProgressTracker.updateStage. cbn [snd]. rewrite Hne, Hp. cbn [negb andb].
    cbn [ProgressTracker.set_stage_tables ProgressTracker.currentStage
         ProgressTracker.stageStartTimes ProgressTracker.stageDurations].
    split; [reflexivity|]. split; [apply lookup_insert_eq|].
    destruct (negb (JsString.is_empty (ProgressTracker.currentStage t))
              && negb (ProgressTracker.has (ProgressTracker.stageDurations t)
                         (ProgressTracker.currentStage t)))%bool; [|exact Hopen].
    by rewrite lookup_insert_ne. }
  destruct Hin as (u & -> & Hcur & Hstart & Hdur).
  assert (Hget : ProgressTracker.get_or (ProgressTracker.stageStartTimes u) stage t2
                 = if t1 =? 0 then t2 else t1)
    by (unfold ProgressTracker.get_or; by rewrite Hstart).
  split.
  - unfold ProgressTracker.updateStage. cbn [snd].
    rewrite Hcur, String.eqb_refl. cbn [negb Z.eqb Pos.eqb andb].
    rewrite (has_None _ _ Hdur). cbn [negb ProgressTracker.set_stage_tables
                                      ProgressTracker.stageDurations].
    by rewrite lookup_insert_eq, Hget.
  - assert (Hne' : String.eqb next stage = false) by (by apply String.eqb_neq).
    unfold ProgressTracker.updateStage. cbn [snd].
    rewrite Hcur, Hne'. cbn [negb]. rewrite Hnamed, (has_None _ _ Hdur).
    cbn [negb andb ProgressTracker.set_stage_tables ProgressTracker.stageDurations
         ProgressTracker.currentStage ProgressTracker.stageStartTimes].
    rewrite Hget.
    destruct ((p2 =? 100)
              && negb (ProgressTracker.has
                         (<[stage := t2 - (if t1 =? 0 then t2 else t1)]>
                            (ProgressTracker.stageDurations u)) next))%bool.
    + cbn [ProgressTracker.set_stage_tables ProgressTracker.stageDurations].
      rewrite lookup_insert_ne by exact Hnext. apply lookup_insert_eq.
    + apply lookup_insert_eq.
Qed.

(** the statement of X8 for the first stage of a run started at clock
    reading 1000: entered at 1010, left for the next stage at 1250 *)
Lemma stage_duration_witness :
  ProgressTracker.currentStage (ProgressTracker.start 1000) <> "variables"
  /\ ProgressTracker.stageDurations
       (snd (ProgressTracker.updateStage
               (snd (ProgressTracker.updateStage (ProgressTracker.start 1000)
                       "variables" 0 None 1010))
               "components" 0 None 1250)) !! "variables"
     = Some 240.
Proof.
  assert (H : ProgressTracker.currentStage (ProgressTracker.start 1000) <> "variables")
    by discriminate.
  split; [exact H|].
  exact (proj2 (stage_duration_is_time_in_stage (ProgressTracker.start 1000)
                  "variables" "components" 0 0 None None 1010 1250
                  H (lookup_empty _) eq_refl ltac:(discriminate) ltac:(discriminate))).
Defined.

(** ** Efficiency score, continued *)

Section ScoreOrder.

Import ProgressTracker.

Lemma seconds_over_mono (a b : Z) :
  a <= b -> (inject_Z (a - 15000) / 1000 <= inject_Z (b - 15000) / 1000)%Q.
Proof.
  intros H. unfold Qdiv. apply Qmult_le_compat_r; [|discriminate].
  rewrite <- Zle_Qle. lia.
Qed.

Lemma spec_efficiency_mono (T1 T2 : Z) (o1 o2 : bool) (r1 r2 h1 h2 : Z) :
  T1 <= T2 -> (o1 = true -> o2 = true) -> r1 <= r2 -> h2 <= h1 ->
  (spec_efficiency T2 o2 r2 h2 <= spec_efficiency T1 o1 r1 h1)%Q.
Proof.
  intros HT Ho Hr Hh. unfold spec_efficiency.
  apply Q.max_le_compat_l, Q.min_le_compat_l.
  assert (Hs : (Qmin 30 (Qmax 0 (inject_Z (T1 - 15000) / 1000))
                <= Qmin 30 (Qmax 0 (inject_Z (T2 - 15000) / 1000)))%Q)
    by (apply Q.min_le_compat_l, Q.max_le_compat_l, seconds_over_mono, HT).
  assert (Hr' : (inject_Z r1 <= inject_Z r2)%Q) by (by rewrite <- Zle_Qle).
  assert (Hh' : (inject_Z h2 <= inject_Z h1)%Q) by (by rewrite <- Zle_Qle).
  assert (Hpen : ((if o1 then 20 else 0) <= (if o2 then 20 else 0))%Q).
  { destruct o1, o2; try discriminate. by specialize (Ho eq_refl). }
  set (s1 := Qmin 30 (Qmax 0 (inject_Z (T1 - 15000) / 1000))) in *.
  set (s2 := Qmin 30 (Qmax 0 (inject_Z (T2 - 15000) / 1000))) in *.
  set (q1 := if o1 then 20%Q else 0%Q) in *.
  set (q2 := if o2 then 20%Q else 0%Q) in *.
  lra.
Qed.

End ScoreOrder.

(** X9. The efficiency score is monotone: a run that is no longer, has a
    timeout only if the other has one, has no more retries and no fewer
    cache hits scores at least as high. *)
Theorem efficiency_is_monotone
    (better worse : ProgressTracker.PerformanceMetrics)
    (Hduration : ProgressTracker.totalDuration better
                 <= ProgressTracker.totalDuration worse)
    (Htimeout : ProgressTracker.timeoutOccurred better = true ->
                ProgressTracker.timeoutOccurred worse = true)
    (Hretries : ProgressTracker.retryAttempts better
                <= ProgressTracker.retryAttempts worse)
    (Hhits : ProgressTracker.cacheHits worse <= ProgressTracker.cacheHits better) :
  (ProgressTracker.efficiencyOf worse <= ProgressTracker.efficiencyOf better)%Q.
Proof.
  rewrite !efficiencyOf_spec. by apply spec_efficiency_mono.
Qed.

(** the statement of X9 for a 12 s run against a 20 s run with a timeout
    and a retry *)
Lemma efficiency_is_monotone_witness :
  (ProgressTracker.efficiencyOf
     {| ProgressTracker.totalDuration := 20000;
        ProgressTracker.variablesDuration := 0;
        ProgressTracker.componentsDuration := 0;
        ProgressTracker.codeDuration := 0;
        ProgressTracker.timeoutOccurred := true;
        ProgressTracker.timeoutStage := Some "code";
        ProgressTracker.cacheHits := 0;
        ProgressTracker.retryAttempts := 1 |}
   <= ProgressTracker.efficiencyOf
        {| ProgressTracker.totalDuration := 12000;
           ProgressTracker.variablesDuration := 0;
           ProgressTracker.componentsDuration := 0;
           ProgressTracker.codeDuration := 0;
           ProgressTracker.timeoutOccurred := false;
           ProgressTracker.timeoutStage := None;
           ProgressTracker.cacheHits := 0;
           ProgressTracker.retryAttempts := 0 |})%Q.
Proof.
  apply efficiency_is_monotone; cbn; [lia|discriminate|lia|lia].
Defined.

(** ** Response correlation, continued *)

Section FrameFacts.

Import FigmaClient.

Lemma split_lines_line (a b : string) :
  JsString.all JsString.not_lf a = true ->
  JsString.split_lines (a ++ Wire.nl ++ b) = a :: JsString.split_lines b.
Proof.
  induction a as [|c a IH]; [reflexivity|].
  cbn [JsString.all]. intros H. apply andb_prop in H as [Hc Ha].
  rewrite append_cons. cbn [JsString.split_lines].
  unfold JsString.not_lf in Hc. apply negb_true_iff in Hc. rewrite Hc.
  by rewrite (IH Ha).
Qed.

Lemma trimEnd_keeps_head (c : ascii) (s : string) :
  JsString.is_space c = false ->
  JsString.is_empty (JsString.trimEnd (String c s)) = false.
Proof.
  intros Hc. cbn [JsString.trimEnd].
  destruct (JsString.trimEnd s); [by rewrite Hc|reflexivity].
Qed.

Lemma substring_from_app (p r : string) :
  JsString.substring_from (String.length p) (p ++ r) = r.
Proof. induction p as [|c p IH]; [by destruct r|]. rewrite append_cons. exact IH. Qed.

(** the lines of one whole frame *)
Lemma messageFrame_lines (payload : string) :
  JsString.all JsString.not_lf payload = true ->
  JsString.split_lines (Wire.messageFrame payload)
  = ["event: message"; "data: " ++ payload; ""; ""].
Proof.
  intros H. unfold Wire.messageFrame.
  rewrite (split_lines_line "event: message") by reflexivity.
  replace ("data: " ++ payload ++ Wire.nl ++ Wire.nl)
    with (("data: " ++ payload) ++ Wire.nl ++ Wire.nl)
    by (by rewrite append_assoc).
  rewrite (split_lines_line ("data: " ++ payload))
    by (rewrite all_app, H; reflexivity).
  reflexivity.
Qed.

End FrameFacts.

(** X10. A response frame that arrives whole in one read - the line
    [event: message], the line [data: ] followed by a payload without
    line feed, and a blank line - is accepted at once when
    [JSON.parse] yields a value with a truthy [result] or [error]: the
    call resolves with that value, its [id] set to the request's id,
    whatever comes later on the stream. *)
Theorem whole_frame_is_accepted
    (JSON_parse : string -> option JsVal) (request_id : Z)
    (payload : string) (d : JsVal) (later : list FigmaClient.ReadResult)
    (Hline : JsString.all JsString.not_lf payload = true)
    (Hparse : JSON_parse payload = Some d)
    (Hresp : FigmaClient.hasResultOrError d = true) :
  FigmaClient.listenForResponse JSON_parse request_id
    (FigmaClient.Chunk (Wire.messageFrame payload) :: later) ""
  = Resolved (Js.set d "id" (JNum (inject_Z request_id))).
Proof.
  cbn [FigmaClient.listenForResponse].
  assert (Hne : JsString.is_empty (Wire.messageFrame payload) = false)
    by reflexivity.
  rewrite Hne, append_nil, (messageFrame_lines payload Hline).
  cbn [removelast FigmaClient.scanLines].
  assert (Hev : JsString.startsWith (JsString.trim "event: message") "event: message"
                = true) by reflexivity.
  rewrite Hev.
  assert (Hdata : JsString.is_empty (JsString.trim ("data: " ++ payload)) = false).
  { rewrite append_cons. unfold JsString.trim. cbn [JsString.trimStart].
    assert (Hd : JsString.is_space "d" = false) by reflexivity.
    rewrite Hd. by apply trimEnd_keeps_head. }
  rewrite Hdata. unfold JsString.startsWith. rewrite prefix_app.
  pose proof (substring_from_app "data: " payload) as Hsub.
  cbn [String.length] in Hsub. rewrite Hsub, Hparse, Hresp. reflexivity.
Qed.

(** the statement of X10 for the result payload of the examples, with
    request id 7 against the payload's own id 1 *)
Lemma whole_frame_witness :
  Wire.wire_parse Wire.resultPayload = Some Wire.resultValue
  /\ FigmaClient.listenForResponse Wire.wire_parse 7
       [FigmaClient.Chunk (Wire.messageFrame Wire.resultPayload)] ""
     = Resolved (JObj [("jsonrpc", JStr "2.0"); ("id", JNum 7);
                       ("result", JObj [("content", JArr [])])]).
Proof.
  split; [reflexivity|].
  exact (whole_frame_is_accepted Wire.wire_parse 7 Wire.resultPayload
           Wire.resultValue [] eq_refl eq_refl eq_refl).
Defined.

(** ** The retry loop, continued *)

Section RetryMeasures.

Import FigmaClient RetrySpec Measures.

Variable JSON_parse : string -> option JsVal.
Variable config : FigmaClientConfig.
Variable net : Z -> Exchange.

Lemma slept_app (a b : list TransportEvent) :
  slept (a ++ b)%list = slept a + slept b.
Proof. induction a as [|[n i|n d] a IH]; cbn; lia. Qed.

Lemma requestIds_app (a b : list TransportEvent) :
  requestIds (a ++ b)%list = (requestIds a ++ requestIds b)%list.
Proof. induction a as [|[n i|n d] a IH]; cbn; [reflexivity| |]; by rewrite ?IH. Qed.

Lemma backoffDelay_le (attempt : Z) : backoffDelay attempt <= 5000.
Proof. unfold backoffDelay. lia. Qed.

Lemma ids_shift (base : Z) (n : nat) :
  map (fun i : nat => base + 1 + Z.of_nat i) (seq 1 n)
  = map (fun i : nat => base + Z.of_nat i) (seq 2 n).
Proof.
  rewrite <- (seq_shift n 1), map_map. apply map_ext. intros i. lia.
Qed.

Lemma retryLoop_ids (remaining : nat) :
  forall (attempt : Z) (lastError : option JsError) (st : TransportState),
    Z.of_nat remaining = retryAttempts config - attempt + 1 ->
    exists new : list TransportEvent,
      events (snd (retryLoop JSON_parse config net remaining attempt lastError st))
      = (events st ++ new)%list
      /\ requestId (snd (retryLoop JSON_parse config net remaining attempt lastError st))
         = requestId st + Z.of_nat (attempts new)
      /\ requestIds new
         = map (fun i : nat => requestId st + Z.of_nat i) (seq 1 (attempts new))
      /\ (remaining <> O -> (1 <= attempts new)%nat)
      /\ slept new <= 5000 * Z.max 0 (Z.of_nat (attempts new) - 1).
Proof.
  assert (Hone : forall (a : Z) (st : TransportState),
    requestId st + 1 = requestId st + Z.of_nat (attempts [Attempted a (requestId st + 1)])
    /\ requestIds [Attempted a (requestId st + 1)]
       = map (fun i : nat => requestId st + Z.of_nat i)
           (seq 1 (attempts [Attempted a (requestId st + 1)]))
    /\ (S O <> O -> (1 <= attempts [Attempted a (requestId st + 1)])%nat)
    /\ slept [Attempted a (requestId st + 1)]
       <= 5000 * Z.max 0 (Z.of_nat (attempts [Attempted a (requestId st + 1)]) - 1)).
  { intros a st. cbn. repeat split; lia. }
  induction remaining as [|r IH]; intros attempt lastError st Hinv.
  - exists []. cbn. rewrite app_nil_r. repeat split; try lia; congruence.
  - cbn [retryLoop].
    destruct (makeRequestWithSSE JSON_parse config (requestId st + 1)
                (net (requestId st + 1))) as [resp|error|].
    + exists [Attempted attempt (requestId st + 1)].
      destruct (Hone attempt st) as (H1 & H2 & H3 & H4). cbn [snd events requestId].
      repeat split; auto.
    + destruct (attempt <? retryAttempts config) eqn:Hlt.
      * apply Z.ltb_lt in Hlt.
        edestruct (IH (attempt + 1) (Some (asError error)))
          as (new & Hev & Hid & Hids & Hpos & Hsl); [lia|].
        rewrite Hev, Hid. cbn [events requestId] in *.
        exists (Attempted attempt (requestId st + 1)
                :: Slept attempt (backoffDelay attempt) :: new).
        rewrite <- !app_assoc. cbn [app attempts requestIds slept].
        split; [reflexivity|]. split; [lia|]. split; [|split; [lia|]].
        -- rewrite Hids. cbn [seq map]. rewrite ids_shift.
           replace (requestId st + Z.of_nat 1) with (requestId st + 1) by lia.
           reflexivity.
        -- pose proof (backoffDelay_le attempt). specialize (Hpos ltac:(lia)). lia.
      * apply Z.ltb_ge in Hlt.
        assert (r = O) by lia. subst r. cbn [retryLoop].
        exists [Attempted attempt (requestId st + 1)].
        destruct (Hone attempt st) as (H1 & H2 & H3 & H4). cbn [snd events requestId].
        repeat split; auto.
    + exists [Attempted attempt (requestId st + 1)].
      destruct (Hone attempt st) as (H1 & H2 & H3 & H4). cbn [snd events requestId].
      repeat split; auto.
Qed.

Lemma retryLoop_first_success (r : JsVal) (k : nat) :
  forall (remaining : nat) (attempt : Z) (lastError : option JsError)
         (st : TransportState),
    (k < remaining)%nat ->
    (forall i : Z, 1 <= i <= Z.of_nat k ->
       exists e : JsError,
         makeRequestWithSSE JSON_parse config (requestId st + i)
           (net (requestId st + i)) = Rejected e) ->
    makeRequestWithSSE JSON_parse config (requestId st + Z.of_nat k + 1)
      (net (requestId st + Z.of_nat k + 1)) = Resolved r ->
    exists new : list TransportEvent,
      retryLoop JSON_parse config net remaining attempt lastError st
      = (Resolved r, {| requestId := requestId st + Z.of_nat k + 1;
                        events := (events st ++ new)%list |})
      /\ attempts new = S k.
Proof.
  induction k as [|k IH]; intros remaining attempt lastError st Hk Hfail Hok;
    (destruct remaining as [|rem]; [lia|]); cbn [retryLoop].
  - replace (requestId st + Z.of_nat 0 + 1) with (requestId st + 1) in * by lia.
    rewrite Hok. eexists. split; reflexivity.
  - destruct (Hfail 1 ltac:(lia)) as [e He]. rewrite He.
    set (st2 := if attempt <? retryAttempts config then _ else _).
    assert (Hid : requestId st2 = requestId st + 1)
      by (unfold st2; destruct (attempt <? retryAttempts config); reflexivity).
    destruct (IH rem (attempt + 1) (Some (asError e)) st2) as (new & Hrun & Hn).
    + lia.
    + intros i Hi. rewrite Hid.
      replace (requestId st + 1 + i) with (requestId st + (i + 1)) by lia.
      apply Hfail. lia.
    + rewrite Hid.
      replace (requestId st + 1 + Z.of_nat k + 1)
        with (requestId st + Z.of_nat (S k) + 1) by lia.
      exact Hok.
    + rewrite Hrun, Hid.
      replace (requestId st + 1 + Z.of_nat k + 1)
        with (requestId st + Z.of_nat (S k) + 1) by lia.
      unfold st2. destruct (attempt <? retryAttempts config); cbn [events];
        rewrite <- !app_assoc; eexists; (split; [reflexivity|]);
        cbn [app attempts]; lia.
Qed.

End RetryMeasures.

(** X11. Whatever the remote side does and whatever [retryAttempts]
    is, one [makeRequest] uses consecutive request ids: its attempts
    carry the ids [requestId + 1], [requestId + 2], ... in order, the
    counter ends at the last one used, and the pauses between the
    attempts add up to at most 5000 ms for each attempt after the
    first. *)
Theorem makeRequest_ids_and_pauses
    (JSON_parse : string -> option JsVal)
    (config : FigmaClient.FigmaClientConfig)
    (net : Z -> FigmaClient.Exchange) (st : FigmaClient.TransportState) :
  exists new : list FigmaClient.TransportEvent,
    FigmaClient.events (snd (FigmaClient.makeRequest JSON_parse config net st))
    = (FigmaClient.events st ++ new)%list
    /\ FigmaClient.requestId (snd (FigmaClient.makeRequest JSON_parse config net st))
       = FigmaClient.requestId st + Z.of_nat (RetrySpec.attempts new)
    /\ Measures.requestIds new
       = map (fun i : nat => FigmaClient.requestId st + Z.of_nat i)
           (seq 1 (RetrySpec.attempts new))
    /\ Measures.slept new
       <= 5000 * Z.max 0 (Z.of_nat (RetrySpec.attempts new) - 1).
Proof.
  unfold FigmaClient.makeRequest.
  destruct (Z.to_nat (FigmaClient.retryAttempts config)) as [|n] eqn:En.
  - exists []. cbn. rewrite app_nil_r. repeat split; lia.
  - destruct (retryLoop_ids JSON_parse config net (S n) 1 None st)
      as (new & Hev & Hid & Hids & _ & Hsl); [lia|].
    exists new. auto.
Qed.

(** X12. The loop stops at the first attempt that succeeds: when the
    next [k] requests are rejected and the one after them resolves,
    with [k] below [retryAttempts], [makeRequest] resolves with that
    response after exactly [k + 1] attempts and leaves the request
    counter at the id of the successful one. *)
Theorem first_success_stops_retrying
    (JSON_parse : string -> option JsVal)
    (config : FigmaClient.FigmaClientConfig)
    (net : Z -> FigmaClient.Exchange) (st : FigmaClient.TransportState)
    (k : nat) (r : JsVal)
    (Hk : Z.of_nat k < FigmaClient.retryAttempts config)
    (Hfail : forall i : Z, 1 <= i <= Z.of_nat k ->
       exists e : JsError,
         FigmaClient.makeRequestWithSSE JSON_parse config
           (FigmaClient.requestId st + i) (net (FigmaClient.requestId st + i))
         = Rejected e)
    (Hok : FigmaClient.makeRequestWithSSE JSON_parse config
             (FigmaClient.requestId st + Z.of_nat k + 1)
             (net (FigmaClient.requestId st + Z.of_nat k + 1)) = Resolved r) :
  exists new : list FigmaClient.TransportEvent,
    FigmaClient.makeRequest JSON_parse config net st
    = (Resolved r,
       {| FigmaClient.requestId := FigmaClient.requestId st + Z.of_nat k + 1;
          FigmaClient.events := (FigmaClient.events st ++ new)%list |})
    /\ RetrySpec.attempts new = S k.
Proof.
  unfold FigmaClient.makeRequest.
  apply retryLoop_first_success; [lia|exact Hfail|exact Hok].
Qed.

(** the statement of X12 for a remote side that refuses the first
    connection and answers the second *)
Lemma first_success_witness :
  exists new : list FigmaClient.TransportEvent,
    FigmaClient.makeRequest Wire.wire_parse RetrySpec.threeAttempts
      Measures.secondTime Wire.idle
    = (Resolved (JObj [("jsonrpc", JStr "2.0"); ("id", JNum 2);
                       ("result", JObj [("content", JArr [])])]),
       {| FigmaClient.requestId := 2;
          FigmaClient.events := ([] ++ new)%list |})
    /\ RetrySpec.attempts new = 2%nat.
Proof.
  apply (first_success_stops_retrying Wire.wire_parse RetrySpec.threeAttempts
           Measures.secondTime Wire.idle 1%nat).
  - reflexivity.
  - intros i Hi. assert (i = 1) as -> by (cbn in Hi; lia).
    eexists. vm_compute. reflexivity.
  - vm_compute. reflexivity.
Defined.

(** ** The connection probe *)

Section ProbeFacts.

Import FigmaClient.

Variable JSON_parse : string -> option JsVal.
Variable config : FigmaClientConfig.

(** when the probe's [POST] gives a response *)
Lemma makeSessionRequest_inl (request_id : Z) (post : FetchResult) :
  (exists d, makeSessionRequest JSON_parse request_id post = inl d)
  <-> exists r : HttpResponse,
        post = FetchResolves r /\ ok r = true
        /\ ((status r = 202 /\ responseText r = "Accepted")
            \/ is_Some (JSON_parse (responseText r))).
Proof.
  unfold makeSessionRequest. split.
  - intros [d H]. destruct post as [r|e]; [|discriminate]. exists r.
    split; [reflexivity|].
    destruct (ok r); cbn [negb] in H;
      [|destruct (status r =? 503); [discriminate|];
        destruct (status r =? 401); discriminate].
    split; [reflexivity|].
    destruct ((status r =? 202) && String.eqb (responseText r) "Accepted")%bool eqn:E.
    + left. apply andb_prop in E as [E1 E2].
      split; [by apply Z.eqb_eq|by apply String.eqb_eq].
    + right. destruct (JSON_parse (responseText r)); [eauto|discriminate].
  - intros (r & -> & Hok & Hbody). rewrite Hok. cbn [negb].
    destruct ((status r =? 202) && String.eqb (responseText r) "Accepted")%bool eqn:E;
      [eauto|].
    destruct Hbody as [[H1 H2]|[d Hd]].
    + rewrite H1, H2 in E. discriminate.
    + rewrite Hd. eauto.
Qed.

Lemma negotiated (x : Exchange) (ep : string) :
  establishSSEConnection x = Resolved (Some ep)
  <-> exists (response : HttpResponse) (chunk : string) (later : list ReadResult),
        sse x = FetchResolves response /\ ok response = true
        /\ body response = Some (Chunk chunk :: later)
        /\ sessionEndpointOf chunk = Some ep.
Proof.
  unfold establishSSEConnection. split.
  - destruct (sse x) as [response|e]; [|discriminate].
    destruct (ok response) eqn:Eok; cbn [negb]; [|discriminate].
    destruct (body response) as [[|[chunk| |e] later]|] eqn:Ebody; try discriminate.
    intros [= H]. exists response, chunk, later. auto.
  - intros (response & chunk & later & -> & -> & -> & H). cbn [negb]. by rewrite H.
Qed.

End ProbeFacts.

(** X13. [testConnection] answers true exactly when the [GET /sse] is
    answered 2xx with a body whose first read carries an [event:
    endpoint] frame with a non-empty endpoint, and the [POST] to that
    endpoint is answered 2xx with either status 202 and the text
    [Accepted], or a text that [JSON.parse] accepts - whatever that
    text says. *)
Theorem testConnection_true_iff
    (JSON_parse : string -> option JsVal)
    (config : FigmaClient.FigmaClientConfig) (request_id : Z)
    (x : FigmaClient.Exchange) :
  fst (FigmaClient.testConnection JSON_parse config request_id x) = Resolved true
  <-> exists (response : FigmaClient.HttpResponse) (chunk : string)
             (later : list FigmaClient.ReadResult) (ep : string)
             (post : FigmaClient.HttpResponse),
        FigmaClient.sse x = FigmaClient.FetchResolves response
        /\ FigmaClient.ok response = true
        /\ FigmaClient.body response = Some (FigmaClient.Chunk chunk :: later)
        /\ FigmaClient.sessionEndpointOf chunk = Some ep
        /\ JsString.is_empty ep = false
        /\ FigmaClient.session x (FigmaClient.serverUrl config ++ ep)
           = FigmaClient.FetchResolves post
        /\ FigmaClient.ok post = true
        /\ ((FigmaClient.status post = 202
             /\ FigmaClient.responseText post = "Accepted")
            \/ is_Some (JSON_parse (FigmaClient.responseText post))).
Proof.
  unfold FigmaClient.testConnection. split.
  - destruct (FigmaClient.establishSSEConnection x) as [[ep|]|e|] eqn:En;
      try discriminate.
    destruct (JsString.is_empty ep) eqn:Eep; [discriminate|].
    destruct (FigmaClient.makeSessionRequest _ _ _) as [d|e] eqn:Ep; [|discriminate].
    intros _. apply negotiated in En as (response & chunk & later & H1 & H2 & H3 & H4).
    destruct (proj1 (makeSessionRequest_inl JSON_parse _ _) (ex_intro _ d Ep))
      as (post & H5 & H6 & H7).
    exists response, chunk, later, ep, post. auto 10.
  - intros (response & chunk & later & ep & post & H1 & H2 & H3 & H4 & H5 & H6 & H7 & H8).
    rewrite (proj2 (negotiated x ep)) by eauto 10. rewrite H5.
    destruct (proj2 (makeSessionRequest_inl JSON_parse (request_id + 1)
                       (FigmaClient.session x (FigmaClient.serverUrl config ++ ep)))
                (ex_intro _ post (conj H6 (conj H7 H8)))) as [d ->].
    reflexivity.
Qed.

(** X14. The probe and the tool calls disagree about a server that
    answers the [POST] itself: when the session is negotiated and the
    [POST] is answered with a 2xx status other than 202 and a text
    that [JSON.parse] accepts, [testConnection] answers true, and
    every [makeRequestWithSSE] against the same server is rejected
    with the [FigmaClientError] UNEXPECTED_RESPONSE. *)
Theorem probe_passes_where_calls_fail
    (JSON_parse : string -> option JsVal)
    (config : FigmaClient.FigmaClientConfig) (probe_id call_id : Z)
    (x : FigmaClient.Exchange) (ep : string) (post : FigmaClient.HttpResponse)
    (Hneg : FigmaClient.establishSSEConnection x = Resolved (Some ep))
    (Hep : JsString.is_empty ep = false)
    (Hpost : FigmaClient.session x (FigmaClient.serverUrl config ++ ep)
             = FigmaClient.FetchResolves post)
    (Hok : FigmaClient.ok post = true)
    (Hstatus : FigmaClient.status post <> 202)
    (Hjson : is_Some (JSON_parse (FigmaClient.responseText post))) :
  fst (FigmaClient.testConnection JSON_parse config probe_id x) = Resolved true
  /\ FigmaClient.makeRequestWithSSE JSON_parse config call_id x
     = Rejected (Err.ClientError
                   ("Unexpected session response: "
                    ++ JsString.of_Z (FigmaClient.status post))
                   "UNEXPECTED_RESPONSE" (Some (FigmaClient.status post))).
Proof.
  split.
  - unfold FigmaClient.testConnection. rewrite Hneg, Hep, Hpost.
    destruct (proj2 (makeSessionRequest_inl JSON_parse (probe_id + 1)
                       (FigmaClient.FetchResolves post))
                (ex_intro _ post (conj eq_refl (conj Hok (or_intror Hjson)))))
      as [d ->].
    reflexivity.
  - apply negotiated in Hneg as (response & chunk & later & H1 & H2 & H3 & H4).
    unfold FigmaClient.makeRequestWithSSE, FigmaClient.makeRequestWithSSE_try.
    rewrite H1, H2, H3, H4, Hep, Hpost. cbn [negb].
    destruct (FigmaClient.status post =? 202) eqn:E;
      [apply Z.eqb_eq in E; contradiction|].
    reflexivity.
Qed.

(** the statement of X14 for a server that answers the [POST] with 200
    and the JSON-RPC result *)
Lemma probe_passes_witness :
  fst (FigmaClient.testConnection Wire.wire_parse RetrySpec.threeAttempts 0
         Measures.answersInline) = Resolved true
  /\ FigmaClient.makeRequestWithSSE Wire.wire_parse RetrySpec.threeAttempts 1
       Measures.answersInline
     = Rejected (Err.ClientError "Unexpected session response: 200"
                   "UNEXPECTED_RESPONSE" (Some 200)).
Proof.
  apply (probe_passes_where_calls_fail Wire.wire_parse RetrySpec.threeAttempts 0 1
           Measures.answersInline "/messages?sessionId=abc"
           {| FigmaClient.status := 200; FigmaClient.statusText := "OK";
              FigmaClient.responseText := Wire.resultPayload;
              FigmaClient.body := None |}).
  - reflexivity.
  - reflexivity.
  - reflexivity.
  - reflexivity.
  - cbn. lia.
  - vm_compute. eexists. reflexivity.
Defined.

(** X15. In the other direction: when the session is negotiated and
    the [POST] is answered 202 with a text that is neither [Accepted]
    nor accepted by [JSON.parse] - an empty body, say - [testConnection]
    answers false, yet the [try] block of [makeRequestWithSSE] goes on
    to listen on the stream for the response as after any 202. *)
Theorem probe_fails_where_calls_listen
    (JSON_parse : string -> option JsVal)
    (config : FigmaClient.FigmaClientConfig) (probe_id call_id : Z)
    (x : FigmaClient.Exchange) (response post : FigmaClient.HttpResponse)
    (chunk ep : string) (later : list FigmaClient.ReadResult)
    (Hsse : FigmaClient.sse x = FigmaClient.FetchResolves response)
    (Hopen : FigmaClient.ok response = true)
    (Hbody : FigmaClient.body response = Some (FigmaClient.Chunk chunk :: later))
    (Hchunk : FigmaClient.sessionEndpointOf chunk = Some ep)
    (Hep : JsString.is_empty ep = false)
    (Hpost : FigmaClient.session x (FigmaClient.serverUrl config ++ ep)
             = FigmaClient.FetchResolves post)
    (Hstatus : FigmaClient.status post = 202)
    (Htext : FigmaClient.responseText post <> "Accepted")
    (Hjson : JSON_parse (FigmaClient.responseText post) = None) :
  fst (FigmaClient.testConnection JSON_parse config probe_id x) = Resolved false
  /\ FigmaClient.makeRequestWithSSE_try JSON_parse config call_id x
     = FigmaClient.listenForResponse JSON_parse call_id later "".
Proof.
  split.
  - unfold FigmaClient.testConnection.
    rewrite (proj2 (negotiated x ep)) by eauto 10. rewrite Hep, Hpost.
    unfold FigmaClient.makeSessionRequest, FigmaClient.ok.
    rewrite Hstatus, Hjson. cbn [negb Z.leb Z.eqb andb Z.compare Pos.compare
                                 Pos.compare_cont Pos.eqb].
    destruct (String.eqb_spec (FigmaClient.responseText post) "Accepted");
      [contradiction|reflexivity].
  - unfold FigmaClient.makeRequestWithSSE_try.
    rewrite Hsse, Hopen, Hbody, Hchunk, Hep, Hpost, Hstatus. reflexivity.
Qed.

(** the statement of X15 for a 202 with an empty body, followed on the
    stream by the response frame *)
Lemma probe_fails_witness :
  fst (FigmaClient.testConnection Wire.wire_parse RetrySpec.threeAttempts 0
         (Measures.secondTime 2)) = Resolved false
  /\ FigmaClient.makeRequestWithSSE_try Wire.wire_parse RetrySpec.threeAttempts 1
       (Measures.secondTime 2)
     = FigmaClient.listenForResponse Wire.wire_parse 1
         [FigmaClient.Chunk (Wire.messageFrame Wire.resultPayload)] "".
Proof.
  apply (probe_fails_where_calls_listen Wire.wire_parse RetrySpec.threeAttempts 0 1
           (Measures.secondTime 2)
           {| FigmaClient.status := 200; FigmaClient.statusText := "OK";
              FigmaClient.responseText := "";
              FigmaClient.body :=
                Some [FigmaClient.Chunk Wire.endpointFrame;
                      FigmaClient.Chunk (Wire.messageFrame Wire.resultPayload)] |}
           {| FigmaClient.status := 202; FigmaClient.statusText := "Accepted";
              FigmaClient.responseText := ""; FigmaClient.body := None |}
           Wire.endpointFrame "/messages?sessionId=abc").
  - reflexivity.
  - reflexivity.
  - reflexivity.
  - reflexivity.
  - reflexivity.
  - reflexivity.
  - reflexivity.
  - cbn. discriminate.
  - reflexivity.
Defined.

(** ** getCodeConnectMap *)

Section CodeConnectFacts.

Import FigmaClient.

Variable JSON_parse : string -> option JsVal.
Variable config : FigmaClientConfig.

Lemma parseCodeConnectResponse_shape (result r : JsVal) :
  parseCodeConnectResponse result = inl r ->
  exists m c u : JsVal,
    r = JObj [("mappings", m); ("coverage", c); ("unmappedComponents", u)].
Proof.
  unfold parseCodeConnectResponse. destruct (read result "mappings"); [|discriminate].
  intros [= <-]. eauto.
Qed.

Lemma codeConnectResult_truthy (response r : JsVal) :
  codeConnectResult response = inl r -> Js.truthy r = true.
Proof.
  unfold codeConnectResult.
  destruct (read response "error") as [err|]; [|discriminate].
  destruct (Js.truthy err); [discriminate|].
  destruct (read response "result") as [result|]; [|discriminate].
  intros H. by destruct (parseCodeConnectResponse_shape _ _ H) as (m & c & u & ->).
Qed.

Lemma assoc_assoc_set_ne (k k' : string) (x : JsVal) (fs : list (string * JsVal)) :
  k <> k' -> Js.assoc k (Js.assoc_set k' x fs) = Js.assoc k fs.
Proof.
  intros Hne. induction fs as [|[k0 v] fs IH]; cbn.
  - destruct (String.eqb_spec k k'); [contradiction|reflexivity].
  - destruct (String.eqb_spec k' k0) as [->|Hk]; cbn.
    + destruct (String.eqb_spec k k0); [contradiction|reflexivity].
    + destruct (String.eqb k k0); [reflexivity|exact IH].
Qed.

Lemma truthy_readable (v : JsVal) (k : string) :
  Js.truthy v = true -> exists x, read v k = inl x.
Proof.
  unfold read. destruct v; cbn; try discriminate; eauto.
Qed.

(** what [makeRequestWithSSE] resolves with was accepted by the stream
    listener *)
Lemma makeRequestWithSSE_resolved (id : Z) (x : Exchange) (r : JsVal) :
  makeRequestWithSSE JSON_parse config id x = Resolved r ->
  exists d : JsVal,
    hasResultOrError d = true /\ r = Js.set d "id" (JNum (inject_Z id)).
Proof.
  unfold makeRequestWithSSE.
  destruct (makeRequestWithSSE_try JSON_parse config id x) as [r'|e|] eqn:E;
    try discriminate.
  intros [= <-]. unfold makeRequestWithSSE_try in E.
  destruct (sse x) as [response|]; [|discriminate].
  destruct (negb (ok response)); [discriminate|].
  destruct (body response) as [[|[chunk| |e] later]|]; try discriminate.
  destruct (sessionEndpointOf chunk) as [ep|]; [|discriminate].
  destruct (JsString.is_empty ep); [discriminate|].
  destruct (session x (serverUrl config ++ ep)) as [post|]; [|discriminate].
  destruct (negb (status post =? 202)); [discriminate|].
  destruct (listenForResponse_overrides_id _ _ _ _ _ E) as (d & Hd & Hr & _).
  eauto.
Qed.

Lemma retryLoop_resolved (net : Z -> Exchange) (r : JsVal) (remaining : nat) :
  forall (attempt : Z) (lastError : option JsError) (st : TransportState),
    fst (retryLoop JSON_parse config net remaining attempt lastError st) = Resolved r ->
    exists (d : JsVal) (id : Z),
      hasResultOrError d = true /\ r = Js.set d "id" (JNum (inject_Z id)).
Proof.
  induction remaining as [|n IH]; intros attempt lastError st; cbn [retryLoop];
    [discriminate|].
  destruct (makeRequestWithSSE JSON_parse config (requestId st + 1)
              (net (requestId st + 1))) as [r'|e|] eqn:E.
  - intros [= <-]. destruct (makeRequestWithSSE_resolved _ _ _ E) as (d & Hd & Hr).
    eauto.
  - apply IH.
  - discriminate.
Qed.

End CodeConnectFacts.

(** X16. With the cache enabled, a mapping that [getCodeConnectMap]
    fetched from the server is served from the cache afterwards: a
    second call for the same URL and node id, made no later than
    [cacheTTL] ms after the result was stored, resolves with the same
    result and changes nothing - no request is sent, whatever the
    server would answer. *)
Theorem getCodeConnectMap_is_memoised
    (JSON_parse : string -> option JsVal)
    (config : FigmaClient.FigmaClientConfig)
    (net net' : Z -> FigmaClient.Exchange) (fileUrl : string)
    (node : option string) (tGet tSet tGet' tSet' : Z)
    (st st1 : FigmaClient.ClientState) (r : JsVal)
    (Hcache : FigmaClient.cacheEnabled config = true)
    (Hfirst : FigmaClient.getCodeConnectMap JSON_parse config net fileUrl node
                tGet tSet st = (Resolved r, st1))
    (Hsent : FigmaClient.sent st1 <> FigmaClient.sent st)
    (Hfresh : tGet' - tSet <= FigmaClient.cacheTTL config) :
  FigmaClient.getCodeConnectMap JSON_parse config net' fileUrl node
    tGet' tSet' st1 = (Resolved r, st1).
Proof.
  unfold FigmaClient.getCodeConnectMap in Hfirst. rewrite Hcache in Hfirst.
  cbn [andb] in Hfirst.
  destruct (Js.truthy (fst (FigmaClient.getFromCache (FigmaClient.cache st)
                              (FigmaClient.codeConnectKey fileUrl node) tGet))).
  { injection Hfirst as _ <-. cbn in Hsent. congruence. }
  destruct (FigmaClient.nodeArgs fileUrl node) as [args|e]; [|discriminate].
  cbv zeta in Hfirst.
  destruct (fst (FigmaClient.makeRequest JSON_parse config net
                   (FigmaClient.transport st))) as [response|e|]; try discriminate.
  destruct (FigmaClient.codeConnectResult response) as [result|e] eqn:Eres;
    [|discriminate].
  injection Hfirst as -> <-.
  unfold FigmaClient.getCodeConnectMap. rewrite Hcache. cbn [FigmaClient.cache].
  rewrite (getFromCache_fresh config _ _ _ _ _ Hfresh). cbn [fst snd andb].
  rewrite (codeConnectResult_truthy _ _ Eres). reflexivity.
Qed.

(** the statement of X16 for a first call answered on the second
    attempt and a second call, ten ms later, against a server that
    refuses every connection *)
Lemma memoised_witness :
  FigmaClient.getCodeConnectMap Wire.wire_parse RetrySpec.threeAttempts
    (fun _ => RetrySpec.refusing) Scenario.simpleUrl None 15 20
    (snd (FigmaClient.getCodeConnectMap Wire.wire_parse RetrySpec.threeAttempts
            Measures.secondTime Scenario.simpleUrl None 0 5 Measures.freshClient))
  = (Resolved (JObj [("mappings", JArr []); ("coverage", JNum 0);
                     ("unmappedComponents", JArr [])]),
     snd (FigmaClient.getCodeConnectMap Wire.wire_parse RetrySpec.threeAttempts
            Measures.secondTime Scenario.simpleUrl None 0 5 Measures.freshClient)).
Proof.
  apply (getCodeConnectMap_is_memoised Wire.wire_parse RetrySpec.threeAttempts
           Measures.secondTime (fun _ => RetrySpec.refusing) Scenario.simpleUrl None
           0 5 15 20 Measures.freshClient).
  - reflexivity.
  - vm_compute. reflexivity.
  - vm_compute. discriminate.
  - vm_compute. discriminate.
Defined.

(** X17. With the cache enabled, a call of [getCodeConnectMap] that
    does not resolve stores nothing: a cache lookup for its key made
    afterwards, at whatever time, yields nothing truthy, so the next
    call goes to the server again; and no call ever touches the entry
    of another key. *)
Theorem getCodeConnectMap_caches_only_results
    (JSON_parse : string -> option JsVal)
    (config : FigmaClient.FigmaClientConfig)
    (net : Z -> FigmaClient.Exchange) (fileUrl : string)
    (node : option string) (tGet tSet : Z) (st : FigmaClient.ClientState)
    (Hcache : FigmaClient.cacheEnabled config = true) :
  let out := FigmaClient.getCodeConnectMap JSON_parse config net fileUrl node
               tGet tSet st in
  ((forall r : JsVal, fst out <> Resolved r) ->
   forall t : Z,
     Js.truthy (fst (FigmaClient.getFromCache (FigmaClient.cache (snd out))
                       (FigmaClient.codeConnectKey fileUrl node) t)) = false)
  /\ (forall other : string,
        other <> FigmaClient.codeConnectKey fileUrl node ->
        FigmaClient.cache (snd out) !! other = FigmaClient.cache st !! other).
Proof.
  cbv zeta. unfold FigmaClient.getCodeConnectMap. rewrite Hcache. cbn [andb].
  set (key := FigmaClient.codeConnectKey fileUrl node).
  assert (Hother : forall other : string, other <> key ->
            snd (FigmaClient.getFromCache (FigmaClient.cache st) key tGet) !! other
            = FigmaClient.cache st !! other)
    by (intros other Hne; by apply getFromCache_other).
  assert (Hmiss : Js.truthy (fst (FigmaClient.getFromCache (FigmaClient.cache st)
                                    key tGet)) = false ->
            forall t : Z,
              Js.truthy (fst (FigmaClient.getFromCache
                                (snd (FigmaClient.getFromCache
                                        (FigmaClient.cache st) key tGet)) key t))
              = false).
  { unfold FigmaClient.getFromCache.
    destruct (FigmaClient.cache st !! key) as [entry|] eqn:Ek; cbn [fst snd].
    - destruct (tGet - FigmaClient.timestamp entry >? FigmaClient.ttl entry);
        cbn [fst snd]; intros Hd t.
      + by rewrite lookup_delete_eq.
      + rewrite Ek.
        by destruct (t - FigmaClient.timestamp entry >? FigmaClient.ttl entry).
    - intros _ t. by rewrite Ek. }
  destruct (Js.truthy (fst (FigmaClient.getFromCache (FigmaClient.cache st) key tGet)))
    eqn:Ehit.
  { split; [intros Hno; exfalso; by eapply Hno|exact Hother]. }
  specialize (Hmiss eq_refl).
  destruct (FigmaClient.nodeArgs fileUrl node) as [args|e];
    [|split; [intros _; exact Hmiss|exact Hother]].
  cbv zeta.
  destruct (fst (FigmaClient.makeRequest JSON_parse config net
                   (FigmaClient.transport st))) as [response|e|];
    try (split; [intros _; exact Hmiss|exact Hother]).
  destruct (FigmaClient.codeConnectResult response) as [result|e];
    [|split; [intros _; exact Hmiss|exact Hother]].
  split; [intros Hno; exfalso; by eapply Hno|].
  intros other Hne. cbn [snd FigmaClient.cache]. unfold FigmaClient.setCache.
  rewrite lookup_insert_ne by congruence. by apply Hother.
Qed.

(** the statement of X17 for a call against a server that refuses
    every connection *)
Lemma caches_only_results_witness :
  Js.truthy
    (fst (FigmaClient.getFromCache
            (FigmaClient.cache
               (snd (FigmaClient.getCodeConnectMap Wire.wire_parse
                       RetrySpec.threeAttempts (fun _ => RetrySpec.refusing)
                       Scenario.simpleUrl None 0 5 Measures.freshClient)))
            (FigmaClient.codeConnectKey Scenario.simpleUrl None) 100)) = false.
Proof.
  apply (proj1 (getCodeConnectMap_caches_only_results Wire.wire_parse
                  RetrySpec.threeAttempts (fun _ => RetrySpec.refusing)
                  Scenario.simpleUrl None 0 5 Measures.freshClient eq_refl)).
  intros r. vm_compute. discriminate.
Defined.

(** X18. Whatever response [makeRequest] resolves with, what
    [getCodeConnectMap] does with it never fails on a missing
    property: either the response carries a truthy [error] and the
    method throws the [FigmaClientError] GET_CODE_CONNECT_FAILED, or
    it returns an object with exactly the keys [mappings], [coverage]
    and [unmappedComponents]. *)
Theorem accepted_response_is_parsed
    (JSON_parse : string -> option JsVal)
    (config : FigmaClient.FigmaClientConfig)
    (net : Z -> FigmaClient.Exchange) (ts : FigmaClient.TransportState)
    (response : JsVal)
    (Hresp : fst (FigmaClient.makeRequest JSON_parse config net ts)
             = Resolved response) :
  (exists (msg : string) (st : option Z),
      FigmaClient.codeConnectResult response
      = inr (Err.ClientError msg "GET_CODE_CONNECT_FAILED" st))
  \/ (exists m c u : JsVal,
        FigmaClient.codeConnectResult response
        = inl (JObj [("mappings", m); ("coverage", c);
                     ("unmappedComponents", u)])).
Proof.
  destruct (retryLoop_resolved JSON_parse config net response _ _ _ _ Hresp)
    as (d & id & Hd & ->).
  destruct (hasResultOrError_object d Hd) as [fs ->].
  unfold FigmaClient.codeConnectResult, FigmaClient.read. cbn [Js.set Js.get].
  rewrite !assoc_assoc_set_ne by discriminate.
  unfold FigmaClient.hasResultOrError in Hd. cbn [Js.get] in Hd.
  set (e := match Js.assoc "error" fs with Some x => x | None => JUndefined end) in *.
  set (r := match Js.assoc "result" fs with Some x => x | None => JUndefined end) in *.
  destruct (Js.truthy e) eqn:Ee; [left; eauto|]. right.
  unfold Js.or in Hd. destruct (Js.truthy r) eqn:Er; [|congruence].
  destruct (truthy_readable r "mappings" Er) as [m Hm].
  unfold FigmaClient.parseCodeConnectResponse. rewrite Hm. eauto.
Qed.

(** the statement of X18 for the server that answers on the second
    attempt *)
Lemma accepted_response_witness :
  (exists (msg : string) (st : option Z),
      FigmaClient.codeConnectResult
        (JObj [("jsonrpc", JStr "2.0"); ("id", JNum 2);
               ("result", JObj [("content", JArr [])])])
      = inr (Err.ClientError msg "GET_CODE_CONNECT_FAILED" st))
  \/ (exists m c u : JsVal,
        FigmaClient.codeConnectResult
          (JObj [("jsonrpc", JStr "2.0"); ("id", JNum 2);
                 ("result", JObj [("content", JArr [])])])
        = inl (JObj [("mappings", m); ("coverage", c);
                     ("unmappedComponents", u)])).
Proof.
  apply (accepted_response_is_parsed Wire.wire_parse RetrySpec.threeAttempts
           Measures.secondTime Wire.idle).
  vm_compute. reflexivity.
Defined.

(** X19. With [retryAttempts] set to 0, which the configuration
    schema allows, [makeRequest] sends nothing and throws the
    never-assigned [lastError]: a [getCodeConnectMap] that misses the
    cache is rejected with the [FigmaClientError] UNKNOWN_ERROR whose
    message is [Unexpected error: undefined], and the request counter
    and the trace of attempts stay as they were. *)
Theorem no_attempts_means_unknown_error
    (JSON_parse : string -> option JsVal)
    (config : FigmaClient.FigmaClientConfig)
    (net : Z -> FigmaClient.Exchange) (fileUrl : string)
    (node : option string) (tGet tSet : Z) (st : FigmaClient.ClientState)
    (args : list (string * JsVal))
    (Hretry : FigmaClient.retryAttempts config <= 0)
    (Hmiss : FigmaClient.cache st !! FigmaClient.codeConnectKey fileUrl node = None)
    (Hargs : FigmaClient.nodeArgs fileUrl node = inl args) :
  let out := FigmaClient.getCodeConnectMap JSON_parse config net fileUrl node
               tGet tSet st in
  fst out = Rejected (Err.ClientError "Unexpected error: undefined"
                        "UNKNOWN_ERROR" None)
  /\ FigmaClient.transport (snd out) = FigmaClient.transport st
  /\ FigmaClient.cache (snd out) = FigmaClient.cache st.
Proof.
  cbv zeta. unfold FigmaClient.getCodeConnectMap.
  rewrite (getFromCache_absent _ _ _ Hmiss), Hargs.
  assert (Hlook : forall b : bool,
            (b && Js.truthy (fst (if b then (JNull, FigmaClient.cache st)
                                  else (JNull, FigmaClient.cache st))))%bool = false)
    by (by intros []).
  rewrite Hlook.
  assert (Hreq : FigmaClient.makeRequest JSON_parse config net (FigmaClient.transport st)
                 = (Rejected (mkError NotAnError "undefined" None None),
                    FigmaClient.transport st)).
  { unfold FigmaClient.makeRequest.
    replace (Z.to_nat (FigmaClient.retryAttempts config)) with O by lia.
    reflexivity. }
  rewrite Hreq. cbn [fst snd FigmaClient.transport FigmaClient.cache].
  destruct (FigmaClient.cacheEnabled config); auto.
Qed.

(** the statement of X19 for a new client configured with no attempt *)
Lemma no_attempts_witness :
  fst (FigmaClient.getCodeConnectMap Wire.wire_parse Measures.noAttempts
         Measures.secondTime Scenario.simpleUrl None 0 5 Measures.freshClient)
  = Rejected (Err.ClientError "Unexpected error: undefined" "UNKNOWN_ERROR" None).
Proof.
  apply (no_attempts_means_unknown_error Wire.wire_parse Measures.noAttempts
           Measures.secondTime Scenario.simpleUrl None 0 5 Measures.freshClient
           [("clientLanguages", JStr "typescript,javascript");
            ("clientFrameworks", JStr "react");
            ("clientName", JStr "figma-bridge-mcp");
            ("nodeId", JStr "12-34")]).
  - vm_compute. discriminate.
  - reflexivity.
  - vm_compute. reflexivity.
Defined.

(** X20. A URL that [parseFigmaUrl] refuses is refused before
    anything is sent: without a node id of its own, a
    [getCodeConnectMap] that misses the cache is rejected with the
    INVALID_URL error, no request is passed to [makeRequest], and the
    request counter stays as it was. With a non-empty node id given,
    the URL is not parsed at all and the request goes out with that
    node id. *)
Theorem invalid_url_is_refused_before_any_request
    (JSON_parse : string -> option JsVal)
    (config : FigmaClient.FigmaClientConfig)
    (net : Z -> FigmaClient.Exchange) (fileUrl : string)
    (tGet tSet : Z) (st : FigmaClient.ClientState) (e : JsError)
    (Hurl : FigmaClient.parseFigmaUrl fileUrl = inr e) :
  (FigmaClient.cache st !! FigmaClient.codeConnectKey fileUrl None = None ->
   let out := FigmaClient.getCodeConnectMap JSON_parse config net fileUrl None
                tGet tSet st in
   fst out = Rejected (Err.ClientError "Invalid Figma URL format" "INVALID_URL" None)
   /\ FigmaClient.sent (snd out) = FigmaClient.sent st
   /\ FigmaClient.transport (snd out) = FigmaClient.transport st)
  /\ (forall n : string,
        JsString.is_empty n = false ->
        FigmaClient.cache st !! FigmaClient.codeConnectKey fileUrl (Some n) = None ->
        FigmaClient.sent
          (snd (FigmaClient.getCodeConnectMap JSON_parse config net fileUrl (Some n)
                  tGet tSet st))
        = (FigmaClient.sent st
           ++ [("tools/call",
                JObj [("name", JStr "get_code_connect_map");
                      ("arguments",
                        JObj [("clientLanguages", JStr "typescript,javascript");
                              ("clientFrameworks", JStr "react");
                              ("clientName", JStr "figma-bridge-mcp");
                              ("nodeId", JStr n)])])])%list).
Proof.
  split.
  - intros Hmiss. cbv zeta. unfold FigmaClient.getCodeConnectMap.
    rewrite (getFromCache_absent _ _ _ Hmiss).
    unfold FigmaClient.nodeArgs. rewrite Hurl.
    rewrite (parseFigmaUrl_error _ _ Hurl).
    destruct (FigmaClient.cacheEnabled config); auto.
  - intros n Hn Hmiss. unfold FigmaClient.getCodeConnectMap.
    rewrite (getFromCache_absent _ _ _ Hmiss).
    unfold FigmaClient.nodeArgs. rewrite Hn. cbn [negb].
    assert (Hlook : forall b : bool,
              (b && Js.truthy (fst (if b then (JNull, FigmaClient.cache st)
                                    else (JNull, FigmaClient.cache st))))%bool = false)
      by (by intros []).
    rewrite Hlook. cbv zeta.
    destruct (fst (FigmaClient.makeRequest JSON_parse config net
                     (FigmaClient.transport st))) as [response|err|];
      [destruct (FigmaClient.codeConnectResult response)| |]; reflexivity.
Qed.

(** the statement of X20 for the URL of the specification's scenario A *)
Lemma invalid_url_witness :
  fst (FigmaClient.getCodeConnectMap Wire.wire_parse RetrySpec.threeAttempts
         Measures.secondTime Scenario.scenarioAUrl None 0 5 Measures.freshClient)
  = Rejected (Err.ClientError "Invalid Figma URL format" "INVALID_URL" None).
Proof.
  apply (proj1 (invalid_url_is_refused_before_any_request Wire.wire_parse
                  RetrySpec.threeAttempts Measures.secondTime Scenario.scenarioAUrl
                  0 5 Measures.freshClient
                  (Err.ClientError "Invalid Figma URL format" "INVALID_URL" None)
                  ltac:(vm_compute; reflexivity))).
  reflexivity.
Defined.

(** ** The extraction pipeline on every path *)

Section LadderFacts.

Import StreamingExtractor Measures.

Variable figmaClient : Client.
Variable onProgress : ProgressTracker.ExtractionProgress -> option JsError.
Hypothesis quiet : forall progress, onProgress progress = None.
Variable allowCode : bool.

Lemma steps_refl (s : State) : steps allowCode 0 0 s s.
Proof.
  exists [], []. rewrite !app_nil_r. repeat split; auto. cbn. lia.
Qed.

Lemma steps_same (s s' : State) :
  calls s' = calls s -> now s' = now s -> st_errors s' = st_errors s ->
  delivered s' = delivered s -> steps allowCode 0 0 s s'.
Proof.
  intros Hc Hn He Hd. exists [], []. rewrite !app_nil_r.
  repeat split; auto; cbn; lia.
Qed.

Lemma steps_trans (k1 k2 : nat) (d1 d2 : Z) (s s1 s2 : State) :
  steps allowCode k1 d1 s s1 -> steps allowCode k2 d2 s1 s2 ->
  steps allowCode (k1 + k2) (d1 + d2) s s2.
Proof.
  intros (cs1 & ev1 & Hc1 & Hl1 & Hf1 & Hn1 & He1 & Hd1)
         (cs2 & ev2 & Hc2 & Hl2 & Hf2 & Hn2 & He2 & Hd2).
  exists (cs1 ++ cs2)%list, (ev1 ++ ev2)%list.
  rewrite Hc2, Hc1, Hd2, Hd1, He2, He1, !app_assoc, length_app.
  repeat split; auto; try lia. by apply Forall_app.
Qed.

Lemma steps_weaken (k k' : nat) (d d' : Z) (s s' : State) :
  steps allowCode k d s s' -> (k <= k')%nat -> d <= d' ->
  steps allowCode k' d' s s'.
Proof.
  intros (cs & ev & Hc & Hl & Hf & Hn & He & Hd) Hk Hd'.
  exists cs, ev. repeat split; auto; lia.
Qed.

Lemma rw_ret {A : Type} (P : A -> Prop) (a : A) :
  P a -> returnsWith allowCode 0 0 P (ret a).
Proof. intros Ha s. exists a, s. split; [reflexivity|]. split; [exact Ha|apply steps_refl]. Qed.

Lemma rw_weaken {A : Type} (k k' : nat) (d d' : Z) (P : A -> Prop) (m : M A) :
  returnsWith allowCode k d P m -> (k <= k')%nat -> d <= d' ->
  returnsWith allowCode k' d' P m.
Proof.
  intros Hm Hk Hd s. destruct (Hm s) as (a & s' & E & Ha & Hst).
  exists a, s'. split; [exact E|]. split; [exact Ha|]. by eapply steps_weaken.
Qed.

Lemma rw_bind {A B : Type} (k1 k2 : nat) (d1 d2 : Z) (P1 : A -> Prop)
    (P2 : B -> Prop) (m : M A) (f : A -> M B) :
  returnsWith allowCode k1 d1 P1 m ->
  (forall a : A, returnsWith allowCode k2 d2 P2 (f a)) ->
  returnsWith allowCode (k1 + k2) (d1 + d2) P2 (bind m f).
Proof.
  intros Hm Hf s. destruct (Hm s) as (a & s1 & E & _ & Hst1).
  destruct (Hf a s1) as (b & s2 & E2 & Hb & Hst2).
  exists b, s2. unfold bind. rewrite E. split; [exact E2|]. split; [exact Hb|].
  by eapply steps_trans.
Qed.

(** a prefix that makes no call and takes no time *)
Lemma rw_quiet_bind {A B : Type} (k : nat) (d : Z) (P1 : A -> Prop)
    (P2 : B -> Prop) (m : M A) (f : A -> M B) :
  returnsWith allowCode 0 0 P1 m ->
  (forall a : A, returnsWith allowCode k d P2 (f a)) ->
  returnsWith allowCode k d P2 (bind m f).
Proof. intros Hm Hf. exact (rw_bind 0 k 0 d P1 P2 m f Hm Hf). Qed.

Lemma rw_report (stage : string) (pct : Z) (msg : string) :
  returnsWith allowCode 0 0 (fun _ : unit => True)
    (report onProgress stage pct msg).
Proof.
  intros s. exists tt, (afterUpdate stage pct msg s).
  split; [by apply report_returns|]. split; [exact I|].
  exists [], [fst (ProgressTracker.updateStage (tracker s) stage pct (Some msg) (now s))].
  rewrite calls_afterUpdate, now_afterUpdate, errors_afterUpdate,
    delivered_afterUpdate, app_nil_r.
  repeat split; auto. cbn. lia.
Qed.

Lemma rw_assign (f : FigmaData -> FigmaData) :
  returnsWith allowCode 0 0 (fun _ : unit => True) (assign f).
Proof.
  intros s. eexists tt, _. split; [reflexivity|]. split; [exact I|].
  by apply steps_same.
Qed.

Lemma rw_pushWarning (w : string) :
  returnsWith allowCode 0 0 (fun _ : unit => True) (pushWarning w).
Proof.
  intros s. eexists tt, _. split; [reflexivity|]. split; [exact I|].
  by apply steps_same.
Qed.

Lemma rw_gets {A : Type} (f : State -> A) :
  returnsWith allowCode 0 0 (fun _ : A => True) (gets f).
Proof. intros s. eexists _, _. split; [reflexivity|]. split; [exact I|apply steps_refl]. Qed.

Lemma race_elapsed (reply : Reply) (timeout : Q) :
  fst (race reply timeout) <= timerDelay timeout.
Proof.
  unfold race. destruct reply as [latency r|]; cbn [fst]; [|lia].
  destruct (latency <? timerDelay timeout) eqn:E; cbn [fst]; [|lia].
  apply Z.ltb_lt in E. lia.
Qed.

(** a raced call always returns: one call, at most the timer's delay *)
Lemma rw_race (c : ClientCall) (timeout : Q) :
  ladderCall allowCode c ->
  returnsWith allowCode 1 (timerDelay timeout) (fun _ : SafeResult => True)
    (safeRace figmaClient c timeout).
Proof.
  intros Hc s. unfold safeRace, bind, invoke.
  pose proof (race_elapsed (figmaClient (calls s) c) timeout) as Hle.
  destruct (race (figmaClient (calls s) c) timeout) as [elapsed r].
  cbn [fst] in Hle.
  assert (Hst : steps allowCode 1 (timerDelay timeout) s
                  (set_now (now (set_calls (calls s ++ [c]) s) + elapsed)
                     (set_calls (calls s ++ [c]) s))).
  { exists [c], []. cbn. rewrite app_nil_r. repeat split; auto. lia. }
  destruct r; eexists _, _; (split; [reflexivity|]); (split; [exact I|exact Hst]).
Qed.

Lemma rw_try {A : Type} (k : nat) (d : Z) (P : A -> Prop) (body : M A)
    (handler : JsError -> M A) :
  returnsWith allowCode k d P body ->
  returnsWith allowCode k d P (try_catch body handler).
Proof.
  intros Hb s. destruct (Hb s) as (a & s' & E & Ha & Hst).
  exists a, s'. unfold try_catch. rewrite E. auto.
Qed.

Lemma timerDelay_pos (timeout : Q) : 1 <= timerDelay timeout.
Proof. unfold timerDelay. lia. Qed.

(** the shape shared by levels 1 to 3: report, race for the variables,
    and go on only when that race was won *)
Lemma level_shape (msg : string) (u : string) (n : option string) (timeout : Q)
    (rest : SafeResult -> M bool) (handler : JsError -> M bool)
    (k : nat) (d : Z) :
  (forall r : SafeResult, returnsWith allowCode k d (eq true) (rest r)) ->
  forall s : State,
    exists (b : bool) (s' : State),
      try_catch
        (report onProgress "variables" 0 msg ;;;
         variablesResult <- safeExtractVariables figmaClient u n timeout ;;
         if ok variablesResult then rest variablesResult else ret false)
        handler s
      = Ret b s'
      /\ steps allowCode (if b then S k else 1)
           (if b then timerDelay timeout + d else timerDelay timeout) s s'.
Proof.
  intros Hrest s. unfold try_catch, bind at 1. rewrite report_returns by exact quiet.
  destruct (rw_report "variables" 0 msg s) as (x & s0 & E0 & _ & Hst0).
  rewrite report_returns in E0 by exact quiet. injection E0 as Hs0. subst s0.
  unfold bind at 1.
  destruct (rw_race (GetVariableDefinitions u n) timeout I
              (afterUpdate "variables" 0 msg s)) as (r & s1 & E1 & _ & Hst1).
  unfold safeExtractVariables. rewrite E1.
  pose proof (steps_trans _ _ _ _ _ _ _ Hst0 Hst1) as Hst01.
  destruct (ok r).
  - destruct (Hrest r s1) as (b & s2 & E2 & <- & Hst2). rewrite E2.
    exists true, s2. split; [reflexivity|].
    exact (steps_trans _ _ _ _ _ _ _ Hst01 Hst2).
  - exists false, s1. split; [reflexivity|]. exact Hst01.
Qed.

Ltac quiet_chain :=
  repeat first
    [ apply rw_report | apply rw_assign | apply rw_pushWarning | apply rw_gets
    | eapply rw_quiet_bind; [|intros ?] ].

(** level 1: three calls at most when it succeeds, one when it fails *)
Lemma tryOptimalExtraction_steps (input : Mcp.StreamingFigmaContextInput)
    (u : string) (n : option string) (timeouts : Performance.StageTimeouts)
    (shouldIncludeCode isComplexLayout : bool) :
  allowCode = (shouldIncludeCode && nonEmpty n)%bool ->
  forall s : State,
    exists (b : bool) (s' : State),
      tryOptimalExtraction figmaClient onProgress input u n timeouts
        shouldIncludeCode isComplexLayout s = Ret b s'
      /\ steps allowCode (if b then 3 else 1)
           (if b
            then timerDelay (Performance.variables timeouts)
                 + (timerDelay (Performance.components timeouts)
                    + timerDelay (Performance.code timeouts))
            else timerDelay (Performance.variables timeouts)) s s'.
Proof.
  intros Hac. unfold tryOptimalExtraction. apply level_shape. intros r.
  do 4 (eapply rw_quiet_bind; [quiet_chain|intros ?]).
  apply (rw_bind 1 1 _ _ (fun _ => True)); [by apply rw_race|]. intros cR.
  eapply rw_quiet_bind; [destruct (ok cR); quiet_chain|intros ?].
  pose proof (timerDelay_pos (Performance.code timeouts)) as Hpos.
  eapply rw_weaken;
    [apply (rw_bind 1 0 (timerDelay (Performance.code timeouts)) 0 (fun _ => True))
    |lia|lia]; [|intros ?; by apply rw_ret].
  assert (Hskip : returnsWith allowCode 1 (timerDelay (Performance.code timeouts))
                    (fun _ : unit => True)
                    (report onProgress "code" 100 "Code generation skipped"))
    by (eapply rw_weaken; [apply rw_report|lia|lia]).
  destruct n as [n'|]; [|exact Hskip].
  destruct (shouldIncludeCode && negb (JsString.is_empty n'))%bool eqn:E;
    [|exact Hskip].
  eapply rw_quiet_bind; [destruct isComplexLayout; quiet_chain|intros ?].
  eapply rw_weaken;
    [apply (rw_bind 1 0 (timerDelay (Performance.code timeouts)) 0 (fun _ => True))
    |lia|lia].
  - unfold safeExtractCode. apply rw_race. cbn. by rewrite Hac.
  - intros cr. destruct (ok cr); quiet_chain.
Qed.

(** level 2 *)
Lemma tryBalancedExtraction_steps (u : string) (n : option string) :
  forall s : State,
    exists (b : bool) (s' : State),
      tryBalancedExtraction figmaClient onProgress u n s = Ret b s'
      /\ steps allowCode (if b then 2 else 1) (if b then 3000 + 5000 else 3000) s s'.
Proof.
  unfold tryBalancedExtraction.
  apply (level_shape _ u n 3000%Q _ _ 1 5000). intros r.
  do 4 (eapply rw_quiet_bind; [quiet_chain|intros ?]).
  eapply rw_weaken;
    [apply (rw_bind 1 0 (timerDelay 5000%Q) 0 (fun _ => True));
     [by apply rw_race|]
    |lia|by vm_compute].
  intros cR.
  eapply rw_quiet_bind; [destruct (ok cR); [quiet_chain|by apply rw_ret]|intros ?].
  eapply rw_quiet_bind; [quiet_chain|intros ?]. by apply rw_ret.
Qed.

(** level 3 *)
Lemma tryMinimalExtraction_steps (u : string) (n : option string) :
  forall s : State,
    exists (b : bool) (s' : State),
      tryMinimalExtraction figmaClient onProgress u n s = Ret b s'
      /\ steps allowCode 1 2000 s s'.
Proof.
  unfold tryMinimalExtraction. intros s.
  destruct (level_shape "Minimal variables extraction..." u n 2000%Q
              (fun variablesResult =>
                 assign (with_variables
                           (Js.or (Js.get_opt (data variablesResult) "variables")
                              (JArr []))) ;;;
                 vars <- gets (fun s => variables (finalResult s)) ;;
                 report onProgress "variables" 100
                   ("Variables: " ++ lengthText vars ++ " found") ;;;
                 report onProgress "components" 100
                   "Components skipped for performance" ;;;
                 report onProgress "code" 100
                   "Code generation skipped for performance" ;;;
                 ret true)
              (fun error =>
                 pushError ("Minimal extraction failed: " ++ Err.text error) ;;;
                 ret false)
              O 0) with (s := s) as (b & s' & E & Hst).
  { intros r. do 5 (eapply rw_quiet_bind; [quiet_chain|intros ?]). by apply rw_ret. }
  exists b, s'. split; [exact E|]. destruct b; exact Hst.
Qed.

(** level 4 *)
Lemma executeEmergencyFallback_steps (u : string) (n : option string)
    (urlData : FigmaClient.ParsedUrl) :
  FigmaClient.parseFigmaUrl u = inl urlData ->
  returnsWith allowCode 0 0 (fun _ : unit => True)
    (executeEmergencyFallback onProgress u n).
Proof.
  intros Hparse. unfold executeEmergencyFallback. rewrite Hparse. quiet_chain.
Qed.

End LadderFacts.

Section PipelineFacts.

Import StreamingExtractor Measures.

Variable figmaClient : Client.
Variable onProgress : ProgressTracker.ExtractionProgress -> option JsError.
Hypothesis quiet : forall progress, onProgress progress = None.

Lemma timerDelay_min (a b : Q) : timerDelay (Qmin a b) <= timerDelay a.
Proof.
  unfold timerDelay. pose proof (Qfloor_resp_le _ _ (Q.le_min_l a b)). lia.
Qed.

(** whatever [maxWaitTime] is, the three delays of level 1 stay within
    the default stage timeouts *)
Lemma stage_delays (input : Mcp.StreamingFigmaContextInput) :
  timerDelay (Performance.variables (getStageTimeouts input)) <= 5000
  /\ timerDelay (Performance.components (getStageTimeouts input)) <= 10000
  /\ timerDelay (Performance.code (getStageTimeouts input)) <= 15000.
Proof.
  unfold getStageTimeouts.
  destruct (detectComplexLayout (Mcp.url input));
    cbn [Performance.variables Performance.components Performance.code
         Performance.DEFAULT_STAGE_TIMEOUTS];
    repeat split;
    (eapply Z.le_trans; [apply timerDelay_min|by vm_compute]).
Qed.

(** the whole ladder: three calls at most, thirty seconds at most *)
Lemma ladder_steps (input : Mcp.StreamingFigmaContextInput) (u : string)
    (n : option string) (cx : bool) (urlData : FigmaClient.ParsedUrl) :
  FigmaClient.parseFigmaUrl u = inl urlData ->
  returnsWith (codeAllowed input n) 3 30000 (fun _ : unit => True)
    (executeProgressiveFallbackExtraction figmaClient onProgress input u n cx).
Proof.
  intros Hparse s. unfold executeProgressiveFallbackExtraction.
  set (ac := codeAllowed input n).
  destruct (stage_delays input) as (Hv & Hc & Hk).
  edestruct (tryOptimalExtraction_steps figmaClient onProgress quiet ac input u n
               (getStageTimeouts input)) with (s := s) as (b1 & s1 & E1 & H1);
    [reflexivity|].
  unfold bind at 1. rewrite E1. destruct b1.
  { exists tt, s1. split; [reflexivity|]. split; [exact I|].
    eapply steps_weaken; [exact H1|lia|lia]. }
  destruct (rw_pushWarning ac
              "Falling back to essential data extraction (variables + components only)"
              s1) as (x1 & t1 & Ew1 & _ & Hw1).
  unfold bind at 1. rewrite Ew1.
  destruct (tryBalancedExtraction_steps figmaClient onProgress quiet ac u n t1)
    as (b2 & s2 & E2 & H2).
  unfold bind at 1. rewrite E2.
  pose proof (steps_trans _ _ _ _ _ _ _ _ H1 Hw1) as H1w.
  pose proof (steps_trans _ _ _ _ _ _ _ _ H1w H2) as H12.
  destruct b2.
  { exists tt, s2. split; [reflexivity|]. split; [exact I|].
    eapply steps_weaken; [exact H12|cbn; lia|lia]. }
  destruct (rw_pushWarning ac "Falling back to minimal extraction (variables only)"
              s2) as (x2 & t2 & Ew2 & _ & Hw2).
  unfold bind at 1. rewrite Ew2.
  destruct (tryMinimalExtraction_steps figmaClient onProgress quiet ac u n t2)
    as (b3 & s3 & E3 & H3).
  unfold bind at 1. rewrite E3.
  pose proof (steps_trans _ _ _ _ _ _ _ _ H12 Hw2) as H2w.
  pose proof (steps_trans _ _ _ _ _ _ _ _ H2w H3) as H123.
  destruct b3.
  { exists tt, s3. split; [reflexivity|]. split; [exact I|].
    eapply steps_weaken; [exact H123|cbn; lia|lia]. }
  destruct (rw_pushWarning ac
              "Using emergency fallback - providing basic file information"
              s3) as (x3 & t3 & Ew3 & _ & Hw3).
  unfold bind at 1. rewrite Ew3.
  destruct (executeEmergencyFallback_steps onProgress quiet ac u n urlData Hparse t3)
    as (x4 & s4 & E4 & _ & H4).
  rewrite E4.
  pose proof (steps_trans _ _ _ _ _ _ _ _ H123 Hw3) as H3w.
  pose proof (steps_trans _ _ _ _ _ _ _ _ H3w H4) as H1234.
  exists x4, s4. split; [reflexivity|]. split; [exact I|].
  eapply steps_weaken; [exact H1234|cbn; lia|lia].
Qed.

(** the update [report "complete" pct msg] delivers *)
Lemma complete_update (t : ProgressTracker.Tracker) (pct : Z) (msg : string)
    (t0 : Z) :
  ProgressTracker.stage
    (fst (ProgressTracker.updateStage t "complete" pct (Some msg) t0)) = "complete"
  /\ ProgressTracker.percentage
       (fst (ProgressTracker.updateStage t "complete" pct (Some msg) t0))
     = Z.max 0 (Z.min 100 pct).
Proof. split; reflexivity. Qed.

(** what the [try] block of [extractWithProgress] can do *)
Lemma body_outcome (input : Mcp.StreamingFigmaContextInput) (s : State) :
  match pipelineBody figmaClient onProgress input s with
  | Ret r s' =>
      success r = true /\ errors r = st_errors s' /\ st_errors s' = st_errors s
      /\ ((calls s' = calls s /\ now s' = now s)
          \/ (exists (lat : Z) (reply : JsVal + JsError) (rest : list ClientCall),
                figmaClient (calls s) TestConnection = After lat reply
                /\ calls s' = (calls s ++ TestConnection :: rest)%list
                /\ (length rest <= 3)%nat
                /\ Forall (ladderCall (codeAllowed input (urlNode input))) rest
                /\ now s' <= now s + lat + 30000))
      /\ (exists (evs : list ProgressTracker.ExtractionProgress)
                 (last : ProgressTracker.ExtractionProgress),
            delivered s' = (delivered s ++ evs ++ [last])%list
            /\ ProgressTracker.stage last = "complete"
            /\ ProgressTracker.percentage last = 100)
  | Throw e s' =>
      st_errors s' = st_errors s /\ delivered s' = delivered s
      /\ tracker s' = tracker s
      /\ ((calls s' = calls s /\ now s' = now s)
          \/ (exists (lat : Z) (reply : JsVal + JsError),
                figmaClient (calls s) TestConnection = After lat reply
                /\ calls s' = (calls s ++ [TestConnection])%list
                /\ now s' = now s + lat))
  | Hang s' =>
      figmaClient (calls s) TestConnection = NoReply
      /\ calls s' = (calls s ++ [TestConnection])%list
  end.
Proof.
  unfold pipelineBody.
  destruct (Js.truthy (Mcp.figmaData input) && Js.typeof_object (Mcp.figmaData input)
            && Js.has_key "fileId" (Mcp.figmaData input))%bool.
  { unfold bind at 1. rewrite report_returns by exact quiet.
    cbn [bind modify buildSuccessResult buildResult].
    cbn [success errors st_errors calls now delivered set_finalResult].
    rewrite errors_afterUpdate, calls_afterUpdate, now_afterUpdate,
      delivered_afterUpdate.
    repeat split; auto.
    eexists [], _. split; [reflexivity|]. apply complete_update. }
  destruct (Mcp.url input) as [u|] eqn:Hurl; [|cbn; auto 10].
  destruct (JsString.is_empty u); [cbn; auto 10|].
  unfold bind at 1, invoke at 1.
  destruct (figmaClient (calls s) TestConnection) as [lat [v|e]|] eqn:Hprobe;
    unfold bind at 1, await; [| |cbn; auto].
  2: { cbn. repeat split; auto. right. eauto. }
  destruct (Js.truthy v); cbn [negb]; [|cbn; repeat split; auto; right; eauto].
  destruct (FigmaClient.parseFigmaUrl u) as [parsed|e] eqn:Hparse;
    [|cbn; repeat split; auto; right; eauto].
  unfold bind at 1, assign at 1, modify at 1.
  unfold executeExtractionStages.
  set (s2 := set_finalResult _ _).
  destruct (ladder_steps input u (FigmaClient.nodeId parsed)
              (detectComplexLayout (Mcp.url input)) parsed Hparse s2)
    as (x & s3 & E3 & _ & cs & evs & Hc & Hl & Hf & Hn & He & Hd).
  unfold bind at 1, bind at 1. rewrite E3.
  rewrite report_returns by exact quiet.
  cbn [buildSuccessResult buildResult success errors].
  rewrite errors_afterUpdate, calls_afterUpdate, now_afterUpdate,
    delivered_afterUpdate, He, Hc, Hd.
  assert (Hnode : urlNode input = FigmaClient.nodeId parsed)
    by (unfold urlNode; by rewrite Hurl, Hparse).
  split; [reflexivity|]. split; [reflexivity|]. split; [reflexivity|]. split.
  - right. exists lat, (inl v), cs. rewrite Hnode.
    split; [reflexivity|]. split; [cbn; by rewrite <- app_assoc|].
    split; [exact Hl|]. split; [exact Hf|]. cbn in Hn. cbn. lia.
  - eexists evs, _. split; [by rewrite <- app_assoc|]. apply complete_update.
Qed.

(** the [catch] block, run *)
Lemma pipelineCatch_run (error : JsError) (s : State) :
  pipelineCatch onProgress error s
  = Ret {| success := false;
           figmaData := finalResult s;
           performance :=
             ProgressTracker.getPerformanceMetrics
               (tracker (afterUpdate "complete" 0
                           ("Extraction failed: " ++ Err.text error)
                           (set_errors (st_errors s ++ [Err.text error]) s)))
               (now s);
           warnings := st_warnings s;
           errors := (st_errors s ++ [Err.text error])%list |}
      (afterUpdate "complete" 0 ("Extraction failed: " ++ Err.text error)
         (set_errors (st_errors s ++ [Err.text error]) s)).
Proof.
  unfold pipelineCatch, bind, pushError, modify. rewrite report_returns by exact quiet.
  unfold buildErrorResult, buildResult.
  by rewrite finalResult_afterUpdate, now_afterUpdate, warnings_afterUpdate,
    errors_afterUpdate.
Qed.

(** every way a call of [extractWithProgress] can end *)
Lemma extract_outcome (input : Mcp.StreamingFigmaContextInput) (s0 : State) :
  match extractWithProgress figmaClient onProgress input s0 with
  | Ret r s' =>
      ((calls s' = calls s0 /\ now s' = now s0)
       \/ (exists (lat : Z) (reply : JsVal + JsError) (rest : list ClientCall),
             figmaClient (calls s0) TestConnection = After lat reply
             /\ calls s' = (calls s0 ++ TestConnection :: rest)%list
             /\ (length rest <= 3)%nat
             /\ Forall (ladderCall (codeAllowed input (urlNode input))) rest
             /\ now s' <= now s0 + lat + 30000))
      /\ (if success r then errors r = [] else exists msg : string, errors r = [msg])
      /\ (exists (evs : list ProgressTracker.ExtractionProgress)
                 (last : ProgressTracker.ExtractionProgress),
            delivered s' = (delivered s0 ++ evs ++ [last])%list
            /\ ProgressTracker.stage last = "complete"
            /\ ProgressTracker.percentage last = (if success r then 100 else 0))
  | Throw _ _ => False
  | Hang s' =>
      figmaClient (calls s0) TestConnection = NoReply
      /\ calls s' = (calls s0 ++ [TestConnection])%list
  end.
Proof.
  destruct (prologue_returns input s0) as (s1 & Hpro & Hc1 & He1 & _ & Hd1 & Hn1 & _).
  rewrite (extractWithProgress_unfold figmaClient onProgress input s0 s1 Hpro).
  pose proof (body_outcome input s1) as Hbody.
  destruct (pipelineBody figmaClient onProgress input s1) as [r s2|e s2|s2].
  - destruct Hbody as (Hok & Herr & Hsame & Hcalls & Hdel).
    rewrite Hok, Herr, Hsame, He1. rewrite Hc1, Hn1, Hd1 in *.
    split; [exact Hcalls|]. split; [reflexivity|exact Hdel].
  - destruct Hbody as (Hsame & Hdel & _ & Hcalls).
    rewrite pipelineCatch_run. cbn [success errors].
    rewrite calls_afterUpdate, now_afterUpdate, delivered_afterUpdate.
    cbn [calls now delivered set_errors]. rewrite Hsame, He1, Hdel, Hd1.
    rewrite Hc1, Hn1 in Hcalls.
    split; [|split; [eauto|]].
    + destruct Hcalls as [?|(lat & reply & Hp & Hc & Hn)]; [by left|right].
      exists lat, reply, []. rewrite Hc, Hn.
      repeat split; auto; cbn; lia.
    + eexists [], _. split; [reflexivity|]. apply complete_update.
  - rewrite Hc1 in Hbody. exact Hbody.
Qed.

End PipelineFacts.

(** X21. With a progress callback that returns normally, whatever the
    input and whatever the Figma client does, one [extractWithProgress]
    makes either no call at all or the connection probe followed by at
    most three extraction calls - never a second probe, and [getCode]
    only when [includeCode] is not false and the URL carries a node
    id; it returns no later than 30000 ms after the probe's answer,
    whatever [maxWaitTime] is; and it stays pending only when the
    probe itself never answers. (Time is the time spent waiting for
    the client and the timers; the code between the waits takes
    none.) *)
Theorem extraction_calls_and_time_are_bounded
    (figmaClient : StreamingExtractor.Client)
    (onProgress : ProgressTracker.ExtractionProgress -> option JsError)
    (input : Mcp.StreamingFigmaContextInput) (s0 : StreamingExtractor.State)
    (Hquiet : forall progress, onProgress progress = None) :
  Measures.callsBounded figmaClient input s0
    (StreamingExtractor.extractWithProgress figmaClient onProgress input s0).
Proof.
  pose proof (extract_outcome figmaClient onProgress Hquiet input s0) as H.
  unfold Measures.callsBounded.
  destruct (StreamingExtractor.extractWithProgress figmaClient onProgress input s0);
    [exact (proj1 H)|exact H|exact H].
Qed.

(** the statement of X21 for a client that answers everything at once *)
Lemma calls_and_time_witness :
  Measures.callsBounded Scenario.healthyClient
    (Scenario.urlInput Scenario.complexUrl 15000) (StreamingExtractor.initial 1000)
    (StreamingExtractor.extractWithProgress Scenario.healthyClient
       Scenario.quietCallback (Scenario.urlInput Scenario.complexUrl 15000)
       (StreamingExtractor.initial 1000)).
Proof.
  exact (extraction_calls_and_time_are_bounded Scenario.healthyClient
           Scenario.quietCallback (Scenario.urlInput Scenario.complexUrl 15000)
           (StreamingExtractor.initial 1000) (fun _ => eq_refl)).
Defined.

(** X22. With a progress callback that returns normally, a returned
    result has [success = true] exactly when its [errors] is empty,
    and a failure carries exactly one error message: the fallback
    levels report their troubles as warnings only. *)
Theorem success_goes_with_no_errors
    (figmaClient : StreamingExtractor.Client)
    (onProgress : ProgressTracker.ExtractionProgress -> option JsError)
    (input : Mcp.StreamingFigmaContextInput) (s0 : StreamingExtractor.State)
    (Hquiet : forall progress, onProgress progress = None) :
  Measures.errorsMatchSuccess
    (StreamingExtractor.extractWithProgress figmaClient onProgress input s0).
Proof.
  pose proof (extract_outcome figmaClient onProgress Hquiet input s0) as H.
  unfold Measures.errorsMatchSuccess.
  destruct (StreamingExtractor.extractWithProgress figmaClient onProgress input s0);
    [exact (proj1 (proj2 H))|exact I|exact I].
Qed.

(** the statement of X22 for a client whose server is not there *)
Lemma success_goes_with_no_errors_witness :
  Measures.errorsMatchSuccess
    (StreamingExtractor.extractWithProgress Scenario.unreachableClient
       Scenario.quietCallback (Scenario.urlInput Scenario.testUrl 15000)
       (StreamingExtractor.initial 1000)).
Proof.
  exact (success_goes_with_no_errors Scenario.unreachableClient
           Scenario.quietCallback (Scenario.urlInput Scenario.testUrl 15000)
           (StreamingExtractor.initial 1000) (fun _ => eq_refl)).
Defined.

(** X23. With a progress callback that returns normally, the last
    update delivered before [extractWithProgress] returns is always
    one for the stage [complete]: at 100 percent when the result is a
    success, at 0 percent when it is a failure. *)
Theorem last_update_is_complete
    (figmaClient : StreamingExtractor.Client)
    (onProgress : ProgressTracker.ExtractionProgress -> option JsError)
    (input : Mcp.StreamingFigmaContextInput) (s0 : StreamingExtractor.State)
    (Hquiet : forall progress, onProgress progress = None) :
  Measures.endsWithComplete s0
    (StreamingExtractor.extractWithProgress figmaClient onProgress input s0).
Proof.
  pose proof (extract_outcome figmaClient onProgress Hquiet input s0) as H.
  unfold Measures.endsWithComplete.
  destruct (StreamingExtractor.extractWithProgress figmaClient onProgress input s0);
    [exact (proj2 (proj2 H))|exact I|exact I].
Qed.

(** the statement of X23 for a client whose extraction calls never
    answer *)
Lemma last_update_witness :
  Measures.endsWithComplete (StreamingExtractor.initial 1000)
    (StreamingExtractor.extractWithProgress Scenario.silentClient
       Scenario.quietCallback (Scenario.urlInput Scenario.simpleUrl 15000)
       (StreamingExtractor.initial 1000)).
Proof.
  exact (last_update_is_complete Scenario.silentClient
           Scenario.quietCallback (Scenario.urlInput Scenario.simpleUrl 15000)
           (StreamingExtractor.initial 1000) (fun _ => eq_refl)).
Defined.

Section CallbackFacts.

Import StreamingExtractor.

Variable figmaClient : Client.
Variable onProgress : ProgressTracker.ExtractionProgress -> option JsError.
Hypothesis throws : forall progress, onProgress progress <> None.

Lemma report_throws (stage : string) (pct : Z) (msg : string) (s : State) :
  exists (e : JsError) (progress : ProgressTracker.ExtractionProgress),
    report onProgress stage pct msg s = Throw e (afterUpdate stage pct msg s)
    /\ onProgress progress = Some e.
Proof.
  unfold report.
  destruct (onProgress (fst (ProgressTracker.updateStage (tracker s) stage pct
                               (Some msg) (now s)))) as [e|] eqn:E.
  - eauto.
  - by apply throws in E.
Qed.

(** the [try] block cannot return: every path to a result passes an
    update *)
Lemma body_does_not_return (input : Mcp.StreamingFigmaContextInput) (s : State) :
  match pipelineBody figmaClient onProgress input s with
  | Ret _ _ => False
  | _ => True
  end.
Proof.
  unfold pipelineBody.
  destruct (Js.truthy (Mcp.figmaData input) && Js.typeof_object (Mcp.figmaData input)
            && Js.has_key "fileId" (Mcp.figmaData input))%bool.
  { unfold bind at 1.
    destruct (report_throws "complete" 100 "Using pre-extracted data" s)
      as (e & p & -> & _).
    exact I. }
  destruct (Mcp.url input) as [u|]; [|exact I].
  destruct (JsString.is_empty u); [exact I|].
  unfold bind at 1, invoke at 1.
  destruct (figmaClient (calls s) TestConnection) as [lat [v|e]|];
    unfold bind at 1, await; [| exact I | exact I].
  destruct (Js.truthy v); cbn [negb]; [|exact I].
  destruct (FigmaClient.parseFigmaUrl u) as [parsed|e]; [|exact I].
  unfold bind at 1, assign at 1, modify at 1.
  unfold executeExtractionStages, bind at 1, bind at 1.
  destruct (executeProgressiveFallbackExtraction _ _ _ _ _ _ _) as [x s3|e s3|s3];
    [|exact I|exact I].
  destruct (report_throws "complete" 100 "Extraction completed" s3)
    as (e & p & -> & _).
  exact I.
Qed.

End CallbackFacts.

(** X24. The [catch] block of [extractWithProgress] reports through
    the callback too, so a callback that throws on every update is not
    contained: whatever the input and the client, the call returns no
    result - it rejects with an error the callback threw, or stays
    pending. *)
Theorem throwing_callback_escapes
    (figmaClient : StreamingExtractor.Client)
    (onProgress : ProgressTracker.ExtractionProgress -> option JsError)
    (input : Mcp.StreamingFigmaContextInput) (s0 : StreamingExtractor.State)
    (Hthrows : forall progress, onProgress progress <> None) :
  Measures.callbackErrorEscapes onProgress
    (StreamingExtractor.extractWithProgress figmaClient onProgress input s0).
Proof.
  destruct (prologue_returns input s0) as (s1 & Hpro & _).
  rewrite (extractWithProgress_unfold figmaClient onProgress input s0 s1 Hpro).
  pose proof (body_does_not_return figmaClient onProgress Hthrows input s1) as Hbody.
  destruct (StreamingExtractor.pipelineBody figmaClient onProgress input s1)
    as [r s2|e s2|s2]; [contradiction| |exact I].
  unfold StreamingExtractor.pipelineCatch, StreamingExtractor.bind at 1,
    StreamingExtractor.pushError, StreamingExtractor.modify.
  unfold StreamingExtractor.bind at 1.
  destruct (report_throws onProgress Hthrows "complete" 0
              ("Extraction failed: " ++ Err.text e)
              (StreamingExtractor.set_errors
                 (StreamingExtractor.st_errors s2 ++ [Err.text e]) s2))
    as (e' & p & -> & Hp).
  cbn. eauto.
Qed.

(** the statement of X24 for pre-extracted data and a callback that
    always throws *)
Lemma throwing_callback_witness :
  Measures.callbackErrorEscapes Measures.failingCallback
    (StreamingExtractor.extractWithProgress Scenario.healthyClient
       Measures.failingCallback Scenario.passThroughInput
       (StreamingExtractor.initial 1000)).
Proof.
  apply (throwing_callback_escapes Scenario.healthyClient Measures.failingCallback
           Scenario.passThroughInput (StreamingExtractor.initial 1000)).
  intros progress. cbn. discriminate.
Defined.

(** X25. With a progress callback that returns normally, an input
    that carries neither usable [figmaData] nor a non-empty [url] is
    answered without touching the client: the call returns a result
    with [success = false] whose only error is [Either figmaData or
    url must be provided]. *)
Theorem missing_input_is_reported
    (figmaClient : StreamingExtractor.Client)
    (onProgress : ProgressTracker.ExtractionProgress -> option JsError)
    (input : Mcp.StreamingFigmaContextInput) (s0 : StreamingExtractor.State)
    (Hquiet : forall progress, onProgress progress = None)
    (Hdata : (Js.truthy (Mcp.figmaData input) && Js.typeof_object (Mcp.figmaData input)
              && Js.has_key "fileId" (Mcp.figmaData input))%bool = false)
    (Hurl : StreamingExtractor.nonEmpty (Mcp.url input) = false) :
  exists (r : StreamingExtractor.StreamingExtractionResult)
         (s' : StreamingExtractor.State),
    StreamingExtractor.extractWithProgress figmaClient onProgress input s0
    = StreamingExtractor.Ret r s'
    /\ StreamingExtractor.success r = false
    /\ StreamingExtractor.errors r = ["Either figmaData or url must be provided"]
    /\ StreamingExtractor.calls s' = StreamingExtractor.calls s0.
Proof.
  destruct (prologue_returns input s0) as (s1 & Hpro & Hc1 & He1 & _).
  rewrite (extractWithProgress_unfold figmaClient onProgress input s0 s1 Hpro).
  assert (Hbody : StreamingExtractor.pipelineBody figmaClient onProgress input s1
                  = StreamingExtractor.Throw
                      (Err.Error "Either figmaData or url must be provided") s1).
  { unfold StreamingExtractor.pipelineBody. rewrite Hdata.
    unfold StreamingExtractor.nonEmpty in Hurl.
    destruct (Mcp.url input) as [u|]; [|reflexivity].
    apply negb_false_iff in Hurl. by rewrite Hurl. }
  rewrite Hbody, (pipelineCatch_run onProgress Hquiet).
  eexists _, _. split; [reflexivity|]. cbn [StreamingExtractor.success
    StreamingExtractor.errors]. rewrite He1, calls_afterUpdate.
  repeat split; auto.
Qed.

(** the statement of X25 for the input that carries nothing *)
Lemma missing_input_witness :
  exists (r : StreamingExtractor.StreamingExtractionResult)
         (s' : StreamingExtractor.State),
    StreamingExtractor.extractWithProgress Scenario.healthyClient
      Scenario.quietCallback Measures.emptyInput (StreamingExtractor.initial 1000)
    = StreamingExtractor.Ret r s'
    /\ StreamingExtractor.success r = false
    /\ StreamingExtractor.errors r = ["Either figmaData or url must be provided"]
    /\ StreamingExtractor.calls s' = [].
Proof.
  exact (missing_input_is_reported Scenario.healthyClient Scenario.quietCallback
           Measures.emptyInput (StreamingExtractor.initial 1000)
           (fun _ => eq_refl) eq_refl eq_refl).
Defined.

(** ** Session negotiation *)

Section EndpointFacts.

Import FigmaClient.

Lemma indexOf_skips (pre : list string) (e : string) (rest : list string) :
  JsString.startsWith e "event: endpoint" = true ->
  Forall (fun l => JsString.startsWith l "event: endpoint" = false) pre ->
  indexOf (pre ++ e :: rest) e = length pre.
Proof.
  intros He. induction 1 as [|l pre Hl Hpre IH]; cbn.
  - by rewrite String.eqb_refl.
  - destruct (String.eqb_spec l e) as [->|_]; [congruence|]. by rewrite IH.
Qed.

Lemma endpointLoop_finds (e ep : string) (post : list string) (seen : list string) :
  JsString.startsWith e "event: endpoint" = true ->
  forall pre : list string,
    Forall (fun l => JsString.startsWith l "event: endpoint" = false) (seen ++ pre) ->
    endpointLoop ((seen ++ pre) ++ e :: ("data: " ++ ep)%string :: post)
      (pre ++ e :: ("data: " ++ ep)%string :: post)
    = Some ep.
Proof.
  intros He pre. revert seen. induction pre as [|l pre IH]; intros seen Hall.
  - cbn [app endpointLoop]. rewrite He, app_nil_r in *.
    rewrite (indexOf_skips seen e _ He Hall).
    replace (S (length seen)) with (length (seen ++ [e]))
      by (rewrite length_app; cbn; lia).
    replace (seen ++ e :: ("data: " ++ ep)%string :: post)%list
      with ((seen ++ [e]) ++ ("data: " ++ ep)%string :: post)%list
      by (by rewrite <- app_assoc).
    rewrite list_lookup_middle by reflexivity.
    unfold JsString.startsWith at 1. rewrite prefix_app.
    pose proof (substring_from_app "data: " ep) as Hsub.
    cbn [String.length] in Hsub. by rewrite Hsub.
  - cbn [app endpointLoop].
    assert (Hl : JsString.startsWith l "event: endpoint" = false).
    { apply Forall_app in Hall as [_ Hall]. by inversion Hall. }
    rewrite Hl.
    replace ((seen ++ l :: pre) ++ e :: ("data: " ++ ep)%string :: post)%list
      with (((seen ++ [l]) ++ pre) ++ e :: ("data: " ++ ep)%string :: post)%list
      by (by rewrite <- !app_assoc).
    apply IH. by rewrite <- app_assoc.
Qed.

End EndpointFacts.

(** X26. The session endpoint is found wherever its frame stands in
    the first read: when the lines of the chunk are some lines that do
    not start with [event: endpoint], then a line that does, then the
    line [data: ] followed by the endpoint, the endpoint is what the
    negotiation yields, whatever lines follow. *)
Theorem session_endpoint_is_found
    (chunk e ep : string) (pre post : list string)
    (Hlines : JsString.split_lines chunk
              = (pre ++ e :: ("data: " ++ ep)%string :: post)%list)
    (He : JsString.startsWith e "event: endpoint" = true)
    (Hpre : Forall (fun l => JsString.startsWith l "event: endpoint" = false) pre) :
  FigmaClient.sessionEndpointOf chunk = Some ep.
Proof.
  unfold FigmaClient.sessionEndpointOf. rewrite Hlines.
  exact (endpointLoop_finds e ep post [] He pre Hpre).
Qed.

(** the statement of X26 for the endpoint frame of the examples *)
Lemma session_endpoint_witness :
  FigmaClient.sessionEndpointOf Wire.endpointFrame = Some "/messages?sessionId=abc".
Proof.
  apply (session_endpoint_is_found Wire.endpointFrame "event: endpoint"
           "/messages?sessionId=abc" [] [""; ""]).
  - reflexivity.
  - reflexivity.
  - constructor.
Defined.

(** X27. Whatever goes wrong in [getCodeConnectMap] - the URL, the
    transport, the server's answer - what the method rejects with is
    an instance of [FigmaClientError]. *)
Theorem getCodeConnectMap_rejects_with_client_errors
    (JSON_parse : string -> option JsVal)
    (config : FigmaClient.FigmaClientConfig)
    (net : Z -> FigmaClient.Exchange) (fileUrl : string)
    (node : option string) (tGet tSet : Z) (st : FigmaClient.ClientState)
    (e : JsError)
    (Hrej : fst (FigmaClient.getCodeConnectMap JSON_parse config net fileUrl node
                   tGet tSet st) = Rejected e) :
  Err.isClientError e = true.
Proof.
  assert (Hh : forall x : JsError,
            Err.isClientError (FigmaClient.handleError x) = true).
  { intros x. unfold FigmaClient.handleError.
    by destruct (Err.isClientError x) eqn:E. }
  unfold FigmaClient.getCodeConnectMap in Hrej.
  destruct (FigmaClient.cacheEnabled config && _)%bool; [discriminate|].
  destruct (FigmaClient.nodeArgs fileUrl node) as [args|e0];
    [|injection Hrej as <-; apply Hh].
  cbv zeta in Hrej.
  destruct (fst (FigmaClient.makeRequest JSON_parse config net
                   (FigmaClient.transport st))) as [response|e0|];
    [|injection Hrej as <-; apply Hh|discriminate].
  destruct (FigmaClient.codeConnectResult response) as [result|e0];
    [discriminate|injection Hrej as <-; apply Hh].
Qed.

(** the statement of X27 for a server that refuses every connection *)
Lemma rejects_with_client_errors_witness :
  Err.isClientError Err.ServerUnavailable = true.
Proof.
  apply (getCodeConnectMap_rejects_with_client_errors Wire.wire_parse
           RetrySpec.threeAttempts (fun _ => RetrySpec.refusing)
           Scenario.simpleUrl None 0 5 Measures.freshClient).
  vm_compute. reflexivity.
Defined.
